(** * pybalt: instance selection and request resolution of [Cobalt]

  A shallow embedding of [src/pybalt/cobalt.py]: the session object
  [Cobalt], its selector [Cobalt.get_instance] and its resolver
  [Cobalt.get], with the network as an oracle and the client object as
  explicit state. *)

From Stdlib Require Import ZArith String Ascii List Lia.
From stdpp Require Import gmap strings list fin_maps.
Import ListNotations.

Local Open Scope string_scope.
Local Open Scope Z_scope.

(** ** Python string primitives

  Python [str] values are modelled as [string], one [ascii] per
  character (the ASCII range of Python's character classes). *)

Module PyStr.

Definition dquote : ascii := "034"%char.
Definition squote : ascii := "'"%char.
Definition backslash : ascii := "\"%char.
Definition dot : ascii := "."%char.

Definition chr (c : ascii) : string := String c EmptyString.

(** [s.split(sep)] for a one-character separator: never the empty list. *)
Fixpoint split (sep : ascii) (s : string) : list string :=
  match s with
  | EmptyString => [EmptyString]
  | String c rest =>
      if Ascii.eqb c sep then EmptyString :: split sep rest
      else match split sep rest with
           | [] => [chr c]
           | seg :: segs => String c seg :: segs
           end
  end.

(** [l[i]] for [i >= 0]: [None] stands for Python's [IndexError]. *)
Definition index {A} (l : list A) (i : nat) : option A := nth_error l i.

(** [l[-1]]. *)
Fixpoint last_item {A} (l : list A) : option A :=
  match l with
  | [] => None
  | [x] => Some x
  | _ :: l' => last_item l'
  end.

Fixpoint is_prefix (p s : string) : bool :=
  match p, s with
  | EmptyString, _ => true
  | String a p', String b s' => Ascii.eqb a b && is_prefix p' s'
  | String _ _, EmptyString => false
  end.

(** [s.replace(old, new)] scanning left to right over non-overlapping
    occurrences; [skip] counts the characters of a match still to drop. *)
Fixpoint replace_from (old new : string) (skip : nat) (s : string) : string :=
  match s with
  | EmptyString => EmptyString
  | String c rest =>
      match skip with
      | S k => replace_from old new k rest
      | O =>
          if is_prefix old s
          then new ++ replace_from old new (Nat.pred (String.length old)) rest
          else String c (replace_from old new O rest)
      end
  end.

(** With an empty [old] Python puts [new] around every character. *)
Fixpoint intersperse (new s : string) : string :=
  match s with
  | EmptyString => new
  | String c rest => new ++ String c (intersperse new rest)
  end.

Definition replace (old new s : string) : string :=
  match old with
  | EmptyString => intersperse new s
  | String _ _ => replace_from old new O s
  end.

(** Characters [str.strip()] treats as white space: 0x1c to 0x1f are among
    them. *)
Definition is_space (c : ascii) : bool :=
  let n := nat_of_ascii c in
  ((9 <=? n)%nat && (n <=? 13)%nat) || ((28 <=? n)%nat && (n <=? 32)%nat).

Fixpoint lstrip (s : string) : string :=
  match s with
  | EmptyString => EmptyString
  | String c rest => if is_space c then lstrip rest else s
  end.

Fixpoint rstrip (s : string) : string :=
  match s with
  | EmptyString => EmptyString
  | String c rest =>
      match rstrip rest with
      | EmptyString => if is_space c then EmptyString else chr c
      | r => String c r
      end
  end.

Definition strip (s : string) : string := rstrip (lstrip s).

Definition lower_char (c : ascii) : ascii :=
  let n := nat_of_ascii c in
  if ((65 <=? n)%nat && (n <=? 90)%nat)%bool then ascii_of_nat (n + 32) else c.

Fixpoint lower (s : string) : string :=
  match s with
  | EmptyString => EmptyString
  | String c rest => String (lower_char c) (lower rest)
  end.

Definition digit_value (c : ascii) : option Z :=
  let n := nat_of_ascii c in
  if ((48 <=? n)%nat && (n <=? 57)%nat)%bool then Some (Z.of_nat (n - 48)) else None.

(** White space [int()] skips around a literal: tab, line feed, vertical
    tab, form feed, carriage return and space. That is fewer characters than
    [str.strip()] removes: 0x1c to 0x1f are no white space here. *)
Definition is_int_space (c : ascii) : bool :=
  let n := nat_of_ascii c in
  ((9 <=? n)%nat && (n <=? 13)%nat) || (n =? 32)%nat.

Fixpoint skip_int_space (s : string) : string :=
  match s with
  | EmptyString => EmptyString
  | String c rest => if is_int_space c then skip_int_space rest else s
  end.

(** The digits of a decimal literal and what may follow them: a single
    underscore is allowed between two digits, and after the last digit
    nothing but white space. [acc] is the value read so far, [count] the
    number of digits read, [after_digit] says whether the previous character
    was a digit. *)
Fixpoint digits (acc : Z) (count : nat) (after_digit : bool) (s : string)
  : option (Z * nat) :=
  match s with
  | EmptyString => if after_digit then Some (acc, count) else None
  | String c rest =>
      match digit_value c with
      | Some d => digits (10 * acc + d) (S count) true rest
      | None =>
          if Ascii.eqb c "_" then
            if after_digit then digits acc count false rest else None
          else
            if after_digit then
              match skip_int_space s with
              | EmptyString => Some (acc, count)
              | String _ _ => None
              end
            else None
      end
  end.

(** The number of digits [int()] accepts in a string
    ([sys.int_info.default_max_str_digits]). *)
Definition max_str_digits : nat := 4300.

(** [int(s)] in base ten: [None] stands for [ValueError]. White space is
    skipped, then an optional sign, then the literal is read. *)
Definition int (s : string) : option Z :=
  let '(negative, literal) :=
    match skip_int_space s with
    | String c rest =>
        if Ascii.eqb c "+" then (false, rest)
        else if Ascii.eqb c "-" then (true, rest)
        else (false, String c rest)
    | EmptyString => (false, EmptyString)
    end in
  match digits 0 0 false literal with
  | Some (value, count) =>
      if (count <=? max_str_digits)%nat
      then Some (if negative : bool then - value else value)
      else None
  | None => None
  end.

(** Truth value of a string: empty is false. *)
Definition truthy (s : string) : bool :=
  match s with EmptyString => false | _ => true end.

End PyStr.

(** ** Data model *)

(** An entry of the public registry
    ([https://instances.cobalt.best/api/instances.json]). [trust] and
    [score] are JSON numbers, integer-valued here; [services] is the JSON
    object of per-service health flags in document order. *)
Record Instance := mkInstance {
  api : string;
  protocol : string;
  trust : Z;
  version : string;
  services : list (string * bool);
  score : Z
}.

(** The JSON body of an extraction request (lines 263-272). *)
Module Body.
Record t := mk {
  url : string;
  videoQuality : string;
  youtubeVideoCodec : string;
  filenameStyle : string;
  audioFormat : option string
}.
End Body.

(** [class File] (lines 39-69); the back reference [cobalt] is left out. *)
Module File.
Record t := mk {
  status : string;
  url : string;
  tunnel : string;
  filename : string;
  extension : option string;
  downloaded : bool;
  path : option string
}.

(** [File.__init__]. *)
Definition init (status url filename tunnel : string) : t :=
  {| status := status;
     url := url;
     tunnel := tunnel;
     filename := filename;
     extension := if PyStr.truthy filename
                  then PyStr.last_item (PyStr.split PyStr.dot filename)
                  else None;
     downloaded := false;
     path := None |}.
End File.

Inductive Method := GET | POST.

#[global] Instance Method_eq_dec : EqDecision Method.
Proof. solve_decision. Defined.

(** A request as it leaves the client: the headers are those of the
    [ClientSession] it is sent through. *)
Record Request := mkRequest {
  method : Method;
  target : string;
  sent_headers : gmap string string;
  payload : option Body.t
}.

(** The fields of a [Cobalt] object. The constructor always leaves a string
    in [api_instance]; the empty string stands for any false value there.
    [skipped_instances] is a Python list: appended to, searched with [in]. *)
Record Cobalt := mkCobalt {
  api_instance : string;
  api_key : string;
  headers : gmap string string;
  skipped_instances : list string
}.

(** The client object together with the requests sent so far, oldest
    first. *)
Record World := mkWorld {
  self : Cobalt;
  wire : list Request
}.

(** Exceptions that leave the modelled code. The [pybalt.exceptions]
    classes carry the values their message is formatted from. *)
Inductive PyExc :=
| LinkError (url code : string)
| ContentError (url code : string)
| InvalidBody (code : string)
| AuthError (code : string)
| UnrecognizedError (code : string)
| BadInstance (instance : string)
| ClientConnectorError
| IndexError
| ValueError
| OtherError.

Inductive outcome (A : Type) :=
| Return (a : A)
| Raise (e : PyExc)
| OutOfFuel.
Arguments Return {A} a.
Arguments Raise {A} e.
Arguments OutOfFuel {A}.

(** ** The network as an oracle

    What a request is answered with may depend on the request and on how
    many requests were sent before it. *)

Inductive RegistryResponse :=
| RegistryOk (instances : list Instance)
| RegistryConnectorError
| RegistryFailed.

Inductive ProbeResponse :=
| ProbeOk (canonical_url : string)
| ProbeFailed.

Inductive PostResponse :=
| PostOk (status tunnel filename : string)
| PostApiError (code : string)
| PostConnectorError
| PostFailed.

Record Network := mkNetwork {
  registry_response : nat -> Request -> RegistryResponse;
  probe_response : nat -> Request -> ProbeResponse;
  post_response : nat -> Request -> PostResponse
}.

(** ** State and exception monad *)

Definition M (A : Type) : Type := World -> outcome A * World.

Definition ret {A} (a : A) : M A := fun w => (Return a, w).
Definition raise {A} (e : PyExc) : M A := fun w => (Raise e, w).
Definition out_of_fuel {A} : M A := fun w => (OutOfFuel, w).

Definition bind {A B} (m : M A) (k : A -> M B) : M B :=
  fun w =>
    match m w with
    | (Return a, w') => k a w'
    | (Raise e, w') => (Raise e, w')
    | (OutOfFuel, w') => (OutOfFuel, w')
    end.

Notation "'do' x <- m ; k" := (bind m (fun x => k))
  (at level 10, x name, m at level 100, k at level 200).
Notation "'do_' m ; k" := (bind m (fun _ => k))
  (at level 10, m at level 100, k at level 200).

Definition read {A} (f : Cobalt -> A) : M A := fun w => (Return (f (self w)), w).
Definition modify (f : Cobalt -> Cobalt) : M unit :=
  fun w => (Return tt, {| self := f (self w); wire := wire w |}).

Definition set_api_instance (u : string) (c : Cobalt) : Cobalt :=
  {| api_instance := u; api_key := api_key c; headers := headers c;
     skipped_instances := skipped_instances c |}.

Definition set_header (k v : string) (c : Cobalt) : Cobalt :=
  {| api_instance := api_instance c; api_key := api_key c;
     headers := <[k := v]> (headers c);
     skipped_instances := skipped_instances c |}.

(** [self.skipped_instances.append(self.api_instance)]. *)
Definition skip_current (c : Cobalt) : Cobalt :=
  {| api_instance := api_instance c; api_key := api_key c; headers := headers c;
     skipped_instances := skipped_instances c ++ [api_instance c] |}.

(** Puts a request on the wire and hands back its index. *)
Definition send (r : Request) : M nat :=
  fun w => (Return (length (wire w)), {| self := self w; wire := wire w ++ [r] |}).

(** [try: ... except client_exceptions.ClientConnectorError:
    raise exceptions.BadInstance(...)] (lines 236, 345-348). *)
Definition try_connector {A} (m : M A) : M A :=
  fun w =>
    match m w with
    | (Raise ClientConnectorError, w') =>
        (Raise (BadInstance (api_instance (self w'))), w')
    | r => r
    end.

(** ** [Cobalt.__init__] (lines 92-143) *)

Fixpoint contains (needle hay : string) : bool :=
  PyStr.is_prefix needle hay ||
  match hay with
  | EmptyString => false
  | String _ rest => contains needle rest
  end.

Definition default_instance : string := "https://dwnld.nichind.dev".
Definition default_api_key : string := "b05007aa-bb63-4267-a66e-78f8e10bf9bf".

(** [x if x else None] on an optional string: empty counts as absent. *)
Definition nonempty (o : option string) : option string :=
  match o with
  | Some s => if PyStr.truthy s then Some s else None
  | None => None
  end.

(** [getenv] is the process environment. [None] is the [KeyError] of
    [self.headers["Authorization"]] on caller headers without that key. *)
Definition init (getenv : string -> option string)
    (api_instance api_key : option string)
    (headers : option (gmap string string)) : option Cobalt :=
  let api_instance :=
    match api_instance with
    | None => nonempty (getenv "COBALT_API_URL")
    | Some _ => api_instance
    end in
  let api_key :=
    match api_key with
    | None => nonempty (getenv "COBALT_API_KEY")
    | Some _ => api_key
    end in
  let self_api_instance :=
    match nonempty api_instance with
    | Some a => (if contains "http" a then "" else "https://") ++ a
    | None => default_instance
    end in
  let self_api_key := default "" (nonempty api_key) in
  let self_api_key :=
    if (String.eqb self_api_instance default_instance
        && negb (PyStr.truthy self_api_key))%bool
    then default_api_key else self_api_key in
  let self_headers :=
    match headers with
    | Some h => h
    | None =>
        <["Authorization" :=
            if PyStr.truthy self_api_key then "Api-Key " ++ self_api_key else ""]>
          (<["Content-Type" := "application/json"]>
             (<["Accept" := "application/json"]> ∅))
    end in
  let self_headers :=
    match self_headers !! "User-Agent" with
    | Some _ => self_headers
    | None =>
        <["User-Agent" := default "pybalt/python" (nonempty (getenv "COBALT_USER_AGENT"))]>
          self_headers
    end in
  match self_headers !! "Authorization" with
  | None => None
  | Some a =>
      Some {| api_instance := self_api_instance;
              api_key := self_api_key;
              headers := if String.eqb a "" then delete "Authorization" self_headers
                         else self_headers;
              skipped_instances := [] |}
  end.

(** ** [Cobalt.get_instance] (lines 145-195) *)

Definition pybalt_user_agent : string :=
  "https://github.com/nichind/pybalt - Cobalt CLI & Python module. (aiohttp Client)".

Definition registry_url : string := "https://instances.cobalt.best/api/instances.json".

(** [int(instance["version"].split(".")[0])]; [None] is [ValueError]. *)
Definition version_major (instance : Instance) : option Z :=
  PyStr.index (PyStr.split PyStr.dot (version instance)) 0 ≫= PyStr.int.

(** The counting loop of lines 171-173. *)
Definition dead_services (instance : Instance) : nat :=
  fold_left (fun dead '(_, status) => if status : bool then dead else S dead)
            (services instance) O.

(** The filtering loop of lines 164-176 over the rest of [instances], with
    [good_instances] as collected so far; [None] is the exception of a
    version that is not a number. *)
Fixpoint filter_instances (instances good_instances : list Instance)
  : option (list Instance) :=
  match instances with
  | [] => Some good_instances
  | instance :: rest =>
      match version_major instance with
      | None => None
      | Some major =>
          if ((major <? 10) || negb (trust instance =? 1))%bool
          then filter_instances rest good_instances
          else if (7 <? dead_services instance)%nat
          then filter_instances rest good_instances
          else filter_instances rest (good_instances ++ [instance])
      end
  end.

(** The two tests of lines 166-175 on one entry, taken together: [true]
    when the entry is appended to [good_instances]. *)
Definition passes (instance : Instance) : bool :=
  match version_major instance with
  | Some major =>
      negb ((major <? 10) || negb (trust instance =? 1))
      && negb (7 <? dead_services instance)%nat
  | None => false
  end.

(** [list.sort(key=score, reverse=True)]: descending and stable. *)
Fixpoint insert_by_score (x : Instance) (l : list Instance) : list Instance :=
  match l with
  | [] => [x]
  | y :: l' => if score y <=? score x then x :: l else y :: insert_by_score x l'
  end.

Definition sort_by_score (l : list Instance) : list Instance :=
  fold_right insert_by_score [] l.

Definition probe_url (instance : Instance) : string :=
  protocol instance ++ "://" ++ api instance.

Section Client.

Variable net : Network.

(** The [while True] loop of lines 177-194, one iteration per unit of
    [fuel]. With no candidate left [good_instances[0]] raises inside the
    [try] and [good_instances.pop(0)] raises again inside the handler, which
    ends the loop with [IndexError]. *)
Fixpoint select_loop (fuel : nat) (cs : gmap string string)
    (good_instances : list Instance) : M unit :=
  match fuel with
  | O => out_of_fuel
  | S fuel' =>
      match sort_by_score good_instances with
      | [] => raise IndexError
      | first :: rest =>
          let request := mkRequest GET (probe_url first) cs None in
          do now <- send request;
          match probe_response net now request with
          | ProbeOk canonical_url =>
              do skipped <- read skipped_instances;
              if bool_decide (canonical_url ∈ skipped)
              then select_loop fuel' cs rest
              else modify (set_api_instance canonical_url)
          | ProbeFailed => select_loop fuel' cs rest
          end
      end
  end.

Definition get_instance : M string :=
  do_ modify (set_header "User-Agent" pybalt_user_agent);
  do cs <- read headers;
  let request := mkRequest GET registry_url cs None in
  do now <- send request;
  match registry_response net now request with
  | RegistryConnectorError => raise ClientConnectorError
  | RegistryFailed => raise OtherError
  | RegistryOk instances =>
      match filter_instances instances [] with
      | None => raise ValueError
      | Some good_instances =>
          do_ select_loop (S (length good_instances)) cs good_instances;
          read api_instance
      end
  end.

(** ** [Cobalt.get] (lines 197-348) *)

Definition canonical_qualities : list string :=
  ["max"; "3840"; "2160"; "1440"; "1080"; "720"; "480"; "360"; "240"; "144"].

Definition quality_aliases : gmap string string :=
  list_to_map
    [("8k", "3840"); ("4k", "2160"); ("2k", "1440"); ("1080p", "1080");
     ("720p", "720"); ("480p", "480"); ("360p", "360"); ("240p", "240");
     ("144p", "144")].

(** Lines 237-262; [None] is Python's [None], which [download] passes by
    default. *)
Definition normalize_quality (quality : option string) : string :=
  match quality with
  | Some q =>
      if bool_decide (q ∈ canonical_qualities) then q
      else default "1080" (quality_aliases !! q)
  | None => "1080"
  end.

(** The chain of three [replace] calls of lines 264 and 341: single quote,
    double quote, backslash, each replaced by the empty string. *)
Definition sanitize (url : string) : string :=
  PyStr.replace (PyStr.chr PyStr.backslash) ""
    (PyStr.replace (PyStr.chr PyStr.dquote) ""
       (PyStr.replace (PyStr.chr PyStr.squote) "" url)).

(** Lines 263-272. *)
Definition request_body (url : string) (quality : string) (filename_style : string)
    (audio_format youtube_video_codec : option string) : Body.t :=
  {| Body.url := sanitize url;
     Body.videoQuality := quality;
     Body.youtubeVideoCodec := default "h264" (nonempty youtube_video_codec);
     Body.filenameStyle := filename_style;
     Body.audioFormat := nonempty audio_format |}.

(** The test of lines 231-233. *)
Definition wants_fetch (api_instance : string) : bool :=
  negb (PyStr.truthy api_instance) ||
  bool_decide
    (PyStr.lower
       (PyStr.replace "http://" ""
          (PyStr.replace "https://" "" (PyStr.strip api_instance)))
     ∈ ["f"; "fetch"; "get"]).

(** [cs.post(self.api_instance, json=json)] through the session [cs]. *)
Definition post (cs : gmap string string) (json : Body.t) : M PostResponse :=
  do instance <- read api_instance;
  let request := mkRequest POST instance cs (Some json) in
  do now <- send request;
  ret (post_response net now request).

(** Lines 231-235: select an instance when none is configured. *)
Definition ensure_instance : M string :=
  do instance <- read api_instance;
  if wants_fetch instance then get_instance else ret instance.

(** The dispatch of lines 277-337 on the third segment of the error code;
    [retry] stands for the three statements the retrying branches share:
    append to [skipped_instances], [get_instance], [get] again. *)
Definition on_error (retry : M File.t) (url code : string) : M File.t :=
  let segments := PyStr.split PyStr.dot code in
  match PyStr.index segments 2 with
  | None => raise IndexError
  | Some category =>
      if String.eqb category "link" then raise (LinkError url code)
      else if String.eqb category "content" then raise (ContentError url code)
      else if String.eqb category "invalid_body" then raise (InvalidBody code)
      else if String.eqb category "auth" then
        if (bool_decide (PyStr.last_item segments = Some "missing")
            || bool_decide (PyStr.last_item segments = Some "not_found"))%bool
        then retry
        else raise (AuthError code)
      else if String.eqb category "youtube" then retry
      else if String.eqb category "fetch" then retry
      else raise (UnrecognizedError code)
  end.

(** [ClientSession(headers=self.headers)] copies the mapping when the
    session is built; requests sent through [cs] carry the headers as they
    were then. One unit of [fuel] per call of [get], the retries being
    calls of [get] from itself. *)
Fixpoint get (fuel : nat) (url : string) (quality : option string)
    (download_mode filename_style : string)
    (audio_format youtube_video_codec : option string) : M File.t :=
  match fuel with
  | O => out_of_fuel
  | S fuel' =>
      do cs <- read headers;
      do_ ensure_instance;
      try_connector
        (let quality := normalize_quality quality in
         let json := request_body url quality filename_style audio_format
                                  youtube_video_codec in
         do response <- post cs json;
         match response with
         | PostConnectorError => raise ClientConnectorError
         | PostFailed => raise OtherError
         | PostOk status tunnel filename =>
             ret (File.init status (sanitize url) filename tunnel)
         | PostApiError code =>
             on_error
               (do_ modify skip_current;
                do_ get_instance;
                get fuel' url (Some quality) download_mode filename_style
                    audio_format youtube_video_codec)
               url code
         end)
  end.

(** The request of [Cobalt.download] for one resolved file (lines 431 and
    441): a new session over [self.headers] and a GET of the tunnel. Writing
    the file and the progress display are left out. *)
Definition download_request (tunnel : string) : M nat :=
  do cs <- read headers;
  send (mkRequest GET tunnel cs None).

End Client.

(** ** Sessions as sequences of calls *)

Inductive Call :=
| CallGet (fuel : nat) (url : string) (quality : option string)
          (download_mode filename_style : string)
          (audio_format youtube_video_codec : option string)
| CallGetInstance
| CallDownload (tunnel : string).

(** The world after one call, whatever the call returned or raised. *)
Definition after (net : Network) (c : Call) (w : World) : World :=
  match c with
  | CallGet fuel url quality download_mode filename_style audio_format codec =>
      snd (get net fuel url quality download_mode filename_style audio_format codec w)
  | CallGetInstance => snd (get_instance net w)
  | CallDownload tunnel => snd (download_request tunnel w)
  end.

Definition run (net : Network) (calls : list Call) (w : World) : World :=
  fold_left (fun w c => after net c w) calls w.

(** Requests put on the wire between two worlds. *)
Definition sent_since (w w' : World) : list Request :=
  drop (length (wire w)) (wire w').

Local Open Scope list_scope.

(** ** Spec-side definitions used in the statements *)

(** The characters the sanitisation is said to remove. *)
Definition is_quote_or_backslash (c : ascii) : bool :=
  (Ascii.eqb c PyStr.squote || Ascii.eqb c PyStr.dquote || Ascii.eqb c PyStr.backslash)%bool.

Fixpoint remove_chars (bad : ascii -> bool) (s : string) : string :=
  match s with
  | EmptyString => EmptyString
  | String c rest =>
      if bad c then remove_chars bad rest else String c (remove_chars bad rest)
  end.

(** The input with every quote and backslash character removed. *)
Definition without_quotes (s : string) : string :=
  remove_chars is_quote_or_backslash s.

(** Number of services an instance reports as unhealthy. *)
Definition unhealthy (instance : Instance) : nat :=
  length (filter (fun p : string * bool => p.2 = false) (services instance)).

(** The major component of a version as the specification reads it: the
    decimal number written before the first dot of the version string. *)
Fixpoint before_first_dot (v : string) : string :=
  match v with
  | EmptyString => EmptyString
  | String c rest =>
      if Ascii.eqb c "." then EmptyString else String c (before_first_dot rest)
  end.

(** The place of [c] in [s], counted from [n]. *)
Fixpoint position (c : ascii) (s : string) (n : Z) : option Z :=
  match s with
  | EmptyString => None
  | String a rest => if Ascii.eqb a c then Some n else position c rest (n + 1)
  end.

(** The value of a decimal digit is its place among the ten digits. *)
Definition decimal_digit (c : ascii) : option Z := position c "0123456789" 0.

(** The number written by a string of decimal digits, [acc] being the
    number written by the digits before it. *)
Fixpoint decimal (acc : Z) (s : string) : option Z :=
  match s with
  | EmptyString => Some acc
  | String c rest =>
      match decimal_digit c with
      | Some d => decimal (10 * acc + d) rest
      | None => None
      end
  end.

Definition major_component (v : string) : option Z :=
  match before_first_dot v with
  | EmptyString => None
  | s => decimal 0 s
  end.

Fixpoint any_char (p : ascii -> bool) (s : string) : bool :=
  match s with
  | EmptyString => false
  | String c rest => (p c || any_char p rest)%bool
  end.

(** A character that no decimal literal has in it or around it: no digit,
    underscore or sign, and none of tab, line feed, vertical tab, form feed,
    carriage return and space. *)
Definition foreign (c : ascii) : bool :=
  match decimal_digit c with
  | Some _ => false
  | None =>
      negb (existsb (Ascii.eqb c)
              ["_"; "+"; "-"; " "; "009"; "010"; "011"; "012"; "013"]%char)
  end.

(** A version that begins with no number: nothing stands before its first
    dot, or a character that no decimal literal has. *)
Definition unnumbered (v : string) : Prop :=
  before_first_dot v = "" \/ any_char foreign (before_first_dot v) = true.

(** A version whose major component is a decimal number that [int()] takes:
    its digits are within the limit of the interpreter. *)
Definition plain_version (v : string) : Prop :=
  is_Some (major_component v)
  /\ (String.length (before_first_dot v) <= PyStr.max_str_digits)%nat.

(** The filtering policy in one predicate, in the words of the
    specification. *)
Definition is_good (instance : Instance) : Prop :=
  (exists major, major_component (version instance) = Some major /\ 10 <= major)
  /\ trust instance = 1
  /\ (unhealthy instance <= 7)%nat.

(** Requests of a [get_instance] call: GETs through its own session. *)
Definition selector_request (cs : gmap string string) (r : Request) : Prop :=
  method r = GET /\ sent_headers r = cs /\ payload r = None.

(** [w'] has the wire of [w] and then requests that all satisfy [P]. *)
Definition extends (P : Request -> Prop) (w w' : World) : Prop :=
  exists new, wire w' = wire w ++ new /\ Forall P new.

(** A candidate no probe can make the selector accept. *)
Definition discarded (net : Network) (cs : gmap string string)
    (skipped : list string) (instance : Instance) : Prop :=
  forall now,
    match probe_response net now (mkRequest GET (probe_url instance) cs None) with
    | ProbeOk canonical_url => canonical_url ∈ skipped
    | ProbeFailed => True
    end.

(** A request sent with the User-Agent that [get_instance] writes. *)
Definition carries_pybalt_user_agent (r : Request) : Prop :=
  sent_headers r !! "User-Agent" = Some pybalt_user_agent.

(** ** Worlds and networks of the examples *)

(** Registry entries: too old, not trusted, eight services down, and one
    that passes with seven down. *)
Definition instance_old : Instance :=
  mkInstance "old.example" "https" 1 "9.9.1" [] 90.
Definition instance_untrusted : Instance :=
  mkInstance "shady.example" "https" 0 "10.1" [] 80.
Definition instance_unhealthy : Instance :=
  mkInstance "sick.example" "https" 1 "11.0"
    [("a", false); ("b", false); ("c", false); ("d", false); ("e", false);
     ("f", false); ("g", false); ("h", false); ("i", true)] 70.
Definition instance_good : Instance :=
  mkInstance "cobalt.example" "https" 1 "10.5.1"
    [("youtube", true); ("a", false); ("b", false); ("c", false); ("d", false);
     ("e", false); ("f", false); ("g", false)] 60.

Definition plain_headers : gmap string string :=
  <["User-Agent" := "pybalt/python"]>
    (<["Content-Type" := "application/json"]> (<["Accept" := "application/json"]> ∅)).

Definition world_active : World :=
  mkWorld (mkCobalt "https://cobalt.example/" "" plain_headers []) [].

Definition instance_backup : Instance :=
  mkInstance "backup.example" "https" 1 "10.4" [("youtube", true)] 50.

(** A network on which [cobalt.example] always answers with [code] and
    [backup.example] resolves. *)
Definition net_answering (code : string) : Network :=
  {| registry_response := fun _ _ => RegistryOk [instance_backup; instance_good; instance_old];
     probe_response := fun _ r =>
       if String.eqb (target r) "https://cobalt.example"
       then ProbeOk "https://cobalt.example/"
       else if String.eqb (target r) "https://backup.example"
       then ProbeOk "https://backup.example/"
       else ProbeFailed;
     post_response := fun _ r =>
       if String.eqb (target r) "https://cobalt.example/"
       then PostApiError code
       else PostOk "tunnel" "https://backup.example/tunnel?id=1" "clip.mp4" |}.

(** A client built with the instance left to be fetched. *)
Definition client_fetch : Cobalt := mkCobalt "https://fetch" "" plain_headers [].

(** A registry with a single good instance, which always fails to fetch. *)
Definition net_single : Network :=
  {| registry_response := fun _ _ => RegistryOk [instance_good];
     probe_response := fun _ _ => ProbeOk "https://cobalt.example/";
     post_response := fun _ _ => PostApiError "error.api.fetch.failed" |}.

From Stdlib Require Import Sorted.

(** ** The selector as one pass over the ranked candidates *)

(** Probes the candidates of [l] in order, the first at request index
    [now]: the canonical URL of the first one accepted, and the requests
    sent. *)
Fixpoint probe_in_order (net : Network) (cs : gmap string string)
    (skipped : list string) (now : nat) (l : list Instance)
  : option string * list Request :=
  match l with
  | [] => (None, [])
  | candidate :: rest =>
      let request := mkRequest GET (probe_url candidate) cs None in
      match probe_response net now request with
      | ProbeOk canonical_url =>
          if bool_decide (canonical_url ∈ skipped)
          then let '(found, sent) := probe_in_order net cs skipped (S now) rest in
               (found, request :: sent)
          else (Some canonical_url, [request])
      | ProbeFailed =>
          let '(found, sent) := probe_in_order net cs skipped (S now) rest in
          (found, request :: sent)
      end
  end.

(** Scores fall along the list. *)
Definition descending (l : list Instance) : Prop :=
  StronglySorted (fun a b => score b <= score a) l.

(** The request [get_instance] opens with, from a client [c]. *)
Definition registry_request (c : Cobalt) : Request :=
  mkRequest GET registry_url
    (headers (set_header "User-Agent" pybalt_user_agent c)) None.

(** ** Further worlds and networks of the examples *)

Definition instance_tie : Instance :=
  mkInstance "tie.example" "https" 1 "10.9" [] 60.

Definition instance_unversioned : Instance :=
  mkInstance "dev.example" "https" 1 "v10.2" [] 99.

(** A network whose registry is [instances]; only [backup.example] and
    [tie.example] answer the probe, and every extraction resolves. *)
Definition net_listing (instances : list Instance) : Network :=
  {| registry_response := fun _ _ => RegistryOk instances;
     probe_response := fun _ r =>
       if String.eqb (target r) "https://backup.example"
       then ProbeOk "https://backup.example/"
       else if String.eqb (target r) "https://tie.example"
       then ProbeOk "https://tie.example/"
       else ProbeFailed;
     post_response := fun _ _ =>
       PostOk "tunnel" "https://backup.example/tunnel?id=1" "clip.mp4" |}.

(** A network whose registry cannot be reached; [cobalt.example] answers
    every extraction with [code]. *)
Definition net_unreachable_registry (code : string) : Network :=
  {| registry_response := fun _ _ => RegistryConnectorError;
     probe_response := fun _ _ => ProbeFailed;
     post_response := fun _ _ => PostApiError code |}.

(** A network on which no instance accepts a connection. *)
Definition net_refusing : Network :=
  {| registry_response := fun _ _ => RegistryOk [instance_backup];
     probe_response := fun _ _ => ProbeOk "https://backup.example/";
     post_response := fun _ _ => PostConnectorError |}.

(** The categories the dispatch of [get] knows. *)
Definition known_categories : list string :=
  ["link"; "content"; "invalid_body"; "auth"; "youtube"; "fetch"].

(** A client built for [cobalt.example] with the key [k]. *)
Definition client_keyed : Cobalt :=
  mkCobalt "https://cobalt.example" "k"
    (<["Authorization" := "Api-Key k"]> plain_headers) [].

(** ** Helpers of the further statements *)

Fixpoint has_char (c : ascii) (s : string) : bool :=
  match s with
  | EmptyString => false
  | String a rest => (Ascii.eqb a c || has_char c rest)%bool
  end.

(** The spellings of [t] in upper and lower case, for [t] in lower case. *)
Fixpoint spellings (t : string) : list string :=
  match t with
  | EmptyString => [EmptyString]
  | String x rest =>
      flat_map (fun v => [String x v; String (ascii_of_nat (nat_of_ascii x - 32)) v])
               (spellings rest)
  end.

(** The names [get] takes for a request to find an instance. *)
Definition sentinels : list string := ["f"; "fetch"; "get"].

(** ** [Cobalt.download] (lines 350-522) and [File.download] (lines 71-85)

    The operating system, the playlist extractor and the tunnel are
    oracles; what the program does to them is recorded in the state.
    Printing is left out, and so is [KeyboardInterrupt], which can arrive at
    any point of the [try] of lines 433-522; a write to a file that is open
    succeeds. *)

(** The [playlist] argument: a flag, or a link passed in its place. *)
Inductive PlaylistArg :=
| PlaylistFlag (b : bool)
| PlaylistLink (link : string).

Definition playlist_truthy (playlist : PlaylistArg) : bool :=
  match playlist with
  | PlaylistFlag b => b
  | PlaylistLink link => PyStr.truthy link
  end.

(** [startfile(path)] and [subprocess.run(argv)]. *)
Inductive Launch :=
| Startfile (path : string)
| Run (argv : list string).

(** How the body of the tunnel ends after its chunks: end of stream, or an
    exception of the transport. *)
Inductive Ending := Eof | Broken.

Inductive TunnelResponse :=
| TunnelBody (chunks : list string) (ending : Ending)
| TunnelFailed.

(** Exceptions that leave [download]: those of [get], those of Python
    itself, and any exception of an external collaborator. *)
Inductive HostExc :=
| Resolver (e : PyExc)
| TypeError
| AttributeError
| UnboundLocalError (name : string)
| ExternalError.

Inductive result (A : Type) :=
| Done (a : A)
| Failed (e : HostExc)
| Starved.
Arguments Done {A} a.
Arguments Failed {A} e.
Arguments Starved {A}.

(** [progress_due now k] and [speed_due now k] are the outcomes of the
    clock tests of lines 451 and 455 at chunk [k] of the response to request
    [now]; at chunk 0 both compare the clock with 0. The clock is taken not
    to run backwards between the readings of one iteration, so that line 457
    divides by no zero. [video_urls] is the playlist extractor,
    [tunnel_response] the answer of a tunnel; [None] and the [_ok] flags at
    [false] stand for an exception of the collaborator. *)
Record Os := mkOs {
  join : string -> string -> string;
  home : string;
  dirname : string -> string;
  platform : string;
  path_exists : list string -> string -> bool;
  makedirs_ok : string -> bool;
  open_ok : string -> bool;
  launch_ok : Launch -> bool;
  video_urls : option string -> option (list string);
  tunnel_response : nat -> Request -> TunnelResponse;
  progress_due : nat -> nat -> bool;
  speed_due : nat -> nat -> bool
}.

(** The client and the wire, the directories made, the bytes written to
    each path opened for writing, and the programs launched. *)
Record Host := mkHost {
  world : World;
  made : list string;
  written : gmap string string;
  launched : list Launch
}.

Definition H (A : Type) : Type := Host -> result A * Host.

Definition done {A} (a : A) : H A := fun h => (Done a, h).
Definition fail {A} (e : HostExc) : H A := fun h => (Failed e, h).
Definition starved {A} : H A := fun h => (Starved, h).

Definition and_then {A B} (m : H A) (k : A -> H B) : H B :=
  fun h =>
    match m h with
    | (Done a, h') => k a h'
    | (Failed e, h') => (Failed e, h')
    | (Starved, h') => (Starved, h')
    end.

Notation "'exec' x <- m ; k" := (and_then m (fun x => k))
  (at level 10, x name, m at level 100, k at level 200).
Notation "'exec_' m ; k" := (and_then m (fun _ => k))
  (at level 10, m at level 100, k at level 200).

(** A computation of the client, run on the host. *)
Definition on_world {A} (m : M A) : H A :=
  fun h =>
    let '(r, w) := m (world h) in
    let h' := mkHost w (made h) (written h) (launched h) in
    match r with
    | Return a => (Done a, h')
    | Raise e => (Failed (Resolver e), h')
    | OutOfFuel => (Starved, h')
    end.

Fixpoint for_each {A} (body : A -> H unit) (l : list A) : H unit :=
  match l with
  | [] => done tt
  | x :: rest => exec_ body x; for_each body rest
  end.

(** [len(findall("[&?]list=([^&]+)", url)) > 0]: somewhere an ampersand or
    question mark, then [list=], then a character that is no ampersand. *)
Fixpoint has_list_param (url : string) : bool :=
  match url with
  | EmptyString => false
  | String c rest =>
      ((Ascii.eqb c "&" || Ascii.eqb c "?")
       && PyStr.is_prefix "list=" rest
       && match String.get 5 rest with
          | Some x => negb (Ascii.eqb x "&")
          | None => false
          end)
      || has_list_param rest
  end.

(** [s[-1]] of a non-empty string. *)
Fixpoint last_char (s : string) : option ascii :=
  match s with
  | EmptyString => None
  | String c EmptyString => Some c
  | String _ rest => last_char rest
  end.

(** Lines 419-422: the folder the file goes to. *)
Definition folder (os : Os) (path_folder : option string) : string :=
  let path_folder :=
    match path_folder with
    | Some p =>
        if (PyStr.truthy p && negb (bool_decide (last_char p = Some "/"%char)))%bool
        then Some (p ++ "/")%string else Some p
    | None => None
    end in
  match path_folder with
  | Some p => p
  | None => join os (home os) "Downloads"
  end.

(** Lines 417-418 and 432: the path opened for writing, which is also the
    path returned. *)
Definition destination (os : Os) (filename path_folder : option string)
    (file : File.t) : string :=
  join os (folder os path_folder) (default (File.filename file) filename).

(** The loop of lines 444-479 over the chunks still to come, [k] being the
    number of the next one: the bytes written, whether [max_print_length]
    got bound, and the exception that ended the loop, if any.
    [speed_bound] and [max_bound] say whether [speed_display] and
    [max_print_length] are bound so far. *)
Fixpoint stream (due speed : nat -> bool) (ending : Ending) (k : nat)
    (chunks : list string) (content : string) (speed_bound max_bound : bool)
  : string * bool * option HostExc :=
  match chunks with
  | [] =>
      (content, max_bound,
       match ending with Eof => None | Broken => Some ExternalError end)
  | chunk :: rest =>
      if PyStr.truthy chunk then
        let content := (content ++ chunk)%string in
        if due k then
          if (speed k || speed_bound)%bool
          then stream due speed ending (S k) rest content true true
          else (content, max_bound, Some (UnboundLocalError "speed_display"))
        else stream due speed ending (S k) rest content speed_bound max_bound
      else (content, max_bound, None)
  end.

(** Lines 489-515: what [play] and [show] launch for the path [p]. *)
Definition launches (os : Os) (show play : option bool) (p : string) : list Launch :=
  (if default false play then
     [if String.eqb (platform os) "win32" then Startfile p
      else if String.eqb (platform os) "darwin" then Run ["open"; p]
      else Run ["xdg-open"; p]]
   else [])
  ++ (if default false show then
        [if String.eqb (platform os) "win32" then Run ["explorer"; "/select,"; p]
         else if String.eqb (platform os) "darwin" then Run ["open"; "-R"; p]
         else Run ["xdg-open"; dirname os p]]
      else []).

Definition launch (os : Os) (l : Launch) : H unit :=
  fun h =>
    if launch_ok os l
    then (Done tt, mkHost (world h) (made h) (written h) (launched h ++ [l]))
    else (Failed ExternalError, h).

Section Downloads.

Variable net : Network.
Variable os : Os.

(** Lines 423-424. *)
Definition ensure_folder (p : string) : H unit :=
  fun h =>
    if path_exists os (made h) p then (Done tt, h)
    else if makedirs_ok os p
    then (Done tt, mkHost (world h) (made h ++ [p]) (written h) (launched h))
    else (Failed ExternalError, h).

(** [aopen(path, "wb")]: the file is created or emptied. *)
Definition open_wb (p : string) : H unit :=
  fun h =>
    if open_ok os p
    then (Done tt, mkHost (world h) (made h) (<[p := ""]> (written h)) (launched h))
    else (Failed ExternalError, h).

(** Lines 431-488 for the file [file] going to [target]: a new session over
    [self.headers], the file opened, the tunnel requested and streamed. *)
Definition fetch (file : File.t) (target : string) : H unit :=
  exec cs <- on_world (read headers);
  exec_ open_wb target;
  let request := mkRequest GET (File.tunnel file) cs None in
  exec now <- on_world (send request);
  match tunnel_response os now request with
  | TunnelFailed => fail ExternalError
  | TunnelBody chunks ending =>
      let '(content, max_bound, raised) :=
        stream (progress_due os now) (speed_due os now) ending O chunks "" false false in
      exec_ (fun h => (Done tt, mkHost (world h) (made h) (<[target := content]> (written h))
                                 (launched h)));
      match raised with
      | Some e => fail e
      | None =>
          if max_bound then done tt
          else fail (UnboundLocalError "max_print_length")
      end
  end.

(** One unit of [fuel] per call of [download], the items of a playlist
    being calls of [download] from itself; [get] runs on what is left. *)
Fixpoint download (fuel : nat) (url quality filename path_folder : option string)
    (download_mode filename_style : string)
    (audio_format youtube_video_codec : option string)
    (playlist : PlaylistArg) (file : option File.t) (show play : option bool)
  : H (option string) :=
  match fuel with
  | O => starved
  | S fuel' =>
      exec is_playlist <-
        (if playlist_truthy playlist then done true
         else match url with
              | Some u => done (has_list_param u)
              | None => fail TypeError
              end);
      if is_playlist : bool then
        let url := match playlist with
                   | PlaylistLink link => Some link
                   | PlaylistFlag _ => url
                   end in
        match video_urls os url with
        | None => fail ExternalError
        | Some items =>
            exec_ for_each
                   (fun item_url =>
                      exec_ (match url with
                            | Some _ => done tt
                            | None => fail AttributeError
                            end);
                      exec_ download fuel' (Some item_url) quality filename path_folder
                             download_mode filename_style audio_format
                             youtube_video_codec (PlaylistFlag false) None None None;
                      done tt)
                   items;
            done None
        end
      else
        exec file <-
          (match file with
           | Some f => done f
           | None =>
               match url with
               | Some u =>
                   on_world (get net fuel' u quality download_mode filename_style
                                 audio_format youtube_video_codec)
               | None => fail AttributeError
               end
           end);
        let target := destination os filename path_folder file in
        exec_ ensure_folder (folder os path_folder);
        exec_ fetch file target;
        exec_ for_each (launch os) (launches os show play target);
        done (Some target)
  end.

(** [File.download]: the arguments go to [download] by position, so the
    file name travels as [quality] and the folder as [filename]. *)
Definition file_download (fuel : nat) (file : File.t) (path_folder : option string)
  : H (option string * File.t) :=
  exec path <- download fuel (Some (File.url file)) (Some (File.filename file))
                path_folder None "auto" "pretty" None None (PlaylistFlag false)
                (Some file) None None;
  done (path,
        {| File.status := File.status file;
           File.url := File.url file;
           File.tunnel := File.tunnel file;
           File.filename := File.filename file;
           File.extension := File.extension file;
           File.downloaded := true;
           File.path := path |}).

End Downloads.

(** The body as the loop of [download] receives it: the chunks up to the
    first empty one. *)
Fixpoint received (chunks : list string) : string :=
  match chunks with
  | [] => EmptyString
  | chunk :: rest =>
      if PyStr.truthy chunk then (chunk ++ received rest)%string else EmptyString
  end.

(** No chunk is empty. *)
Definition unbroken (chunks : list string) : bool := forallb PyStr.truthy chunks.

(** A POSIX [os.path.join] of two components, for the examples. *)
Definition posix_join (a b : string) : string :=
  if PyStr.is_prefix "/" b then b
  else if (negb (PyStr.truthy a) || bool_decide (last_char a = Some "/"%char))%bool
  then (a ++ b)%string
  else (a ++ "/" ++ b)%string.

(** A host for the examples: the home of [user], every folder present, the
    tunnel answering with [chunks], the clock tests true at every chunk. *)
Definition os_serving (chunks : list string) : Os :=
  {| join := posix_join;
     home := "/home/user";
     dirname := fun p => p;
     platform := "linux";
     path_exists := fun _ _ => true;
     makedirs_ok := fun _ => true;
     open_ok := fun _ => true;
     launch_ok := fun _ => true;
     video_urls := fun _ => Some ["https://youtu.be/a"; "https://youtu.be/b"];
     tunnel_response := fun _ _ => TunnelBody chunks Eof;
     progress_due := fun _ _ => true;
     speed_due := fun _ _ => true |}.

Definition file_clip : File.t :=
  File.init "tunnel" "https://youtu.be/x" "clip.mp4" "https://backup.example/tunnel?id=1".

Definition host_active : Host := mkHost world_active [] ∅ [].

(** A host whose tunnel cannot be reached, and one that already holds a
    file at the destination of the examples. *)
Definition os_dead : Os :=
  {| join := posix_join;
     home := "/home/user";
     dirname := fun p => p;
     platform := "linux";
     path_exists := fun _ _ => true;
     makedirs_ok := fun _ => true;
     open_ok := fun _ => true;
     launch_ok := fun _ => true;
     video_urls := fun _ => None;
     tunnel_response := fun _ _ => TunnelFailed;
     progress_due := fun _ _ => true;
     speed_due := fun _ _ => true |}.

Definition host_with_file : Host :=
  mkHost world_active [] (<["out/clip.mp4" := "previous"]> ∅) [].

(** A network that resolves every extraction, whatever the instance. *)
Definition net_resolving : Network :=
  net_listing [instance_backup].

(** The canonical URLs the probes of the example networks can report. *)
Definition example_urls : gset string :=
  {["https://cobalt.example/"; "https://backup.example/"; "https://tie.example/"]}.

(** ** The progress line of [download] *)

(** The first [n] characters of [s], or all of it. *)
Fixpoint take_chars (n : nat) (s : string) : string :=
  match n, s with
  | S n', String c rest => String c (take_chars n' rest)
  | _, _ => EmptyString
  end.

(** [s[:k]]: a negative [k] counts from the end. *)
Definition slice_to (s : string) (k : Z) : string :=
  if 0 <=? k then take_chars (Z.to_nat k) s
  else take_chars (Z.to_nat (Z.of_nat (String.length s) + k)) s.

(** [shorten] of lines 426-429, [columns] being the width of the terminal. *)
Definition shorten (columns : Z) (s : string) (additional_len : Z) : string :=
  let free_columns := columns - additional_len in
  if Z.of_nat (String.length s) + 3 >? free_columns
  then (slice_to s (free_columns - 6) ++ "...")%string
  else s.

(** What [download] takes for a playlist: the [playlist] argument says so,
    or the URL has a list parameter. *)
Definition takes_for_playlist (playlist : PlaylistArg) (url : option string) : Prop :=
  playlist_truthy playlist = true
  \/ exists u, url = Some u /\ has_list_param u = true.

(** ** Retries that reach an instance *)

(** The error codes on which [get] moves to another instance: third segment
    youtube or fetch, or third segment auth with missing or not_found as the
    last one. *)
Definition retryable (code : string) : Prop :=
  let segments := PyStr.split PyStr.dot code in
  PyStr.index segments 2 = Some "youtube"
  \/ PyStr.index segments 2 = Some "fetch"
  \/ (PyStr.index segments 2 = Some "auth"
      /\ (PyStr.last_item segments = Some "missing"
          \/ PyStr.last_item segments = Some "not_found")).

(** Every extraction request is answered, by a result or by a retryable
    error code. *)
Definition only_retryable_errors (net : Network) : Prop :=
  forall now r,
    match post_response net now r with
    | PostOk _ _ _ => True
    | PostApiError code => retryable code
    | PostConnectorError | PostFailed => False
    end.

(** Every canonical URL a probe reports is one of [urls]. *)
Definition probes_within (net : Network) (urls : gset string) : Prop :=
  forall now r u, probe_response net now r = ProbeOk u -> u ∈ urls.

(** An instance the selector can always fall back on: whenever the registry
    is asked it lists [instance] among the entries that pass the filter, the
    probe of [instance] always reports [canonical], and every extraction
    request sent to [canonical] is resolved. *)
Record viable (net : Network) (instance : Instance) (canonical : string) : Prop :=
  mkViable {
    viable_listed :
      forall now r, exists instances good,
        registry_response net now r = RegistryOk instances
        /\ filter_instances instances [] = Some good
        /\ instance ∈ good;
    viable_probed :
      forall now cs,
        probe_response net now (mkRequest GET (probe_url instance) cs None)
        = ProbeOk canonical;
    viable_resolves :
      forall now r, target r = canonical ->
        exists status tunnel filename,
          post_response net now r = PostOk status tunnel filename
  }.

(** The instance just selected is one of [urls] and not skipped. *)
Definition fresh (urls : gset string) (w : World) : Prop :=
  api_instance (self w) ∈ urls /\ api_instance (self w) ∉ skipped_instances (self w).

Definition instance_top : Instance :=
  mkInstance "top.example" "https" 1 "11.2" [] 95.

(** A registry of [backup.example], [top.example] and [cobalt.example], all
    answering the probe. [cobalt.example] answers every extraction with
    [first] and [top.example] with [second], which is an error code or a
    refused connection; [backup.example] resolves. *)
Definition net_ranked (first : string) (second : PostResponse) : Network :=
  {| registry_response := fun _ _ =>
       RegistryOk [instance_backup; instance_top; instance_good];
     probe_response := fun _ r =>
       if String.eqb (target r) "https://cobalt.example"
       then ProbeOk "https://cobalt.example/"
       else if String.eqb (target r) "https://top.example"
       then ProbeOk "https://top.example/"
       else if String.eqb (target r) "https://backup.example"
       then ProbeOk "https://backup.example/"
       else ProbeFailed;
     post_response := fun _ r =>
       if String.eqb (target r) "https://cobalt.example/"
       then PostApiError first
       else if String.eqb (target r) "https://top.example/"
       then second
       else PostOk "tunnel" "https://backup.example/tunnel?id=1" "clip.mp4" |}.

Definition ranked_urls : gset string :=
  {["https://cobalt.example/"; "https://top.example/"; "https://backup.example/"]}.

(** A registry with a single good instance, which answers every extraction
    with [code]. *)
Definition net_single_answering (code : string) : Network :=
  {| registry_response := fun _ _ => RegistryOk [instance_good];
     probe_response := fun _ _ => ProbeOk "https://cobalt.example/";
     post_response := fun _ _ => PostApiError code |}.

(** An entry whose version begins with the character 0x1c, which
    [str.strip()] removes and [int()] does not accept. *)
Definition instance_separator : Instance :=
  mkInstance "fs.example" "https" 1 (String (ascii_of_nat 28) "10.1") [] 40.

(** A host as [os_serving] whose tunnel answers the first two requests of a
    session with [early] and the later ones with [late]. *)
Definition os_numbered (early late : string) : Os :=
  {| join := posix_join;
     home := "/home/user";
     dirname := fun p => p;
     platform := "linux";
     path_exists := fun _ _ => true;
     makedirs_ok := fun _ => true;
     open_ok := fun _ => true;
     launch_ok := fun _ => true;
     video_urls := fun _ => Some ["https://youtu.be/a"; "https://youtu.be/b"];
     tunnel_response := fun now _ =>
       TunnelBody [if (now <? 2)%nat then early else late] Eof;
     progress_due := fun _ _ => true;
     speed_due := fun _ _ => true |}.

(** * Properties *)

(** ** Strings *)

Example split_code :
  PyStr.split PyStr.dot "error.api.fetch.failed" = ["error"; "api"; "fetch"; "failed"].
Proof. reflexivity. Qed.

Example split_empty : PyStr.split PyStr.dot "" = [""].
Proof. reflexivity. Qed.

Example split_trailing : PyStr.split PyStr.dot "a.." = ["a"; ""; ""].
Proof. reflexivity. Qed.

Example replace_scheme : PyStr.replace "https://" "" "https://fetch" = "fetch".
Proof. reflexivity. Qed.

Example replace_non_overlapping : PyStr.replace "aa" "b" "aaaaa" = "bba".
Proof. reflexivity. Qed.

Example strip_both_ends : PyStr.strip "  a b  " = "a b".
Proof. reflexivity. Qed.

Example int_of_version_segment :
  PyStr.int "10" = Some 10 /\ PyStr.int " 1_1 " = Some 11 /\ PyStr.int "v10" = None
  /\ PyStr.int "" = None /\ PyStr.int "-3" = Some (-3) /\ PyStr.int "1__0" = None
  /\ PyStr.int "1_" = None /\ PyStr.int "+ 1" = None /\ PyStr.int "010" = Some 10.
Proof. repeat split; reflexivity. Qed.

(** [str.strip()] removes the separators 0x1c to 0x1f, [int()] takes them
    for no white space. *)
Example int_separator :
  PyStr.strip (String (ascii_of_nat 28) "10") = "10"
  /\ PyStr.int (String (ascii_of_nat 28) "10") = None
  /\ PyStr.int ("10" ++ String (ascii_of_nat 31) "") = None
  /\ PyStr.int (String (ascii_of_nat 11) "10" ++ String (ascii_of_nat 12) "") = Some 10.
Proof. repeat split; reflexivity. Qed.

Example major_components :
  major_component "10.5.1" = Some 10 /\ major_component "9.9.1" = Some 9
  /\ major_component "11" = Some 11 /\ major_component "v10.2" = None
  /\ major_component ".5" = None /\ major_component "" = None.
Proof. repeat split; reflexivity. Qed.

Example wants_fetch_sentinels :
  wants_fetch "" = true /\ wants_fetch "https://fetch" = true
  /\ wants_fetch " HTTP://GET " = false /\ wants_fetch " http://GET " = true
  /\ wants_fetch "https://cobalt.example/" = false.
Proof. repeat split; reflexivity. Qed.

Example sanitize_quotes :
  sanitize ("a'b" ++ String PyStr.dquote "c\d")%string = "abcd".
Proof. reflexivity. Qed.

Example sort_descending_stable :
  map api (sort_by_score [instance_backup; instance_old; instance_good;
                          mkInstance "tie.example" "https" 1 "10" [] 60])
  = ["old.example"; "cobalt.example"; "tie.example"; "backup.example"].
Proof. reflexivity. Qed.

Lemma replace_char_empty (c : ascii) (s : string) :
  PyStr.replace (PyStr.chr c) "" s = remove_chars (Ascii.eqb c) s.
Proof.
  unfold PyStr.replace, PyStr.chr.
  induction s as [|a s IH]; [reflexivity|].
  cbn [PyStr.replace_from PyStr.is_prefix remove_chars String.length Nat.pred].
  rewrite andb_true_r.
  destruct (Ascii.eqb c a); cbn; now rewrite IH.
Qed.

Lemma remove_chars_twice (p q : ascii -> bool) (s : string) :
  remove_chars p (remove_chars q s) = remove_chars (fun a => (q a || p a)%bool) s.
Proof.
  induction s as [|a s IH]; [reflexivity|].
  cbn [remove_chars].
  destruct (q a); cbn [orb]; [exact IH|].
  cbn [remove_chars]. destruct (p a); now rewrite IH.
Qed.

Lemma remove_chars_ext (p q : ascii -> bool) (s : string) :
  (forall a, p a = q a) -> remove_chars p s = remove_chars q s.
Proof.
  intros E. induction s as [|a s IH]; [reflexivity|].
  cbn [remove_chars]. now rewrite E, IH.
Qed.

Lemma sanitize_without_quotes (url : string) : sanitize url = without_quotes url.
Proof.
  unfold sanitize, without_quotes.
  rewrite !replace_char_empty, !remove_chars_twice.
  apply remove_chars_ext. intros a. unfold is_quote_or_backslash.
  rewrite !(Ascii.eqb_sym a). now rewrite orb_assoc.
Qed.

Lemma without_quotes_clean (url : string) (c : ascii) :
  is_quote_or_backslash c = true ->
  String.index 0 (PyStr.chr c) (without_quotes url) = None.
Proof.
  intros Hc. unfold without_quotes, PyStr.chr.
  induction url as [|a s IH]; [reflexivity|].
  cbn [remove_chars]. destruct (is_quote_or_backslash a) eqn:Ea; [exact IH|].
  cbn [String.index String.prefix]. 
  destruct (ascii_dec c a) as [->|_]; [congruence|].
  cbn in IH |- *. now rewrite IH.
Qed.

Lemma split_nonempty (sep : ascii) (s : string) : PyStr.split sep s <> [].
Proof.
  destruct s as [|c s]; [discriminate|].
  cbn [PyStr.split]. destruct (Ascii.eqb c sep); [discriminate|].
  destruct (PyStr.split sep s); discriminate.
Qed.

Lemma index_none_iff {A} (l : list A) (i : nat) :
  PyStr.index l i = None <-> (length l <= i)%nat.
Proof. unfold PyStr.index. apply nth_error_None. Qed.

(** ** Registry filter *)

Lemma dead_services_unhealthy (instance : Instance) :
  dead_services instance = unhealthy instance.
Proof.
  unfold dead_services, unhealthy.
  assert (H : forall (l : list (string * bool)) (n : nat),
             fold_left (fun dead '(_, status) => if status : bool then dead else S dead) l n
             = (n + length (filter (fun p : string * bool => p.2 = false) l))%nat).
  { induction l as [|[name status] l IH]; intros n; cbn [fold_left].
    - cbn. lia.
    - rewrite IH. rewrite filter_cons. cbn [snd].
      destruct status; case_decide; try congruence; cbn [length]; lia. }
  now rewrite H.
Qed.

Lemma passes_iff (instance : Instance) :
  passes instance = true
  <-> (exists major, version_major instance = Some major /\ 10 <= major)
      /\ trust instance = 1
      /\ (unhealthy instance <= 7)%nat.
Proof.
  unfold passes. rewrite <- dead_services_unhealthy.
  destruct (version_major instance) as [major|].
  - rewrite andb_true_iff, !negb_true_iff, orb_false_iff, negb_false_iff.
    rewrite Z.ltb_ge, Z.eqb_eq, Nat.ltb_ge. split.
    + intros [[Hm Ht] Hd]. repeat split; eauto.
    + intros [[m [[= <-] Hm]] [Ht Hd]]. auto.
  - split; [discriminate|]. intros [[m [[=] _]] _].
Qed.

(** The loop keeps the entries that pass, in the order of the registry. *)
Lemma filter_instances_passes (instances : list Instance) :
  forall good good',
    filter_instances instances good = Some good' ->
    good' = good ++ filter (fun instance => passes instance = true) instances.
Proof.
  induction instances as [|i rest IH]; intros good good' H;
    cbn [filter_instances] in H.
  - injection H as <-. now rewrite app_nil_r.
  - rewrite filter_cons.
    destruct (version_major i) as [major|] eqn:Ev; [|discriminate].
    destruct ((major <? 10) || negb (trust i =? 1))%bool eqn:Eb.
    + rewrite decide_False; [now apply IH|].
      unfold passes. rewrite Ev, Eb. discriminate.
    + destruct (7 <? dead_services i)%nat eqn:Ed.
      * rewrite decide_False; [now apply IH|].
        unfold passes. rewrite Ev, Eb, Ed. discriminate.
      * rewrite decide_True by (unfold passes; now rewrite Ev, Eb, Ed).
        apply IH in H. rewrite H. now rewrite <- app_assoc.
Qed.

Lemma filter_instances_none (instances : list Instance) :
  forall good,
    filter_instances instances good = None
    <-> exists i, i ∈ instances /\ version_major i = None.
Proof.
  induction instances as [|i rest IH]; intros good; cbn [filter_instances].
  - split; [discriminate|]. intros [i [Hi _]]. now apply elem_of_nil in Hi.
  - destruct (version_major i) as [major|] eqn:Ev.
    + assert (Hrest : forall g, filter_instances rest g = None
                                <-> exists j, j ∈ i :: rest /\ version_major j = None).
      { intros g. rewrite IH. split.
        - intros [j [Hj Hv]]. exists j. split; [now right|exact Hv].
        - intros [j [Hj Hv]]. apply elem_of_cons in Hj as [->|Hj]; [congruence|].
          eauto. }
      destruct ((major <? 10) || negb (trust i =? 1))%bool; [apply Hrest|].
      destruct (7 <? dead_services i)%nat; apply Hrest.
    + split; [|reflexivity]. intros _. exists i. split; [now left|exact Ev].
Qed.

Lemma filter_instances_parsed (instances good good' : list Instance) (i : Instance) :
  filter_instances instances good = Some good' ->
  i ∈ instances -> is_Some (version_major i).
Proof.
  intros H Hi. destruct (version_major i) as [m|] eqn:Ev; [eauto|].
  assert (Hn : filter_instances instances good = None)
    by (apply filter_instances_none; eauto).
  congruence.
Qed.

Lemma filter_instances_total (instances good : list Instance) :
  Forall (fun instance => is_Some (version_major instance)) instances ->
  is_Some (filter_instances instances good).
Proof.
  intros H. revert good. induction H as [|i rest [m Hm] _ IH]; intros good.
  - now exists good.
  - cbn [filter_instances]. rewrite Hm.
    destruct ((m <? 10) || negb (trust i =? 1))%bool; [apply IH|].
    destruct (7 <? dead_services i)%nat; apply IH.
Qed.

(** *** Versions

    On a version that begins with a decimal number, the component the
    specification speaks of is what [int(version.split(".")[0])] reads. *)

Lemma decimal_digit_value (c : ascii) : decimal_digit c = PyStr.digit_value c.
Proof. destruct c as [[] [] [] [] [] [] [] []]; reflexivity. Qed.

Lemma split_first (v : string) :
  PyStr.index (PyStr.split PyStr.dot v) 0 = Some (before_first_dot v).
Proof.
  induction v as [|c rest IH]; [reflexivity|].
  cbn [PyStr.split before_first_dot]. change PyStr.dot with "."%char in *.
  destruct (Ascii.eqb c "."); [reflexivity|].
  destruct (PyStr.split "." rest) as [|seg segs]; [discriminate IH|].
  cbn in IH |- *. now injection IH as ->.
Qed.

Lemma digits_decimal (s : string) :
  forall acc count after_digit m,
    decimal acc s = Some m ->
    s <> "" \/ after_digit = true ->
    PyStr.digits acc count after_digit s = Some (m, (count + String.length s)%nat).
Proof.
  induction s as [|c s IH]; intros acc count b m H Hb;
    cbn [decimal PyStr.digits String.length] in *.
  - destruct Hb as [Hb| ->]; [congruence|]. injection H as ->.
    now rewrite Nat.add_0_r.
  - rewrite <- decimal_digit_value. destruct (decimal_digit c) as [d|]; [|discriminate].
    rewrite (IH _ (S count) true m H) by now right.
    do 2 f_equal. lia.
Qed.

Lemma decimal_digit_class (c : ascii) :
  is_Some (decimal_digit c) ->
  PyStr.is_int_space c = false /\ Ascii.eqb c "+" = false /\ Ascii.eqb c "-" = false.
Proof.
  intros [d Hd].
  destruct c as [[] [] [] [] [] [] [] []]; vm_compute in Hd; try discriminate Hd;
    repeat split.
Qed.

Lemma int_decimal (s : string) (m : Z) :
  s <> "" ->
  decimal 0 s = Some m ->
  PyStr.int s
  = if (String.length s <=? PyStr.max_str_digits)%nat then Some m else None.
Proof.
  intros Hs H. destruct s as [|c s]; [congruence|].
  pose proof (digits_decimal (String c s) 0 0 false m H (or_introl Hs)) as Hd.
  rewrite Nat.add_0_l in Hd.
  assert (Hc : is_Some (decimal_digit c)).
  { cbn [decimal] in H. destruct (decimal_digit c); [eauto|discriminate]. }
  destruct (decimal_digit_class c Hc) as [Hspace [Hplus Hminus]].
  unfold PyStr.int. cbn [PyStr.skip_int_space]. rewrite Hspace, Hplus, Hminus, Hd.
  reflexivity.
Qed.

Lemma version_major_plain (instance : Instance) (m : Z) :
  major_component (version instance) = Some m ->
  version_major instance
  = if (String.length (before_first_dot (version instance)) <=? PyStr.max_str_digits)%nat
    then Some m else None.
Proof.
  unfold major_component, version_major. rewrite split_first. cbn [mbind option_bind].
  intros H. apply int_decimal; [|destruct (before_first_dot _); [discriminate|exact H]].
  destruct (before_first_dot _); [discriminate|discriminate].
Qed.

(** Where the loop went through, the two readings of a version agree. *)
Lemma version_major_component (instance : Instance) (m : Z) :
  is_Some (version_major instance) ->
  major_component (version instance) = Some m ->
  version_major instance = Some m.
Proof.
  intros [m' Hm'] H. rewrite (version_major_plain _ _ H) in Hm' |- *.
  destruct (_ <=? _)%nat; [reflexivity|discriminate].
Qed.

Lemma foreign_class (c : ascii) :
  foreign c = true ->
  PyStr.digit_value c = None /\ Ascii.eqb c "_" = false
  /\ PyStr.is_int_space c = false /\ Ascii.eqb c "+" = false /\ Ascii.eqb c "-" = false.
Proof.
  destruct c as [[] [] [] [] [] [] [] []]; intros H; vm_compute in H;
    try discriminate H; repeat split.
Qed.

Lemma skip_int_space_foreign (s : string) :
  any_char foreign s = true -> any_char foreign (PyStr.skip_int_space s) = true.
Proof.
  induction s as [|c s IH]; [discriminate|]. cbn [any_char PyStr.skip_int_space].
  intros H. destruct (PyStr.is_int_space c) eqn:Ec; [|exact H].
  apply IH. destruct (foreign c) eqn:Ef; [|exact H].
  apply foreign_class in Ef as [_ [_ [Ef _]]]. congruence.
Qed.

Lemma digits_foreign (s : string) :
  forall acc count after_digit,
    any_char foreign s = true -> PyStr.digits acc count after_digit s = None.
Proof.
  induction s as [|c s IH]; intros acc count b H; [discriminate|].
  cbn [PyStr.digits].
  destruct (foreign c) eqn:Ef.
  - destruct (foreign_class c Ef) as [Hd [Hu _]]. rewrite Hd, Hu.
    destruct b; [|reflexivity].
    apply skip_int_space_foreign in H.
    destruct (PyStr.skip_int_space (String c s)); [discriminate H|reflexivity].
  - cbn [any_char] in H. rewrite Ef in H. cbn [orb] in H.
    destruct (PyStr.digit_value c); [now apply IH|].
    destruct (Ascii.eqb c "_"); [destruct b; [now apply IH|reflexivity]|].
    destruct b; [|reflexivity].
    assert (Hs : any_char foreign (PyStr.skip_int_space (String c s)) = true).
    { apply skip_int_space_foreign. cbn [any_char]. now rewrite Ef. }
    destruct (PyStr.skip_int_space (String c s)); [discriminate Hs|reflexivity].
Qed.

Lemma int_foreign (s : string) : any_char foreign s = true -> PyStr.int s = None.
Proof.
  intros H. apply skip_int_space_foreign in H. unfold PyStr.int.
  destruct (PyStr.skip_int_space s) as [|c rest]; [discriminate H|].
  cbn [any_char] in H.
  destruct (foreign c) eqn:Ef.
  - destruct (foreign_class c Ef) as [_ [_ [_ [Hp Hm]]]]. rewrite Hp, Hm.
    rewrite digits_foreign; [reflexivity|]. cbn [any_char]. now rewrite Ef.
  - cbn [orb] in H.
    destruct (Ascii.eqb c "+"); [now rewrite digits_foreign|].
    destruct (Ascii.eqb c "-"); [now rewrite digits_foreign|].
    rewrite digits_foreign; [reflexivity|]. cbn [any_char]. now rewrite Ef.
Qed.

(** A version that begins with no number is one [int()] refuses. *)
Lemma version_major_unnumbered (instance : Instance) :
  unnumbered (version instance) -> version_major instance = None.
Proof.
  unfold unnumbered, version_major. rewrite split_first. cbn [mbind option_bind].
  intros [-> |H]; [reflexivity|now apply int_foreign].
Qed.

Lemma filter_instances_plain (instances good : list Instance) :
  Forall (fun instance => plain_version (version instance)) instances ->
  is_Some (filter_instances instances good).
Proof.
  intros H. apply filter_instances_total.
  eapply Forall_impl; [exact H|]. intros i [[m Hm] Hlen].
  rewrite (version_major_plain _ _ Hm).
  apply Nat.leb_le in Hlen. rewrite Hlen. eauto.
Qed.

(** Membership in the candidate list, in the words of the specification. *)
Lemma filter_instances_policy (instances good : list Instance) (instance : Instance) :
  filter_instances instances [] = Some good ->
  (instance ∈ good ->
   instance ∈ instances /\ trust instance = 1 /\ (unhealthy instance <= 7)%nat)
  /\ (is_Some (major_component (version instance)) ->
      instance ∈ good <-> instance ∈ instances /\ is_good instance)
  /\ ((exists major, major_component (version instance) = Some major /\ major < 10)
      \/ trust instance <> 1 \/ (7 < unhealthy instance)%nat ->
      instance ∉ good).
Proof.
  intros H.
  assert (Hin : instance ∈ good
                <-> instance ∈ instances
                    /\ (exists major, version_major instance = Some major /\ 10 <= major)
                    /\ trust instance = 1 /\ (unhealthy instance <= 7)%nat).
  { rewrite (filter_instances_passes _ _ _ H). cbn [app].
    rewrite list_elem_of_filter, passes_iff. tauto. }
  assert (Hv : forall m, instance ∈ instances ->
                         major_component (version instance) = Some m ->
                         version_major instance = Some m).
  { intros m Hi Hm. apply version_major_component; [|exact Hm].
    eapply filter_instances_parsed; eauto. }
  split; [|split].
  - rewrite Hin. tauto.
  - intros [m Hm]. rewrite Hin. unfold is_good. split.
    + intros [Hi [[m' [Hm' Hge]] Hrest]]. split; [exact Hi|]. split; [|exact Hrest].
      rewrite (Hv m Hi Hm) in Hm'. injection Hm' as <-. eauto.
    + intros [Hi [[m' [Hm' Hge]] Hrest]]. split; [exact Hi|]. split; [|exact Hrest].
      exists m'. split; [|exact Hge]. now apply Hv.
  - intros Hbad Hg. apply Hin in Hg as [Hi [[m [Hm Hge]] [Ht Hu]]].
    destruct Hbad as [[m' [Hm' Hlt]]|[Hbad|Hbad]]; [|contradiction|lia].
    rewrite (Hv m' Hi Hm') in Hm. injection Hm as <-. lia.
Qed.

(** ** Sorting by score *)

Lemma insert_by_score_perm (x : Instance) (l : list Instance) :
  insert_by_score x l ≡ₚ x :: l.
Proof.
  induction l as [|y l IH]; [reflexivity|].
  cbn [insert_by_score]. destruct (score y <=? score x); [reflexivity|].
  rewrite IH. apply Permutation_swap.
Qed.

Lemma sort_by_score_perm (l : list Instance) : sort_by_score l ≡ₚ l.
Proof.
  induction l as [|x l IH]; [reflexivity|].
  cbn [sort_by_score fold_right]. fold (sort_by_score l).
  now rewrite insert_by_score_perm, IH.
Qed.

Lemma sort_by_score_length (l : list Instance) :
  length (sort_by_score l) = length l.
Proof. now rewrite sort_by_score_perm. Qed.

Lemma sort_by_score_elem (x : Instance) (l : list Instance) :
  x ∈ sort_by_score l <-> x ∈ l.
Proof. now rewrite sort_by_score_perm. Qed.

(** ** The selector *)

Lemma extends_refl (P : Request -> Prop) (w : World) : extends P w w.
Proof. exists []. now rewrite app_nil_r. Qed.

Lemma extends_trans (P : Request -> Prop) (w1 w2 w3 : World) :
  extends P w1 w2 -> extends P w2 w3 -> extends P w1 w3.
Proof.
  intros [n1 [E1 F1]] [n2 [E2 F2]]. exists (n1 ++ n2). split.
  - now rewrite E2, E1, app_assoc.
  - now apply Forall_app.
Qed.

Lemma extends_send (P : Request -> Prop) (c : Cobalt) (l : list Request) (r : Request) :
  P r -> extends P (mkWorld c l) (mkWorld c (l ++ [r])).
Proof. intros H. exists [r]. split; [reflexivity|]. now constructor. Qed.

Lemma extends_self (P : Request -> Prop) (w : World) (c : Cobalt) :
  extends P w (mkWorld c (wire w)).
Proof. exists []. cbn. now rewrite app_nil_r. Qed.

Lemma extends_mono (P Q : Request -> Prop) (w w' : World) :
  (forall r, P r -> Q r) -> extends P w w' -> extends Q w w'.
Proof.
  intros H [new [E F]]. exists new. split; [exact E|].
  eapply Forall_impl; eauto.
Qed.

Lemma extends_sent_since (P : Request -> Prop) (w w' : World) :
  extends P w w' -> Forall P (sent_since w w').
Proof.
  intros [new [E F]]. unfold sent_since. rewrite E.
  now rewrite drop_app_length.
Qed.

Section Selector.

Variable net : Network.

Lemma select_loop_spec (fuel : nat) (cs : gmap string string) :
  forall (good : list Instance) (w : World) (r : outcome unit) (w' : World),
    (length good < fuel)%nat ->
    select_loop net fuel cs good w = (r, w') ->
    extends (selector_request cs) w w' /\
    match r with
    | Return _ =>
        (api_instance (self w') ∉ skipped_instances (self w))
        /\ self w' = set_api_instance (api_instance (self w')) (self w)
        /\ exists instance now,
             instance ∈ good
             /\ probe_response net now (mkRequest GET (probe_url instance) cs None)
                = ProbeOk (api_instance (self w'))
    | Raise e => e = IndexError /\ self w' = self w
    | OutOfFuel => False
    end.
Proof.
  induction fuel as [|fuel IH]; intros good w r w' Hlen H; [lia|].
  cbn [select_loop] in H.
  destruct (sort_by_score good) as [|first rest] eqn:Es.
  - injection H as <- <-. split; [apply extends_refl|]. now split.
  - assert (Hrest : (length rest < fuel)%nat).
    { rewrite <- (sort_by_score_length good), Es in Hlen. cbn in Hlen. lia. }
    assert (Hin : forall i, i ∈ rest -> i ∈ good).
    { intros i Hi. apply sort_by_score_elem. rewrite Es. now right. }
    assert (Hfirst : first ∈ good).
    { apply sort_by_score_elem. rewrite Es. now left. }
    unfold bind, send, read in H. cbn [self wire] in H.
    set (request := mkRequest GET (probe_url first) cs None) in *.
    assert (Hsend : extends (selector_request cs) w (mkWorld (self w) (wire w ++ [request]))).
    { destruct w. apply extends_send. now repeat split. }
    destruct (probe_response net (length (wire w)) request) as [canonical|] eqn:Ep.
    + case_bool_decide as Hskip.
      * apply IH in H; [|exact Hrest]. destruct H as [Hext Hr]. split.
        { eapply extends_trans; eauto. }
        destruct r as [[]|e|]; cbn [self] in Hr; try exact Hr.
        destruct Hr as [? [? [i [n [? ?]]]]]. repeat split; eauto.
      * unfold modify in H. injection H as <- <-. split; [exact Hsend|].
        cbn. repeat split; eauto.
    + apply IH in H; [|exact Hrest]. destruct H as [Hext Hr]. split.
      { eapply extends_trans; eauto. }
      destruct r as [[]|e|]; cbn [self] in Hr; try exact Hr.
      destruct Hr as [? [? [i [n [? ?]]]]]. repeat split; eauto.
Qed.

Lemma select_loop_exhausted (fuel : nat) (cs : gmap string string) :
  forall (good : list Instance) (w : World),
    (length good < fuel)%nat ->
    Forall (discarded net cs (skipped_instances (self w))) good ->
    fst (select_loop net fuel cs good w) = Raise IndexError.
Proof.
  induction fuel as [|fuel IH]; intros good w Hlen Hall; [lia|].
  cbn [select_loop].
  destruct (sort_by_score good) as [|first rest] eqn:Es; [reflexivity|].
  assert (Hrest : (length rest < fuel)%nat).
  { rewrite <- (sort_by_score_length good), Es in Hlen. cbn in Hlen. lia. }
  assert (Hall' : Forall (discarded net cs (skipped_instances (self w))) (first :: rest)).
  { rewrite <- Es. now rewrite sort_by_score_perm. }
  apply Forall_cons in Hall' as [Hfirst Hall'].
  unfold bind, send, read. cbn [self wire].
  specialize (Hfirst (length (wire w))).
  destruct (probe_response net _ _) as [canonical|].
  - rewrite bool_decide_eq_true_2 by exact Hfirst. now apply IH.
  - now apply IH.
Qed.

Lemma get_instance_spec (w : World) (r : outcome string) (w' : World) :
  get_instance net w = (r, w') ->
  let c := set_header "User-Agent" pybalt_user_agent (self w) in
  extends (selector_request (headers c)) w w' /\
  match r with
  | Return u =>
      (u ∉ skipped_instances (self w))
      /\ self w' = set_api_instance u c
      /\ exists instances good instance now,
           filter_instances instances [] = Some good
           /\ instance ∈ good
           /\ probe_response net now
                (mkRequest GET (probe_url instance) (headers c) None) = ProbeOk u
  | Raise e => self w' = c
  | OutOfFuel => False
  end.
Proof.
  intros H c. unfold get_instance, bind, modify, read, send in H.
  cbn [self wire] in H. fold c in H.
  set (request := mkRequest GET registry_url (headers c) None) in *.
  assert (Hsend : extends (selector_request (headers c)) w
                    (mkWorld c (wire w ++ [request]))).
  { eapply extends_trans; [apply (extends_self _ w c)|].
    apply extends_send. now repeat split. }
  destruct (registry_response net (length (wire w)) request) as [instances| |].
  - destruct (filter_instances instances []) as [good|] eqn:Ef.
    + destruct (select_loop net (S (length good)) (headers c) good
                  (mkWorld c (wire w ++ [request]))) as [[[]|e|] w1] eqn:El;
        (apply select_loop_spec in El; [|lia]); destruct El as [Hext Hr];
        cbn [self] in Hr.
      * injection H as <- <-. split; [eapply extends_trans; eauto|].
        destruct Hr as [Hn [Hs [i [n [Hi Hp]]]]]. repeat split; eauto.
        exists instances, good, i, n. eauto.
      * injection H as <- <-. split; [eapply extends_trans; eauto|]. tauto.
      * contradiction.
    + injection H as <- <-. now split.
  - injection H as <- <-. now split.
  - injection H as <- <-. now split.
Qed.

Lemma get_instance_exhausted (w : World) (instances good : list Instance) :
  let c := set_header "User-Agent" pybalt_user_agent (self w) in
  registry_response net (length (wire w)) (mkRequest GET registry_url (headers c) None)
    = RegistryOk instances ->
  filter_instances instances [] = Some good ->
  Forall (discarded net (headers c) (skipped_instances (self w))) good ->
  fst (get_instance net w) = Raise IndexError.
Proof.
  intros c Hreg Hf Hall. unfold get_instance, bind, modify, read, send.
  cbn [self wire]. fold c. rewrite Hreg, Hf.
  pose proof (select_loop_exhausted (S (length good)) (headers c) good
                (mkWorld c (wire w ++ [mkRequest GET registry_url (headers c) None]))) as He.
  destruct (select_loop _ _ _ _ _) as [r w1]. cbn [fst] in He |- *.
  rewrite He; [reflexivity|lia|exact Hall].
Qed.

End Selector.

(** ** The resolver *)

Lemma normalize_quality_canonical (quality : option string) :
  normalize_quality quality ∈ canonical_qualities.
Proof.
  destruct quality as [q|]; cbn [normalize_quality].
  - case_bool_decide as Hq; [exact Hq|].
    destruct (quality_aliases !! q) as [v|] eqn:Ev; cbn [default].
    + apply elem_of_list_to_map_2 in Ev.
      unfold canonical_qualities.
      repeat (apply elem_of_cons in Ev as [Ev|Ev];
              [injection Ev as _ ->; set_solver|]).
      now apply elem_of_nil in Ev.
    + unfold canonical_qualities. set_solver.
  - unfold canonical_qualities. set_solver.
Qed.

Lemma normalize_quality_idempotent (quality : option string) :
  normalize_quality (Some (normalize_quality quality)) = normalize_quality quality.
Proof.
  cbn [normalize_quality].
  now rewrite bool_decide_eq_true_2 by apply normalize_quality_canonical.
Qed.

Lemma snd_try_connector {A} (m : M A) (w : World) :
  snd (try_connector m w) = snd (m w).
Proof.
  unfold try_connector. destruct (m w) as [[a|e|] w']; try reflexivity.
  destruct e; reflexivity.
Qed.

Lemma fst_try_connector_return {A} (m : M A) (w : World) (a : A) :
  fst (try_connector m w) = Return a <-> fst (m w) = Return a.
Proof.
  unfold try_connector. destruct (m w) as [[a'|e|] w']; try reflexivity.
  destruct e; cbn; split; discriminate.
Qed.

(** The ways [on_error] can go: the shared retry, or one exception. *)
Lemma on_error_cases (retry : M File.t) (url code : string) :
  on_error retry url code = retry \/ exists e, on_error retry url code = raise e.
Proof.
  unfold on_error.
  destruct (PyStr.index _ 2) as [category|]; [|right; eauto].
  repeat match goal with
         | |- context [if ?b then _ else _] => destruct b
         end; eauto.
Qed.

Section Resolver.

Variable net : Network.

(** The statements the retrying branches share. *)
Lemma retry_unfold {A} (k : M A) (w : World) :
  (do_ modify skip_current; do_ get_instance net; k) w
  = bind (get_instance net) (fun _ => k) (mkWorld (skip_current (self w)) (wire w)).
Proof. reflexivity. Qed.

(** The first attempt of a call of [get], once an instance is active. *)
Lemma get_attempt (fuel : nat) (url : string) (quality : option string)
    (download_mode filename_style : string) (audio_format codec : option string)
    (w : World) (u : string) (w1 : World) :
  ensure_instance net w = (Return u, w1) ->
  let nq := normalize_quality quality in
  let json := request_body url nq filename_style audio_format codec in
  let request := mkRequest POST (api_instance (self w1)) (headers (self w)) (Some json) in
  get net (S fuel) url quality download_mode filename_style audio_format codec w
  = try_connector
      match post_response net (length (wire w1)) request with
      | PostConnectorError => raise ClientConnectorError
      | PostFailed => raise OtherError
      | PostOk status tunnel filename =>
          ret (File.init status (sanitize url) filename tunnel)
      | PostApiError code =>
          on_error
            (do_ modify skip_current;
             do_ get_instance net;
             get net fuel url (Some nq) download_mode filename_style audio_format codec)
            url code
      end
      (mkWorld (self w1) (wire w1 ++ [request])).
Proof.
  intros He nq json request. cbn [get].
  unfold bind at 1. unfold read at 1. cbn [self].
  unfold bind at 1. rewrite He.
  unfold try_connector, bind, post, read, send, ret. reflexivity.
Qed.

Lemma get_not_ensured (fuel : nat) (url : string) (quality : option string)
    (download_mode filename_style : string) (audio_format codec : option string)
    (w : World) (e : PyExc) (w1 : World) :
  ensure_instance net w = (Raise e, w1) ->
  get net (S fuel) url quality download_mode filename_style audio_format codec w
  = (Raise e, w1).
Proof.
  intros He. cbn [get]. unfold bind at 1. unfold read at 1. cbn [self].
  unfold bind at 1. now rewrite He.
Qed.

Lemma get_ensure_out_of_fuel (fuel : nat) (url : string) (quality : option string)
    (download_mode filename_style : string) (audio_format codec : option string)
    (w w1 : World) :
  ensure_instance net w = (OutOfFuel, w1) ->
  get net (S fuel) url quality download_mode filename_style audio_format codec w
  = (OutOfFuel, w1).
Proof.
  intros He. cbn [get]. unfold bind at 1. unfold read at 1. cbn [self].
  unfold bind at 1. now rewrite He.
Qed.

Lemma ensure_instance_spec (w : World) (r : outcome string) (w1 : World) :
  ensure_instance net w = (r, w1) ->
  (wants_fetch (api_instance (self w)) = false /\ r = Return (api_instance (self w)) /\ w1 = w)
  \/ (wants_fetch (api_instance (self w)) = true /\ get_instance net w = (r, w1)).
Proof.
  unfold ensure_instance, bind, read, ret. cbn [self].
  destruct (wants_fetch (api_instance (self w))).
  - intros H. right. split; [reflexivity|].
    destruct (get_instance net w) as [[a|e|] w']; exact H.
  - intros H. injection H as <- <-. now left.
Qed.

Lemma ensure_instance_active (w : World) :
  wants_fetch (api_instance (self w)) = false ->
  ensure_instance net w = (Return (api_instance (self w)), w).
Proof.
  intros H. unfold ensure_instance, bind, read, ret. cbn [self]. now rewrite H.
Qed.

Lemma ensure_instance_skipped (w : World) (r : outcome string) (w1 : World) :
  ensure_instance net w = (r, w1) ->
  skipped_instances (self w1) = skipped_instances (self w)
  /\ api_key (self w1) = api_key (self w).
Proof.
  intros H. apply ensure_instance_spec in H as [[_ [_ ->]]|[_ H]]; [now split|].
  apply get_instance_spec in H as [_ H]. cbn zeta in H.
  destruct r as [u|e|]; [destruct H as [_ [-> _]]|rewrite H|contradiction];
    now split.
Qed.

(** An error code that ends the call: the exception leaves [get] with the
    request on the wire and the client object as it was. *)
Lemma get_terminal (fuel : nat) (url : string) (quality : option string)
    (download_mode filename_style : string) (audio_format codec : option string)
    (w : World) (u : string) (w1 : World) (code : string) (e : PyExc) :
  ensure_instance net w = (Return u, w1) ->
  let request :=
    mkRequest POST (api_instance (self w1)) (headers (self w))
      (Some (request_body url (normalize_quality quality) filename_style
               audio_format codec)) in
  post_response net (length (wire w1)) request = PostApiError code ->
  (forall retry, on_error retry url code = raise e) ->
  e <> ClientConnectorError ->
  get net (S fuel) url quality download_mode filename_style audio_format codec w
  = (Raise e, mkWorld (self w1) (wire w1 ++ [request])).
Proof.
  intros He request Hp Hon Hne.
  rewrite (get_attempt _ _ _ _ _ _ _ _ _ _ He). fold request. rewrite Hp, Hon.
  unfold try_connector, raise. destruct e; congruence.
Qed.

(** An error code that rotates: the current instance is appended to
    [skipped_instances], and the outcome is that of selecting again and
    calling [get] with the normalised quality. *)
Lemma get_rotates (fuel : nat) (url : string) (quality : option string)
    (download_mode filename_style : string) (audio_format codec : option string)
    (w : World) (u : string) (w1 : World) (code : string) :
  ensure_instance net w = (Return u, w1) ->
  let request :=
    mkRequest POST (api_instance (self w1)) (headers (self w))
      (Some (request_body url (normalize_quality quality) filename_style
               audio_format codec)) in
  post_response net (length (wire w1)) request = PostApiError code ->
  (forall retry, on_error retry url code = retry) ->
  get net (S fuel) url quality download_mode filename_style audio_format codec w
  = try_connector
      (do_ get_instance net;
       get net fuel url (Some (normalize_quality quality)) download_mode
           filename_style audio_format codec)
      (mkWorld (skip_current (self w1)) (wire w1 ++ [request])).
Proof.
  intros He request Hp Hon.
  rewrite (get_attempt _ _ _ _ _ _ _ _ _ _ He). fold request. rewrite Hp, Hon.
  unfold try_connector. now rewrite retry_unfold.
Qed.

(** The resubmission succeeds when the selector finds an instance that
    answers the same body with a tunnel. *)
Lemma rotation_succeeds (fuel : nat) (url : string) (quality : option string)
    (download_mode filename_style : string) (audio_format codec : option string)
    (w3 : World) (u' : string) (w4 : World) (status tunnel filename : string) :
  get_instance net w3 = (Return u', w4) ->
  wants_fetch u' = false ->
  let request :=
    mkRequest POST u' (headers (self w4))
      (Some (request_body url (normalize_quality quality) filename_style
               audio_format codec)) in
  post_response net (length (wire w4)) request = PostOk status tunnel filename ->
  try_connector
    (do_ get_instance net;
     get net (S fuel) url (Some (normalize_quality quality)) download_mode
         filename_style audio_format codec) w3
  = (Return (File.init status (sanitize url) filename tunnel),
     mkWorld (self w4) (wire w4 ++ [request])).
Proof.
  intros Hg Hw request Hp.
  assert (Hu : api_instance (self w4) = u').
  { apply get_instance_spec in Hg as [_ [_ [-> _]]]. reflexivity. }
  assert (He : ensure_instance net w4 = (Return u', w4)).
  { pose proof (ensure_instance_active w4) as Ha. rewrite Hu in Ha. now apply Ha. }
  unfold try_connector, bind. rewrite Hg.
  rewrite (get_attempt _ _ _ _ _ _ _ _ _ _ He).
  rewrite normalize_quality_idempotent, Hu. fold request. rewrite Hp.
  reflexivity.
Qed.

(** *** Invariants of a call of [get]

    [I] is a property of the client object kept by every step, [P] one of
    every request sent. *)
Section Invariant.

Variable I : Cobalt -> Prop.
Variable P : Request -> Prop.
Variables (url filename_style : string) (audio_format codec : option string).
Variable nq : string.

Hypothesis I_header :
  forall c, I c -> I (set_header "User-Agent" pybalt_user_agent c).
Hypothesis I_select :
  forall c u, I c -> u ∉ skipped_instances c -> I (set_api_instance u c).
Hypothesis I_skip : forall c, I c -> I (skip_current c).
Hypothesis P_selector :
  forall c r,
    I c ->
    selector_request (headers (set_header "User-Agent" pybalt_user_agent c)) r ->
    P r.
Hypothesis P_post :
  forall c0 c,
    I c0 -> I c ->
    P (mkRequest POST (api_instance c) (headers c0)
         (Some (request_body url nq filename_style audio_format codec))).

Lemma get_instance_invariant (w : World) :
  I (self w) ->
  I (self (snd (get_instance net w))) /\ extends P w (snd (get_instance net w)).
Proof.
  intros Hi. destruct (get_instance net w) as [r w'] eqn:E. cbn [snd].
  apply get_instance_spec in E. cbn zeta in E. destruct E as [Hext Hr]. split.
  - destruct r as [u|e|]; [|now rewrite Hr; apply I_header|contradiction].
    destruct Hr as [Hn [-> _]]. apply I_select; [now apply I_header|exact Hn].
  - eapply extends_mono; [|exact Hext]. intros r0. now apply P_selector.
Qed.

Lemma ensure_instance_invariant (w : World) :
  I (self w) ->
  I (self (snd (ensure_instance net w))) /\ extends P w (snd (ensure_instance net w)).
Proof.
  intros Hi. destruct (ensure_instance net w) as [r w1] eqn:E. cbn [snd].
  apply ensure_instance_spec in E as [[_ [_ ->]]|[_ E]].
  - split; [exact Hi|apply extends_refl].
  - pose proof (get_instance_invariant w Hi) as H. now rewrite E in H.
Qed.

Lemma get_invariant (fuel : nat) :
  forall (quality : option string) (download_mode : string) (w : World),
    normalize_quality quality = nq ->
    I (self w) ->
    let w' := snd (get net fuel url quality download_mode filename_style
                       audio_format codec w) in
    I (self w') /\ extends P w w'.
Proof.
  induction fuel as [|fuel IH]; intros quality dm w Hq Hi; cbn zeta.
  { cbn. split; [exact Hi|apply extends_refl]. }
  pose proof (ensure_instance_invariant w Hi) as [Hi1 He1].
  destruct (ensure_instance net w) as [[u|e|] w1] eqn:Ee; cbn [snd] in Hi1, He1.
  2: { rewrite (get_not_ensured _ _ _ _ _ _ _ _ _ _ Ee). split; assumption. }
  2: { rewrite (get_ensure_out_of_fuel _ _ _ _ _ _ _ _ _ Ee). split; assumption. }
  rewrite (get_attempt _ _ _ _ _ _ _ _ _ _ Ee). rewrite snd_try_connector, Hq.
  set (request := mkRequest POST _ _ _).
  assert (Hp : P request) by now apply P_post.
  assert (He2 : extends P w (mkWorld (self w1) (wire w1 ++ [request]))).
  { eapply extends_trans; [exact He1|]. destruct w1. now apply extends_send. }
  destruct (post_response net (length (wire w1)) request) as [st tn fn|code| |];
    try (cbn; now split).
  destruct (on_error_cases
              (do_ modify skip_current; do_ get_instance net;
               get net fuel url (Some nq) dm filename_style audio_format codec)
              url code) as [->|[e ->]]; [|cbn; now split].
  rewrite retry_unfold. cbn [self wire].
  set (w3 := mkWorld (skip_current (self w1)) (wire w1 ++ [request])).
  assert (Hi3 : I (self w3)) by now apply I_skip.
  assert (He3 : extends P w w3).
  { destruct He2 as [new [E F]]. exists new. now split. }
  pose proof (get_instance_invariant w3 Hi3) as [Hi4 He4].
  unfold bind.
  destruct (get_instance net w3) as [[u'|e'|] w4]; cbn [snd] in Hi4, He4 |- *;
    try (split; [exact Hi4|eapply extends_trans; eauto]).
  assert (Hq' : normalize_quality (Some nq) = nq).
  { rewrite <- Hq. apply normalize_quality_idempotent. }
  destruct (IH (Some nq) dm w4 Hq' Hi4) as [Hi5 He5].
  split; [exact Hi5|]. eapply extends_trans; [|exact He5].
  eapply extends_trans; eauto.
Qed.

(** The retrying branches under any [I] and [P] as above. *)
Lemma rotation_invariant (fuel : nat) (quality : option string)
    (download_mode : string) (w : World) :
  normalize_quality quality = nq ->
  I (self w) ->
  let w' := snd (try_connector
                   (do_ get_instance net;
                    get net fuel url quality download_mode filename_style
                        audio_format codec) w) in
  I (self w') /\ extends P w w'.
Proof.
  intros Hq Hi. cbn zeta. rewrite snd_try_connector. unfold bind.
  pose proof (get_instance_invariant w Hi) as [Hi4 He4].
  destruct (get_instance net w) as [[u'|e'|] w4]; cbn [snd] in Hi4, He4 |- *;
    try (split; assumption).
  destruct (get_invariant fuel quality download_mode w4 Hq Hi4) as [Hi5 He5].
  split; [exact Hi5|]. eapply extends_trans; eauto.
Qed.

Lemma download_request_invariant (tunnel : string) (w : World) :
  (forall c, I c -> P (mkRequest GET tunnel (headers c) None)) ->
  I (self w) ->
  I (self (snd (download_request tunnel w)))
  /\ extends P w (snd (download_request tunnel w)).
Proof.
  intros Hd Hi. unfold download_request, bind, read, send. cbn.
  split; [exact Hi|]. destruct w. apply extends_send. now apply Hd.
Qed.

End Invariant.

End Resolver.

(** ** Consequences for whole calls *)

Section Calls.

Variable net : Network.

(** Every POST of a call of [get] carries the body built on its first
    attempt. *)
Lemma get_posts (fuel : nat) (url : string) (quality : option string)
    (download_mode filename_style : string) (audio_format codec : option string)
    (w : World) :
  extends
    (fun r => method r = POST ->
              payload r = Some (request_body url (normalize_quality quality)
                                  filename_style audio_format codec))
    w (snd (get net fuel url quality download_mode filename_style audio_format codec w)).
Proof.
  apply (get_invariant net (fun _ => True)
           (fun r => method r = POST ->
                     payload r = Some (request_body url (normalize_quality quality)
                                         filename_style audio_format codec))
           url filename_style audio_format codec (normalize_quality quality));
    try (intros; exact Logic.I); try reflexivity.
  intros c r _ [Hm _]. rewrite Hm. discriminate.
Qed.

(** Whatever [get] returns was built from the sanitised URL. *)
Lemma get_return (fuel : nat) (url : string) (download_mode filename_style : string)
    (audio_format codec : option string) :
  forall (quality : option string) (w : World) (file : File.t),
    fst (get net fuel url quality download_mode filename_style audio_format codec w)
    = Return file ->
    exists status tunnel filename,
      file = File.init status (sanitize url) filename tunnel.
Proof.
  induction fuel as [|fuel IH]; intros quality w file H; [discriminate|].
  destruct (ensure_instance net w) as [[u|e|] w1] eqn:Ee.
  2: { rewrite (get_not_ensured _ _ _ _ _ _ _ _ _ _ _ Ee) in H. discriminate. }
  2: { rewrite (get_ensure_out_of_fuel _ _ _ _ _ _ _ _ _ _ Ee) in H. discriminate. }
  rewrite (get_attempt _ _ _ _ _ _ _ _ _ _ _ Ee) in H.
  apply (proj1 (fst_try_connector_return _ _ _)) in H.
  destruct (post_response net _ _) as [st tn fn|code| |]; try discriminate.
  - unfold ret in H. cbn [fst] in H. injection H as <-. eauto.
  - match type of H with
    | context [on_error ?r _ _] =>
        destruct (on_error_cases r url code) as [E|[e E]]; rewrite E in H
    end; [|discriminate].
    rewrite retry_unfold in H. unfold bind in H.
    destruct (get_instance net _) as [[u'|e'|] w4]; try discriminate.
    eapply IH. exact H.
Qed.

Lemma get_instance_wire (w : World) :
  extends (fun _ => True) w (snd (get_instance net w)).
Proof.
  now apply (get_instance_invariant net (fun _ => True) (fun _ => True)).
Qed.

Lemma ensure_instance_wire (w : World) :
  extends (fun _ => True) w (snd (ensure_instance net w)).
Proof.
  now apply (ensure_instance_invariant net (fun _ => True) (fun _ => True)).
Qed.

Lemma get_wire (fuel : nat) (url : string) (quality : option string)
    (download_mode filename_style : string) (audio_format codec : option string)
    (w : World) :
  extends (fun _ => True) w
    (snd (get net fuel url quality download_mode filename_style audio_format codec w)).
Proof.
  now apply (get_invariant net (fun _ => True) (fun _ => True) url filename_style
               audio_format codec (normalize_quality quality)).
Qed.

(** Once an instance is active the call sends its POST. *)
Lemma get_first_post (fuel : nat) (url : string) (quality : option string)
    (download_mode filename_style : string) (audio_format codec : option string)
    (w : World) (u : string) (w1 : World) :
  ensure_instance net w = (Return u, w1) ->
  mkRequest POST (api_instance (self w1)) (headers (self w))
    (Some (request_body url (normalize_quality quality) filename_style
             audio_format codec))
  ∈ sent_since w
      (snd (get net (S fuel) url quality download_mode filename_style
                audio_format codec w)).
Proof.
  intros He.
  destruct (ensure_instance_wire w) as [n1 [E1 _]].
  rewrite He in E1. cbn [snd] in E1.
  rewrite (get_attempt net fuel url quality download_mode filename_style
             audio_format codec w u w1 He), snd_try_connector.
  set (request := mkRequest POST _ _ _).
  set (w2 := mkWorld (self w1) (wire w1 ++ [request])).
  assert (Hext : forall m : M File.t,
             (m = (do_ modify skip_current; do_ get_instance net;
                   get net fuel url (Some (normalize_quality quality))
                       download_mode filename_style audio_format codec)
              \/ exists r, forall w0, m w0 = (r, w0)) ->
             extends (fun _ => True) w2 (snd (m w2))).
  { intros m [->|[r Hm]]; [|rewrite Hm; apply extends_refl].
    rewrite retry_unfold. unfold bind.
    set (w3 := mkWorld (skip_current (self w2)) (wire w2)).
    pose proof (get_instance_wire w3) as H4.
    assert (H3 : extends (fun _ : Request => True) w2 w3)
      by (exists []; cbn; now rewrite app_nil_r).
    destruct (get_instance net w3) as [[u'|e'|] w4]; cbn [snd] in H4 |- *;
      try (eapply extends_trans; eauto).
    eapply extends_trans; [exact H4|]. apply get_wire. }
  match goal with
  | |- _ ∈ sent_since _ (snd (?m w2)) =>
      destruct (Hext m) as [n2 [E2 _]]
  end.
  { destruct (post_response net _ _) as [st tn fn|code| |];
      try (right; eexists; intros; reflexivity).
    match goal with
    | |- context [on_error ?k _ _] =>
        destruct (on_error_cases k url code) as [E|[e E]]; rewrite E
    end; [now left|right; eexists; intros; reflexivity]. }
  unfold sent_since. rewrite E2. subst w2. cbn [wire]. rewrite E1.
  rewrite <- !app_assoc, drop_app_length.
  rewrite !elem_of_app. right. left. now left.
Qed.

End Calls.

(** ** Claims *)

(** C5. The filter loop of [get_instance] goes through on every registry
    list whose versions begin with a decimal number, and whenever it goes
    through: an instance whose version begins with a decimal number is among
    the candidates exactly when it is in the list, that number (the major
    component of its version) is at least 10, its trust is 1 and at most 7
    of its services report unhealthy; so no instance with a major component
    below 10, or a trust other than 1, or more than 7 unhealthy services is
    among the candidates. *)
Theorem C5_filter_policy (instances : list Instance) :
  (Forall (fun instance => plain_version (version instance)) instances ->
   is_Some (filter_instances instances []))
  /\ forall good instance,
       filter_instances instances [] = Some good ->
       (instance ∈ good ->
        instance ∈ instances /\ trust instance = 1 /\ (unhealthy instance <= 7)%nat)
       /\ (is_Some (major_component (version instance)) ->
           instance ∈ good <-> instance ∈ instances /\ is_good instance)
       /\ ((exists major, major_component (version instance) = Some major /\ major < 10)
           \/ trust instance <> 1 \/ (7 < unhealthy instance)%nat ->
           instance ∉ good).
Proof.
  split; [apply filter_instances_plain|].
  intros good instance. apply filter_instances_policy.
Qed.

Lemma C5_filter_policy_witness :
  let registry := [instance_old; instance_untrusted; instance_unhealthy; instance_good] in
  filter_instances registry [] = Some [instance_good]
  /\ (instance_good ∈ [instance_good] <-> instance_good ∈ registry /\ is_good instance_good)
  /\ (instance_old ∈ [instance_good] <-> instance_old ∈ registry /\ is_good instance_old)
  /\ ~ is_good instance_old
  /\ (instance_unhealthy ∉ [instance_good]).
Proof.
  cbn zeta.
  destruct (C5_filter_policy
              [instance_old; instance_untrusted; instance_unhealthy; instance_good])
    as [Htotal Hpolicy].
  assert (Hf : filter_instances
                 [instance_old; instance_untrusted; instance_unhealthy; instance_good] []
               = Some [instance_good]) by (vm_compute; reflexivity).
  split; [exact Hf|].
  destruct (Hpolicy [instance_good] instance_good Hf) as [_ [Hgood _]].
  destruct (Hpolicy [instance_good] instance_old Hf) as [_ [Hold _]].
  destruct (Hpolicy [instance_good] instance_unhealthy Hf) as [_ [_ Hsick]].
  split; [apply Hgood; vm_compute; eauto|].
  split; [apply Hold; vm_compute; eauto|].
  split.
  - intros [[m [Hm Hge]] _]. vm_compute in Hm. injection Hm as <-. lia.
  - apply Hsick. right. right. vm_compute. lia.
Defined.

Example filter_keeps_seven_dead :
  filter_instances [instance_old; instance_untrusted; instance_unhealthy; instance_good] []
  = Some [instance_good].
Proof. reflexivity. Qed.

Example filter_bad_version :
  filter_instances [instance_good; mkInstance "x" "https" 1 "v10" [] 1] [] = None.
Proof. reflexivity. Qed.

(** A version that [int()] reads although it begins with no digit: the
    entry is kept. *)
Example filter_lenient_version :
  filter_instances [mkInstance "x" "https" 1 " +1_0.2" [] 1] []
  = Some [mkInstance "x" "https" 1 " +1_0.2" [] 1].
Proof. reflexivity. Qed.

(** C6. The quality argument of [get] is normalised without ever failing:
    a canonical token is kept, an alias is mapped to its numeric token
    (4k to 2160), anything else becomes 1080; the result is the
    [videoQuality] of the body of every POST of the call, and once an
    instance is active such a POST is sent. *)
Theorem C6_quality_normalized (net : Network) (fuel : nat) (url : string)
    (quality : option string) (download_mode filename_style : string)
    (audio_format codec : option string) (w : World) :
  let nq := normalize_quality quality in
  let w' := snd (get net (S fuel) url quality download_mode filename_style
                     audio_format codec w) in
  let aliases :=
    [("8k", "3840"); ("4k", "2160"); ("2k", "1440"); ("1080p", "1080");
     ("720p", "720"); ("480p", "480"); ("360p", "360"); ("240p", "240");
     ("144p", "144")] in
  (forall q, quality = Some q ->
             q ∈ ["max"; "3840"; "2160"; "1440"; "1080"; "720"; "480"; "360"; "240"; "144"] ->
             nq = q)
  /\ (forall q v, quality = Some q -> (q, v) ∈ aliases -> nq = v)
  /\ normalize_quality (Some "4k") = "2160"
  /\ ((forall q, quality = Some q ->
                 (q ∉ ["max"; "3840"; "2160"; "1440"; "1080"; "720"; "480"; "360"; "240"; "144"])
                 /\ (q ∉ aliases.*1)) ->
      nq = "1080")
  /\ Forall (fun r => method r = POST -> Body.videoQuality <$> payload r = Some nq)
            (sent_since w w')
  /\ (forall u w1,
        ensure_instance net w = (Return u, w1) ->
        exists r, r ∈ sent_since w w' /\ method r = POST
                  /\ Body.videoQuality <$> payload r = Some nq).
Proof.
  cbn zeta. repeat split.
  - intros q -> Hq. cbn [normalize_quality].
    now rewrite bool_decide_eq_true_2.
  - intros q v -> Hq.
    repeat (apply elem_of_cons in Hq as [Hq|Hq];
            [injection Hq as -> ->; vm_compute; reflexivity|]).
    now apply elem_of_nil in Hq.
  - intros H. destruct quality as [q|]; [|reflexivity].
    destruct (H q eq_refl) as [Hc Ha]. cbn [normalize_quality].
    rewrite bool_decide_eq_false_2 by exact Hc.
    unfold quality_aliases. now rewrite (not_elem_of_list_to_map_1 _ _ Ha).
  - apply extends_sent_since.
    eapply extends_mono; [|apply get_posts]. cbn beta.
    intros r Hr Hm. now rewrite (Hr Hm).
  - intros u w1 He. eexists. split; [exact (get_first_post _ _ _ _ _ _ _ _ _ _ _ He)|].
    now split.
Qed.

(** ** Error codes that end the call *)

Lemma on_error_link (retry : M File.t) (url code : string) :
  PyStr.index (PyStr.split PyStr.dot code) 2 = Some "link" ->
  on_error retry url code = raise (LinkError url code).
Proof. intros H. unfold on_error. now rewrite H. Qed.

Lemma on_error_short (retry : M File.t) (url code : string) :
  (length (PyStr.split PyStr.dot code) < 3)%nat ->
  on_error retry url code = raise IndexError.
Proof.
  intros H. unfold on_error.
  destruct (PyStr.index _ 2) eqn:E; [|reflexivity].
  assert (PyStr.index (PyStr.split PyStr.dot code) 2 = None)
    by (apply index_none_iff; lia).
  congruence.
Qed.

Lemma on_error_long (retry : M File.t) (url code : string) :
  (3 <= length (PyStr.split PyStr.dot code))%nat ->
  on_error retry url code = retry
  \/ exists e, e <> IndexError /\ on_error retry url code = raise e.
Proof.
  intros H. unfold on_error.
  destruct (PyStr.index _ 2) as [category|] eqn:E.
  - repeat match goal with
           | |- context [if ?b then _ else _] => destruct b
           end; try (now left); right; eexists; (split; [|reflexivity]); discriminate.
  - apply index_none_iff in E. lia.
Qed.

Lemma on_error_auth (retry : M File.t) (url code : string) :
  PyStr.index (PyStr.split PyStr.dot code) 2 = Some "auth" ->
  let last := PyStr.last_item (PyStr.split PyStr.dot code) in
  on_error retry url code
  = if decide (last = Some "missing" \/ last = Some "not_found")
    then retry else raise (AuthError code).
Proof.
  intros H. unfold on_error. rewrite H. cbn [String.eqb Ascii.eqb Bool.eqb].
  cbn zeta. case_decide as Hd.
  - destruct Hd as [Hd|Hd]; rewrite Hd; reflexivity.
  - rewrite !bool_decide_eq_false_2 by tauto. reflexivity.
Qed.

Lemma on_error_rotating (retry : M File.t) (url code category : string) :
  PyStr.index (PyStr.split PyStr.dot code) 2 = Some category ->
  category = "youtube" \/ category = "fetch" ->
  on_error retry url code = retry.
Proof.
  intros H [-> | ->]; unfold on_error; now rewrite H.
Qed.

(** C8. An error code whose third segment is link makes [get] raise
    [LinkError] on its first attempt: one POST is on the wire, nothing is
    retried, the active instance is the one the request went to and
    [skipped_instances] is as before the call. *)
Theorem C8_link_error (net : Network) (fuel : nat) (url : string)
    (quality : option string) (download_mode filename_style : string)
    (audio_format codec : option string) (w : World) (u : string) (w1 : World)
    (code : string) :
  ensure_instance net w = (Return u, w1) ->
  let request :=
    mkRequest POST (api_instance (self w1)) (headers (self w))
      (Some (request_body url (normalize_quality quality) filename_style
               audio_format codec)) in
  post_response net (length (wire w1)) request = PostApiError code ->
  PyStr.index (PyStr.split PyStr.dot code) 2 = Some "link" ->
  get net (S fuel) url quality download_mode filename_style audio_format codec w
  = (Raise (LinkError url code), mkWorld (self w1) (wire w1 ++ [request]))
  /\ skipped_instances (self w1) = skipped_instances (self w).
Proof.
  intros He request Hp Hc. split.
  - apply (get_terminal net fuel url quality download_mode filename_style
             audio_format codec w u w1 code (LinkError url code) He Hp);
      [|discriminate].
    intros retry. now apply on_error_link.
  - now apply (ensure_instance_skipped net w (Return u) w1).
Qed.

Lemma C8_link_error_witness :
  get (net_answering "error.api.link.invalid") 3 "https://youtu.be/x" (Some "720")
      "auto" "pretty" None None world_active
  = (Raise (LinkError "https://youtu.be/x" "error.api.link.invalid"),
     mkWorld (self world_active)
       (wire world_active
        ++ [mkRequest POST "https://cobalt.example/" plain_headers
              (Some (request_body "https://youtu.be/x" "720" "pretty" None None))]))
  /\ skipped_instances (self world_active) = skipped_instances (self world_active).
Proof.
  apply (C8_link_error (net_answering "error.api.link.invalid") 2 "https://youtu.be/x"
           (Some "720") "auto" "pretty" None None world_active
           "https://cobalt.example/" world_active "error.api.link.invalid");
    reflexivity.
Defined.

(** C10. An error code with fewer than three dot-separated segments makes
    [get] raise [IndexError], an exception outside [pybalt.exceptions], at
    the dispatch on the third segment; the dispatch itself raises
    [IndexError] for no code of three segments or more. *)
Theorem C10_short_code_index_error (net : Network) (fuel : nat) (url : string)
    (quality : option string) (download_mode filename_style : string)
    (audio_format codec : option string) (w : World) (u : string) (w1 : World)
    (code : string) :
  ensure_instance net w = (Return u, w1) ->
  let request :=
    mkRequest POST (api_instance (self w1)) (headers (self w))
      (Some (request_body url (normalize_quality quality) filename_style
               audio_format codec)) in
  post_response net (length (wire w1)) request = PostApiError code ->
  let segments := PyStr.split PyStr.dot code in
  ((length segments < 3)%nat ->
   get net (S fuel) url quality download_mode filename_style audio_format codec w
   = (Raise IndexError, mkWorld (self w1) (wire w1 ++ [request])))
  /\ ((3 <= length segments)%nat ->
      forall retry,
        on_error retry url code = retry
        \/ exists e, e <> IndexError /\ on_error retry url code = raise e).
Proof.
  intros He request Hp segments. split.
  - intros Hlen.
    apply (get_terminal net fuel url quality download_mode filename_style
             audio_format codec w u w1 code IndexError He Hp); [|discriminate].
    intros retry. now apply on_error_short.
  - intros Hlen retry. now apply on_error_long.
Qed.

Lemma C10_short_code_index_error_witness :
  ((length (PyStr.split PyStr.dot "error.api") < 3)%nat ->
   get (net_answering "error.api") 1 "https://youtu.be/x" None "auto" "pretty"
       None None world_active
   = (Raise IndexError,
      mkWorld (self world_active)
        (wire world_active
         ++ [mkRequest POST "https://cobalt.example/" plain_headers
               (Some (request_body "https://youtu.be/x" "1080" "pretty" None None))])))
  /\ ((3 <= length (PyStr.split PyStr.dot "error.api"))%nat ->
      forall retry,
        on_error retry "https://youtu.be/x" "error.api" = retry
        \/ exists e, e <> IndexError
                     /\ on_error retry "https://youtu.be/x" "error.api" = raise e).
Proof.
  apply (C10_short_code_index_error (net_answering "error.api") 0 "https://youtu.be/x"
           None "auto" "pretty" None None world_active
           "https://cobalt.example/" world_active "error.api");
    reflexivity.
Defined.

Example short_code_raises :
  fst (get (net_answering "rate_limited") 4 "https://youtu.be/x" None "auto" "pretty"
           None None world_active) = Raise IndexError.
Proof. reflexivity. Qed.

(** ** Error codes that rotate the instance *)

Lemma prefix_invariant (net : Network) (l : list string) (fuel : nat) (url : string)
    (quality : option string) (download_mode filename_style : string)
    (audio_format codec : option string) (w : World) :
  l `prefix_of` skipped_instances (self w) ->
  l `prefix_of`
    skipped_instances
      (self (snd (try_connector
                    (do_ get_instance net;
                     get net fuel url quality download_mode filename_style
                         audio_format codec) w))).
Proof.
  intros H.
  apply (rotation_invariant net (fun c => l `prefix_of` skipped_instances c)
           (fun _ => True) url filename_style audio_format codec
           (normalize_quality quality)); auto.
  intros c Hc. cbn. now apply prefix_app_r.
Qed.

(** *** The number of retries *)

Lemma fst_try_connector_fuel {A} (m : M A) (w : World) :
  fst (try_connector m w) = OutOfFuel <-> fst (m w) = OutOfFuel.
Proof.
  unfold try_connector. destruct (m w) as [[a|e|] w']; try reflexivity.
  destruct e; cbn; split; discriminate.
Qed.

Lemma size_after_skip (urls : gset string) (skipped : list string) (u : string) :
  u ∈ urls -> u ∉ skipped ->
  (size (urls ∖ list_to_set (skipped ++ [u])) < size (urls ∖ list_to_set skipped))%nat.
Proof.
  intros Hu Hs. apply subset_size. rewrite list_to_set_app_L.
  apply strict_spec_alt. split.
  - intros x Hx. apply elem_of_difference in Hx as [Hx Hn].
    apply elem_of_difference. split; [exact Hx|].
    intros Hx'. apply Hn, elem_of_union. now left.
  - intros E. assert (Hin : u ∈ urls ∖ list_to_set (C := gset string) skipped)
      by (apply elem_of_difference; split; [exact Hu|now rewrite elem_of_list_to_set]).
    rewrite <- E in Hin. apply elem_of_difference in Hin as [_ Hin].
    apply Hin, elem_of_union. right. rewrite elem_of_list_to_set. now left.
Qed.

Lemma size_skip_mono (urls : gset string) (skipped : list string) (u : string) :
  (size (urls ∖ list_to_set (skipped ++ [u])) <= size (urls ∖ list_to_set skipped))%nat.
Proof.
  apply subseteq_size. rewrite list_to_set_app_L.
  intros x Hx. apply elem_of_difference in Hx as [Hx Hn].
  apply elem_of_difference. split; [exact Hx|].
  intros Hx'. apply Hn, elem_of_union. now left.
Qed.

Section Termination.

Variable net : Network.
Variable urls : gset string.
Hypothesis probes_in_urls :
  forall now r u, probe_response net now r = ProbeOk u -> u ∈ urls.

Lemma get_instance_fresh (w : World) (u : string) (w' : World) :
  get_instance net w = (Return u, w') ->
  fresh urls w' /\ skipped_instances (self w') = skipped_instances (self w).
Proof.
  intros H. apply get_instance_spec in H as [_ [Hn [Hself [? [? [? [now [_ [_ Hp]]]]]]]]].
  unfold fresh. rewrite Hself.
  cbn [api_instance skipped_instances set_api_instance set_header].
  repeat split; [eapply probes_in_urls; eauto|exact Hn].
Qed.

Lemma get_from_fresh (url download_mode filename_style : string)
    (audio_format codec : option string) (n : nat) :
  forall (quality : option string) (w : World),
    fresh urls w ->
    (size (urls ∖ list_to_set (skipped_instances (self w))) <= n)%nat ->
    fst (get net (S n) url quality download_mode filename_style audio_format codec w)
    <> OutOfFuel.
Proof.
  induction n as [|n IH]; intros quality w [Hu Hs] Hsize.
  { exfalso.
    assert (Hin : api_instance (self w)
                  ∈ urls ∖ list_to_set (C := gset string) (skipped_instances (self w)))
      by (apply elem_of_difference; split; [exact Hu|now rewrite elem_of_list_to_set]).
    apply Nat.le_0_r, size_empty_inv in Hsize. rewrite Hsize in Hin.
    now apply elem_of_empty in Hin. }
  destruct (ensure_instance net w) as [[u|e|] w1] eqn:Ee.
  2: { rewrite (get_not_ensured _ _ _ _ _ _ _ _ _ _ _ Ee). discriminate. }
  2: { apply ensure_instance_spec in Ee as [[_ [[=] _]]|[_ Ee]].
       apply get_instance_spec in Ee as [_ []]. }
  assert (Hf1 : fresh urls w1 /\ skipped_instances (self w1) = skipped_instances (self w)).
  { apply ensure_instance_spec in Ee as [[_ [_ ->]]|[_ Ee]]; [now repeat split|].
    now apply get_instance_fresh in Ee. }
  destruct Hf1 as [[Hu1 Hs1] Hk1].
  rewrite (get_attempt _ _ _ _ _ _ _ _ _ _ _ Ee). rewrite fst_try_connector_fuel.
  destruct (post_response net _ _) as [st tn fn|code| |]; try discriminate.
  match goal with
  | |- context [on_error ?k _ _] =>
      destruct (on_error_cases k url code) as [E|[e E]]; rewrite E
  end; [|discriminate].
  rewrite retry_unfold. cbn [self wire]. unfold bind.
  destruct (get_instance net _) as [[u'|e'|] w4] eqn:Eg; [|discriminate|].
  - apply get_instance_fresh in Eg as [Hf4 Hk4]. cbn [self skipped_instances skip_current] in Hk4.
    apply IH; [exact Hf4|]. rewrite Hk4.
    pose proof (size_after_skip urls (skipped_instances (self w1)) (api_instance (self w1))
                  Hu1 Hs1) as Hlt.
    rewrite Hk1 in Hlt |- *. lia.
  - apply get_instance_spec in Eg as [_ []].
Qed.

End Termination.

(** *** Retries that reach an instance *)

Lemma on_error_retryable (retry : M File.t) (url code : string) :
  retryable code -> on_error retry url code = retry.
Proof.
  unfold retryable. cbn zeta. intros [H|[H|[H Hl]]].
  - now apply (on_error_rotating retry url code "youtube"); [|left].
  - now apply (on_error_rotating retry url code "fetch"); [|right].
  - rewrite (on_error_auth retry url code H). cbn zeta. now rewrite decide_True.
Qed.

Lemma sent_since_later (w w1 w' : World) (r : Request) :
  extends (fun _ => True) w w1 ->
  r ∈ sent_since w1 w' -> r ∈ sent_since w w'.
Proof.
  intros [new [E _]]. unfold sent_since. rewrite E, length_app, <- drop_drop.
  apply subseteq_drop.
Qed.

Section Viable.

Variable net : Network.
Variable urls : gset string.
Variable instance : Instance.
Variable canonical : string.

Hypothesis probes : probes_within net urls.
Hypothesis answers : only_retryable_errors net.
Hypothesis Hviable : viable net instance canonical.

(** The loop finds an instance as long as [canonical] is not skipped. *)
Lemma select_loop_viable (fuel : nat) (cs : gmap string string) :
  forall (good : list Instance) (w : World),
    (length good < fuel)%nat ->
    instance ∈ good ->
    canonical ∉ skipped_instances (self w) ->
    exists w', select_loop net fuel cs good w = (Return tt, w').
Proof.
  induction fuel as [|fuel IH]; intros good w Hlen Hin Hc; [lia|].
  cbn [select_loop].
  apply sort_by_score_elem in Hin.
  destruct (sort_by_score good) as [|first rest] eqn:Es;
    [now apply elem_of_nil in Hin|].
  assert (Hrest : (length rest < fuel)%nat).
  { rewrite <- (sort_by_score_length good), Es in Hlen. cbn in Hlen. lia. }
  apply elem_of_cons in Hin.
  unfold bind, send, read. cbn [self wire].
  pose proof (viable_probed _ _ _ Hviable (length (wire w)) cs) as Hp.
  destruct (probe_response net (length (wire w))
              (mkRequest GET (probe_url first) cs None)) as [c|] eqn:Ep.
  - case_bool_decide as Hskip.
    + apply IH; [exact Hrest| |exact Hc].
      destruct Hin as [->|Hin]; [|exact Hin].
      rewrite Hp in Ep. injection Ep as <-. contradiction.
    + unfold modify. eauto.
  - apply IH; [exact Hrest| |exact Hc].
    destruct Hin as [->|Hin]; [|exact Hin].
    rewrite Hp in Ep. discriminate Ep.
Qed.

Lemma get_instance_viable (w : World) :
  canonical ∉ skipped_instances (self w) ->
  exists u w', get_instance net w = (Return u, w').
Proof.
  intros Hc. unfold get_instance, bind, modify, read, send. cbn [self wire].
  set (c := set_header "User-Agent" pybalt_user_agent (self w)).
  set (request := mkRequest GET registry_url (headers c) None).
  destruct (viable_listed _ _ _ Hviable (length (wire w)) request)
    as [instances [good [Hreg [Hf Hin]]]].
  rewrite Hreg, Hf.
  destruct (select_loop_viable (S (length good)) (headers c) good
              (mkWorld c (wire w ++ [request]))) as [w' Hs];
    [lia|exact Hin|exact Hc|].
  rewrite Hs. eauto.
Qed.

Lemma ensure_instance_viable (w : World) :
  canonical ∉ skipped_instances (self w) ->
  exists u w1, ensure_instance net w = (Return u, w1).
Proof.
  intros Hc. destruct (wants_fetch (api_instance (self w))) eqn:Ew.
  - destruct (get_instance_viable w Hc) as [u [w1 Hg]]. exists u, w1.
    unfold ensure_instance, bind, read. cbn [self]. now rewrite Ew.
  - rewrite ensure_instance_active by exact Ew. eauto.
Qed.

(** With [slack] at 0 the active instance is a fresh one; each retry skips
    a fresh instance, of which [urls] has no more than its size. *)
Lemma get_reaches (url download_mode filename_style : string)
    (audio_format codec : option string) (n : nat) :
  forall (quality : option string) (w : World) (slack : nat),
    canonical ∉ skipped_instances (self w) ->
    (slack = 0%nat -> fresh urls w) ->
    (size (urls ∖ list_to_set (skipped_instances (self w))) + slack <= n)%nat ->
    exists file,
      fst (get net (S n) url quality download_mode filename_style audio_format codec w)
      = Return file.
Proof.
  induction n as [|n IH]; intros quality w slack Hc Hslack Hsize.
  { exfalso. destruct Hslack as [Hu Hs]; [lia|].
    assert (Hin : api_instance (self w)
                  ∈ urls ∖ list_to_set (C := gset string) (skipped_instances (self w)))
      by (apply elem_of_difference; split; [exact Hu|now rewrite elem_of_list_to_set]).
    assert (Hz : size (urls ∖ list_to_set (C := gset string) (skipped_instances (self w)))
                 = 0%nat) by lia.
    apply size_empty_inv in Hz. rewrite Hz in Hin. now apply elem_of_empty in Hin. }
  destruct (ensure_instance_viable w Hc) as [u [w1 Ee]].
  assert (Hk1 : skipped_instances (self w1) = skipped_instances (self w))
    by (now apply (ensure_instance_skipped net w (Return u) w1)).
  assert (Hw1 : fresh urls w1 \/ w1 = w).
  { apply ensure_instance_spec in Ee as [[_ [_ ->]]|[_ Ee]]; [now right|left].
    now apply (get_instance_fresh net urls probes) in Ee. }
  rewrite (get_attempt net _ _ _ _ _ _ _ _ _ _ Ee).
  set (request := mkRequest POST _ _ _).
  pose proof (answers (length (wire w1)) request) as Ha.
  destruct (post_response net (length (wire w1)) request) as [st tn fn|code| |] eqn:Ep;
    try contradiction.
  { eexists. reflexivity. }
  rewrite (on_error_retryable _ _ _ Ha).
  assert (Hne : api_instance (self w1) <> canonical).
  { intros E.
    destruct (viable_resolves _ _ _ Hviable (length (wire w1)) request E)
      as [? [? [? Hok]]].
    congruence. }
  set (w3 := mkWorld (skip_current (self w1)) (wire w1 ++ [request])).
  assert (Hc3 : canonical ∉ skipped_instances (self w3)).
  { cbn. rewrite Hk1. intros Hx. apply elem_of_app in Hx as [Hx|Hx]; [contradiction|].
    apply list_elem_of_singleton in Hx. congruence. }
  destruct (get_instance_viable w3 Hc3) as [u' [w4 Eg]].
  destruct (get_instance_fresh net urls probes w3 u' w4 Eg) as [Hf4 Hk4].
  destruct (IH (Some (normalize_quality quality)) w4 0%nat) as [file Hfile].
  - now rewrite Hk4.
  - intros _. exact Hf4.
  - rewrite Hk4. cbn [w3 self skipped_instances skip_current]. rewrite Hk1.
    assert (Hstrict : fresh urls w ->
              (size (urls ∖ list_to_set (skipped_instances (self w)
                                           ++ [api_instance (self w)]))
               < size (urls ∖ list_to_set (skipped_instances (self w))))%nat)
      by (intros [Hu Hs]; now apply size_after_skip).
    destruct Hw1 as [[Hu1 Hs1]| ->].
    + pose proof (size_after_skip urls (skipped_instances (self w1))
                    (api_instance (self w1)) Hu1 Hs1) as Hlt.
      rewrite Hk1 in Hlt. lia.
    + destruct (Nat.eq_dec slack 0%nat) as [H0|H0].
      * specialize (Hstrict (Hslack H0)). lia.
      * pose proof (size_skip_mono urls (skipped_instances (self w))
                      (api_instance (self w))) as Hle.
        lia.
  - exists file. apply fst_try_connector_return.
    rewrite retry_unfold. cbn [self wire]. fold w3. unfold bind. rewrite Eg.
    exact Hfile.
Qed.

(** As long as an instance stays viable and the others answer with nothing
    but retryable errors, the call ends in a file. *)
Lemma get_reaches_viable (fuel : nat) (url : string) (quality : option string)
    (download_mode filename_style : string) (audio_format codec : option string)
    (w : World) :
  canonical ∉ skipped_instances (self w) ->
  (size (urls ∖ list_to_set (skipped_instances (self w))) + 2 <= fuel)%nat ->
  exists file,
    fst (get net fuel url quality download_mode filename_style audio_format codec w)
    = Return file.
Proof.
  intros Hc Hfuel. destruct fuel as [|n]; [lia|].
  apply (get_reaches url download_mode filename_style audio_format codec n quality w
           1%nat); [exact Hc|discriminate|lia].
Qed.

End Viable.

Lemma net_ranked_probes (first : string) (second : PostResponse) :
  probes_within (net_ranked first second) ranked_urls.
Proof.
  intros now r u. cbn [net_ranked probe_response].
  repeat (destruct (String.eqb (target r) _);
          [intros [= <-]; unfold ranked_urls; set_solver|]).
  discriminate.
Qed.

Lemma net_ranked_viable (first : string) (second : PostResponse) :
  viable (net_ranked first second) instance_backup "https://backup.example/".
Proof.
  split.
  - intros now r. exists [instance_backup; instance_top; instance_good],
      [instance_backup; instance_top; instance_good].
    split; [reflexivity|]. split; [vm_compute; reflexivity|]. now left.
  - intros now cs. reflexivity.
  - intros now r Ht. cbn [net_ranked post_response]. rewrite Ht. cbn. eauto.
Qed.

Lemma net_ranked_answers (first second : string) :
  retryable first -> retryable second ->
  only_retryable_errors (net_ranked first (PostApiError second)).
Proof.
  intros H1 H2 now r. cbn [net_ranked post_response].
  destruct (String.eqb (target r) _); [exact H1|].
  destruct (String.eqb (target r) _); [exact H2|exact Logic.I].
Qed.

(** The resubmission is refused: [BadInstance] names the instance just
    selected. *)
Lemma rotation_refused (net : Network) (fuel : nat) (url : string)
    (quality : option string) (download_mode filename_style : string)
    (audio_format codec : option string) (w3 : World) (u' : string) (w4 : World) :
  get_instance net w3 = (Return u', w4) ->
  wants_fetch u' = false ->
  let request :=
    mkRequest POST u' (headers (self w4))
      (Some (request_body url (normalize_quality quality) filename_style
               audio_format codec)) in
  post_response net (length (wire w4)) request = PostConnectorError ->
  try_connector
    (do_ get_instance net;
     get net (S fuel) url (Some (normalize_quality quality)) download_mode
         filename_style audio_format codec) w3
  = (Raise (BadInstance u'), mkWorld (self w4) (wire w4 ++ [request])).
Proof.
  intros Hg Hw request Hp.
  assert (Hu : api_instance (self w4) = u').
  { apply get_instance_spec in Hg as [_ [_ [-> _]]]. reflexivity. }
  assert (He : ensure_instance net w4 = (Return u', w4)).
  { pose proof (ensure_instance_active net w4) as Ha. rewrite Hu in Ha. now apply Ha. }
  unfold try_connector at 1. unfold bind. rewrite Hg.
  rewrite (get_attempt _ _ _ _ _ _ _ _ _ _ _ He).
  rewrite normalize_quality_idempotent, Hu. fold request. rewrite Hp.
  unfold try_connector, raise. cbn [self api_instance]. now rewrite Hu.
Qed.

(** What a retryable error code does to a call of [get] with fuel for the
    resubmission. *)
Lemma get_rotation (net : Network) (fuel : nat) (url : string)
    (quality : option string) (download_mode filename_style : string)
    (audio_format codec : option string) (w : World) (u : string) (w1 : World)
    (code : string) :
  ensure_instance net w = (Return u, w1) ->
  let json := request_body url (normalize_quality quality) filename_style
                           audio_format codec in
  let request := mkRequest POST (api_instance (self w1)) (headers (self w)) (Some json) in
  post_response net (length (wire w1)) request = PostApiError code ->
  retryable code ->
  let w3 := mkWorld (skip_current (self w1)) (wire w1 ++ [request]) in
  let result := get net (S (S fuel)) url quality download_mode filename_style
                    audio_format codec w in
  result = try_connector
             (do_ get_instance net;
              get net (S fuel) url (Some (normalize_quality quality)) download_mode
                  filename_style audio_format codec) w3
  /\ (skipped_instances (self w1) ++ [api_instance (self w1)])
       `prefix_of` skipped_instances (self (snd result))
  /\ Forall (fun r => method r = POST -> payload r = Some json)
            (sent_since w (snd result))
  /\ (forall e w4,
        get_instance net w3 = (Raise e, w4) ->
        result = (Raise match e with
                        | ClientConnectorError => BadInstance (api_instance (self w1))
                        | _ => e
                        end, w4))
  /\ (forall u' w4,
        get_instance net w3 = (Return u', w4) ->
        wants_fetch u' = false ->
        let again := mkRequest POST u' (headers (self w4)) (Some json) in
        again ∈ sent_since w (snd result)
        /\ (forall status tunnel filename,
              post_response net (length (wire w4)) again = PostOk status tunnel filename ->
              result = (Return (File.init status (sanitize url) filename tunnel),
                        mkWorld (self w4) (wire w4 ++ [again])))
        /\ (post_response net (length (wire w4)) again = PostConnectorError ->
            result = (Raise (BadInstance u'), mkWorld (self w4) (wire w4 ++ [again]))))
  /\ (forall urls instance canonical,
        probes_within net urls ->
        only_retryable_errors net ->
        viable net instance canonical ->
        canonical ∉ skipped_instances (self w) ->
        (size (urls ∖ list_to_set (skipped_instances (self w))) <= fuel)%nat ->
        exists file, fst result = Return file).
Proof.
  intros He json request Hp Hcode w3 result.
  assert (Hr : result = try_connector
                          (do_ get_instance net;
                           get net (S fuel) url (Some (normalize_quality quality))
                               download_mode filename_style audio_format codec) w3).
  { subst result. apply (get_rotates net (S fuel) url quality download_mode
                           filename_style audio_format codec w u w1 code He Hp).
    intros retry. now apply on_error_retryable. }
  split; [exact Hr|]. split; [|split; [|split; [|split]]].
  - rewrite Hr. now apply prefix_invariant.
  - apply extends_sent_since. apply get_posts.
  - intros e w4 Hg. rewrite Hr. unfold try_connector, bind. rewrite Hg.
    apply get_instance_spec in Hg as [_ Hg]. cbn zeta in Hg. rewrite Hg.
    destruct e; reflexivity.
  - intros u' w4 Hg Hw again. split; [|split].
    + assert (Hu : api_instance (self w4) = u').
      { apply get_instance_spec in Hg as [_ [_ [-> _]]]. reflexivity. }
      assert (He4 : ensure_instance net w4 = (Return u', w4)).
      { pose proof (ensure_instance_active net w4) as Ha. rewrite Hu in Ha.
        now apply Ha. }
      pose proof (get_first_post net fuel url (Some (normalize_quality quality))
                    download_mode filename_style audio_format codec w4 u' w4 He4) as Hin.
      rewrite normalize_quality_idempotent, Hu in Hin. fold json again in Hin.
      rewrite Hr, snd_try_connector. unfold bind. rewrite Hg.
      eapply sent_since_later; [|exact Hin].
      eapply extends_trans; [apply (ensure_instance_wire net w)|]. rewrite He. cbn [snd].
      eapply extends_trans; [|pose proof (get_instance_wire net w3) as Hx;
                               rewrite Hg in Hx; exact Hx].
      exists [request]. split; [reflexivity|]. now constructor.
    + intros st tn fn Hpost. rewrite Hr. now apply rotation_succeeds.
    + intros Hpost. rewrite Hr. now apply rotation_refused.
  - intros urls instance canonical Hprobes Hanswers Hviable Hc Hsize.
    apply (get_reaches_viable net urls instance canonical Hprobes Hanswers Hviable);
      [exact Hc|lia].
Qed.

(** C3, as stated, fails: a viable instance exists in the registry, and yet
    the call ends in an error, since the instance the selector ranks first
    refuses the resubmitted request. *)
Lemma C3_viable_instance_not_reached :
  let net := net_ranked "error.api.youtube.login" PostConnectorError in
  let result := get net 5 "https://youtu.be/x" None "auto" "pretty" None None
                    world_active in
  viable net instance_backup "https://backup.example/"
  /\ fst result = Raise (BadInstance "https://top.example/")
  /\ skipped_instances (self (snd result)) = ["https://cobalt.example/"]
  /\ map (fun r => (method r, target r)) (wire (snd result))
     = [(POST, "https://cobalt.example/"); (GET, registry_url);
        (GET, "https://top.example"); (POST, "https://top.example/")].
Proof.
  cbn zeta. split; [apply net_ranked_viable|].
  repeat split; vm_compute; reflexivity.
Qed.

(** C3, amended. On an error code whose third segment is youtube or fetch,
    [get] appends the active instance to [skipped_instances], calls
    [get_instance] and calls itself with the same arguments (the quality
    already normalised), so that every request of the call carries the same
    body and the instance newly selected receives it. What the caller gets
    is the outcome of these steps: the exception of [get_instance] if it
    raises one (a connection error as [BadInstance]), the file if the new
    instance resolves, [BadInstance] if it refuses the connection. The call
    does end in a file when some instance stays viable and extraction
    requests are answered by nothing but results and retryable errors,
    however many instances have to be skipped on the way. *)
Theorem C3_youtube_fetch_rotate (net : Network) (fuel : nat) (url : string)
    (quality : option string) (download_mode filename_style : string)
    (audio_format codec : option string) (w : World) (u : string) (w1 : World)
    (code category : string) :
  ensure_instance net w = (Return u, w1) ->
  let json := request_body url (normalize_quality quality) filename_style
                           audio_format codec in
  let request := mkRequest POST (api_instance (self w1)) (headers (self w)) (Some json) in
  post_response net (length (wire w1)) request = PostApiError code ->
  PyStr.index (PyStr.split PyStr.dot code) 2 = Some category ->
  category = "youtube" \/ category = "fetch" ->
  let w3 := mkWorld (skip_current (self w1)) (wire w1 ++ [request]) in
  let result := get net (S (S fuel)) url quality download_mode filename_style
                    audio_format codec w in
  result = try_connector
             (do_ get_instance net;
              get net (S fuel) url (Some (normalize_quality quality)) download_mode
                  filename_style audio_format codec) w3
  /\ (skipped_instances (self w1) ++ [api_instance (self w1)])
       `prefix_of` skipped_instances (self (snd result))
  /\ Forall (fun r => method r = POST -> payload r = Some json)
            (sent_since w (snd result))
  /\ (forall e w4,
        get_instance net w3 = (Raise e, w4) ->
        result = (Raise match e with
                        | ClientConnectorError => BadInstance (api_instance (self w1))
                        | _ => e
                        end, w4))
  /\ (forall u' w4,
        get_instance net w3 = (Return u', w4) ->
        wants_fetch u' = false ->
        let again := mkRequest POST u' (headers (self w4)) (Some json) in
        again ∈ sent_since w (snd result)
        /\ (forall status tunnel filename,
              post_response net (length (wire w4)) again = PostOk status tunnel filename ->
              result = (Return (File.init status (sanitize url) filename tunnel),
                        mkWorld (self w4) (wire w4 ++ [again])))
        /\ (post_response net (length (wire w4)) again = PostConnectorError ->
            result = (Raise (BadInstance u'), mkWorld (self w4) (wire w4 ++ [again]))))
  /\ (forall urls instance canonical,
        probes_within net urls ->
        only_retryable_errors net ->
        viable net instance canonical ->
        canonical ∉ skipped_instances (self w) ->
        (size (urls ∖ list_to_set (skipped_instances (self w))) <= fuel)%nat ->
        exists file, fst result = Return file).
Proof.
  intros He json request Hp Hc Hcat.
  apply (get_rotation net fuel url quality download_mode filename_style
           audio_format codec w u w1 code He Hp).
  unfold retryable. cbn zeta. rewrite Hc.
  destruct Hcat as [-> | ->]; [now left|right; now left].
Qed.

Lemma C3_youtube_fetch_rotate_witness :
  let net := net_ranked "error.api.youtube.login" (PostApiError "error.api.fetch.failed") in
  let result := get net 5 "https://youtu.be/a'b" (Some "4k") "auto" "pretty" None None
                    world_active in
  (exists file, fst result = Return file)
  /\ skipped_instances (self (snd result))
     = ["https://cobalt.example/"; "https://top.example/"]
  /\ api_instance (self (snd result)) = "https://backup.example/"
  /\ map (fun r => (target r, Body.videoQuality <$> payload r))
         (filter (fun r => method r = POST) (wire (snd result)))
     = [("https://cobalt.example/", Some "2160"); ("https://top.example/", Some "2160");
        ("https://backup.example/", Some "2160")].
Proof.
  cbn zeta. split.
  - destruct (C3_youtube_fetch_rotate
                (net_ranked "error.api.youtube.login" (PostApiError "error.api.fetch.failed"))
                3 "https://youtu.be/a'b" (Some "4k") "auto" "pretty" None None
                world_active "https://cobalt.example/" world_active
                "error.api.youtube.login" "youtube"
                eq_refl eq_refl eq_refl (or_introl eq_refl)) as [_ [_ [_ [_ [_ H]]]]].
    apply (H ranked_urls instance_backup "https://backup.example/").
    + apply net_ranked_probes.
    + apply net_ranked_answers; [now left|right; now left].
    + apply net_ranked_viable.
    + vm_compute. apply not_elem_of_nil.
    + vm_compute. lia.
  - repeat split; vm_compute; reflexivity.
Defined.

(** C4, as stated, fails: on a missing key the call raises to the caller
    when the registry has no other instance, and when the instance selected
    next refuses the connection. *)
Lemma C4_missing_key_raises :
  let lonely := get (net_single_answering "error.api.auth.key.missing") 5
                    "https://youtu.be/x" None "auto" "pretty" None None world_active in
  let refused := get (net_ranked "error.api.auth.key.not_found" PostConnectorError) 5
                     "https://youtu.be/x" None "auto" "pretty" None None world_active in
  (fst lonely = Raise IndexError
   /\ skipped_instances (self (snd lonely)) = ["https://cobalt.example/"]
   /\ map (fun r => (method r, target r)) (wire (snd lonely))
      = [(POST, "https://cobalt.example/"); (GET, registry_url);
         (GET, "https://cobalt.example")])
  /\ (fst refused = Raise (BadInstance "https://top.example/")
      /\ skipped_instances (self (snd refused)) = ["https://cobalt.example/"]).
Proof. cbn zeta. repeat split; vm_compute; reflexivity. Qed.

(** C4, amended. For an error code whose third segment is auth: when its
    last segment is missing or not_found, [get] appends the active instance
    to [skipped_instances], selects again and submits the same body again;
    what the caller gets is the outcome of these steps, as for the codes of
    C3: the exception of [get_instance] if it raises one, the file if the
    new instance resolves, and a file in the end when some instance stays
    viable and requests are answered by nothing but results and retryable
    errors. For any other last segment [get] raises [AuthError] at once,
    with [skipped_instances] and the active instance untouched and nothing
    resubmitted. *)
Theorem C4_auth_dispatch (net : Network) (fuel : nat) (url : string)
    (quality : option string) (download_mode filename_style : string)
    (audio_format codec : option string) (w : World) (u : string) (w1 : World)
    (code : string) :
  ensure_instance net w = (Return u, w1) ->
  let json := request_body url (normalize_quality quality) filename_style
                           audio_format codec in
  let request := mkRequest POST (api_instance (self w1)) (headers (self w)) (Some json) in
  post_response net (length (wire w1)) request = PostApiError code ->
  PyStr.index (PyStr.split PyStr.dot code) 2 = Some "auth" ->
  let last := PyStr.last_item (PyStr.split PyStr.dot code) in
  let w3 := mkWorld (skip_current (self w1)) (wire w1 ++ [request]) in
  let result := get net (S (S fuel)) url quality download_mode filename_style
                    audio_format codec w in
  (last = Some "missing" \/ last = Some "not_found" ->
   result = try_connector
              (do_ get_instance net;
               get net (S fuel) url (Some (normalize_quality quality)) download_mode
                   filename_style audio_format codec) w3
   /\ (skipped_instances (self w1) ++ [api_instance (self w1)])
        `prefix_of` skipped_instances (self (snd result))
   /\ Forall (fun r => method r = POST -> payload r = Some json)
             (sent_since w (snd result))
   /\ (forall e w4,
         get_instance net w3 = (Raise e, w4) ->
         result = (Raise match e with
                         | ClientConnectorError => BadInstance (api_instance (self w1))
                         | _ => e
                         end, w4))
   /\ (forall u' w4,
         get_instance net w3 = (Return u', w4) ->
         wants_fetch u' = false ->
         let again := mkRequest POST u' (headers (self w4)) (Some json) in
         again ∈ sent_since w (snd result)
         /\ (forall status tunnel filename,
               post_response net (length (wire w4)) again = PostOk status tunnel filename ->
               result = (Return (File.init status (sanitize url) filename tunnel),
                         mkWorld (self w4) (wire w4 ++ [again])))
         /\ (post_response net (length (wire w4)) again = PostConnectorError ->
             result = (Raise (BadInstance u'), mkWorld (self w4) (wire w4 ++ [again]))))
   /\ (forall urls instance canonical,
         probes_within net urls ->
         only_retryable_errors net ->
         viable net instance canonical ->
         canonical ∉ skipped_instances (self w) ->
         (size (urls ∖ list_to_set (skipped_instances (self w))) <= fuel)%nat ->
         exists file, fst result = Return file))
  /\ (last <> Some "missing" -> last <> Some "not_found" ->
      result = (Raise (AuthError code), mkWorld (self w1) (wire w1 ++ [request]))
      /\ skipped_instances (self w1) = skipped_instances (self w)).
Proof.
  intros He json request Hp Hc last w3 result. split.
  - intros Hlast.
    apply (get_rotation net fuel url quality download_mode filename_style
             audio_format codec w u w1 code He Hp).
    unfold retryable. cbn zeta. right. right. now split.
  - intros Hm Hn. split.
    + apply (get_terminal net (S fuel) url quality download_mode filename_style
               audio_format codec w u w1 code (AuthError code) He Hp);
        [|discriminate].
      intros retry. rewrite (on_error_auth retry url code Hc). cbn zeta.
      rewrite decide_False; [reflexivity|]. intros [?|?]; contradiction.
    + now apply (ensure_instance_skipped net w (Return u) w1).
Qed.

Lemma C4_auth_dispatch_witness :
  let net := net_ranked "error.api.auth.key.not_found"
                        (PostApiError "error.api.auth.jwt.missing") in
  let result := get net 5 "https://youtu.be/x" None "auto" "pretty" (Some "mp3") None
                    world_active in
  let denied := get (net_answering "error.api.auth.key.invalid") 5 "https://youtu.be/x"
                    None "auto" "pretty" (Some "mp3") None world_active in
  ((exists file, fst result = Return file)
   /\ skipped_instances (self (snd result))
      = ["https://cobalt.example/"; "https://top.example/"]
   /\ api_instance (self (snd result)) = "https://backup.example/")
  /\ (fst denied = Raise (AuthError "error.api.auth.key.invalid")
      /\ skipped_instances (self (snd denied)) = []
      /\ api_instance (self (snd denied)) = "https://cobalt.example/"
      /\ length (wire (snd denied)) = 1%nat).
Proof.
  cbn zeta. split.
  - split; [|split; vm_compute; reflexivity].
    destruct (C4_auth_dispatch
                (net_ranked "error.api.auth.key.not_found"
                   (PostApiError "error.api.auth.jwt.missing"))
                3 "https://youtu.be/x" None "auto" "pretty" (Some "mp3") None
                world_active "https://cobalt.example/" world_active
                "error.api.auth.key.not_found" eq_refl eq_refl eq_refl) as [H _].
    destruct (H (or_intror eq_refl)) as [_ [_ [_ [_ [_ Hv]]]]].
    apply (Hv ranked_urls instance_backup "https://backup.example/").
    + apply net_ranked_probes.
    + apply net_ranked_answers; right; right; (split; [reflexivity|]);
        [now right|now left].
    + apply net_ranked_viable.
    + vm_compute. apply not_elem_of_nil.
    + vm_compute. lia.
  - destruct (C4_auth_dispatch (net_answering "error.api.auth.key.invalid") 3
                "https://youtu.be/x" None "auto" "pretty"
                (Some "mp3") None world_active "https://cobalt.example/" world_active
                "error.api.auth.key.invalid" eq_refl eq_refl eq_refl) as [_ H].
    destruct (H ltac:(discriminate) ltac:(discriminate)) as [-> _].
    vm_compute. repeat split; reflexivity.
Defined.

(** C7. The [url] of every request body a call of [get] submits, retries
    included, and the [url] of the [File] it returns are both the input URL
    with every single quote, double quote and backslash removed, so the two
    agree. Such a request is submitted once an instance is active; the
    [File] is returned when that request is resolved, and also, after as
    many retries as it takes, when some instance stays viable and requests
    are answered by nothing but results and retryable errors. *)
Theorem C7_url_sanitized (net : Network) (fuel : nat) (url : string)
    (quality : option string) (download_mode filename_style : string)
    (audio_format codec : option string) (w : World) :
  let result := get net fuel url quality download_mode filename_style
                    audio_format codec w in
  let answered := get net (S fuel) url quality download_mode filename_style
                      audio_format codec w in
  sanitize url = without_quotes url
  /\ Forall (fun r => method r = POST ->
                      Body.url <$> payload r = Some (without_quotes url))
            (sent_since w (snd result))
  /\ (forall file, fst result = Return file -> File.url file = without_quotes url)
  /\ (forall file r, fst result = Return file -> r ∈ sent_since w (snd result) ->
                     method r = POST -> Body.url <$> payload r = Some (File.url file))
  /\ (forall u w1,
        ensure_instance net w = (Return u, w1) ->
        exists r, r ∈ sent_since w (snd answered)
                  /\ method r = POST
                  /\ target r = api_instance (self w1)
                  /\ Body.url <$> payload r = Some (without_quotes url))
  /\ (forall u w1 status tunnel filename,
        ensure_instance net w = (Return u, w1) ->
        post_response net (length (wire w1))
          (mkRequest POST (api_instance (self w1)) (headers (self w))
             (Some (request_body url (normalize_quality quality) filename_style
                      audio_format codec)))
        = PostOk status tunnel filename ->
        exists file, fst answered = Return file
                     /\ File.url file = without_quotes url
                     /\ File.tunnel file = tunnel)
  /\ (forall urls instance canonical,
        probes_within net urls ->
        only_retryable_errors net ->
        viable net instance canonical ->
        canonical ∉ skipped_instances (self w) ->
        (size (urls ∖ list_to_set (skipped_instances (self w))) + 2 <= fuel)%nat ->
        exists file, fst result = Return file /\ File.url file = without_quotes url).
Proof.
  cbn zeta.
  assert (Hposts : forall n,
             Forall (fun r => method r = POST ->
                              Body.url <$> payload r = Some (without_quotes url))
               (sent_since w (snd (get net n url quality download_mode
                                       filename_style audio_format codec w)))).
  { intros n. apply extends_sent_since.
    eapply extends_mono; [|apply get_posts]. cbn beta.
    intros r Hr Hm. rewrite (Hr Hm), <- sanitize_without_quotes. reflexivity. }
  assert (Hfile : forall n file,
             fst (get net n url quality download_mode filename_style
                      audio_format codec w) = Return file ->
             File.url file = without_quotes url).
  { intros n file H. apply get_return in H as [st [tn [fn ->]]].
    cbn [File.init File.url]. apply sanitize_without_quotes. }
  split; [apply sanitize_without_quotes|].
  split; [apply Hposts|]. split; [apply Hfile|]. split; [|split; [|split]].
  - intros file r Hf Hr Hm. rewrite (Hfile fuel file Hf).
    pose proof (Hposts fuel) as Hall. rewrite Forall_forall in Hall. now apply Hall.
  - intros u w1 He. eexists.
    split; [exact (get_first_post _ _ _ _ _ _ _ _ _ _ _ He)|].
    cbn [method target payload]. repeat split.
    unfold request_body. cbn [fmap option_fmap option_map Body.url].
    now rewrite sanitize_without_quotes.
  - intros u w1 st tn fn He Hp.
    rewrite (get_attempt net fuel url quality download_mode filename_style
               audio_format codec w u w1 He). cbn zeta. rewrite Hp.
    eexists. split; [reflexivity|]. cbn [File.init File.url File.tunnel].
    split; [apply sanitize_without_quotes|reflexivity].
  - intros urls instance canonical Hprobes Hanswers Hviable Hc Hsize.
    destruct (get_reaches_viable net urls instance canonical Hprobes Hanswers Hviable
                fuel url quality download_mode filename_style audio_format codec w
                Hc Hsize) as [file Hf].
    exists file. split; [exact Hf|]. now apply (Hfile fuel).
Qed.

Lemma C7_url_sanitized_witness :
  let net := net_ranked "error.api.fetch.failed" (PostApiError "error.api.youtube.login") in
  let url := ("https://youtu.be/a'b" ++ String PyStr.dquote "c\d")%string in
  let result := get net 5 url None "auto" "pretty" None None world_active in
  (exists file, fst result = Return file /\ File.url file = "https://youtu.be/abcd")
  /\ map (fun r => Body.url <$> payload r)
         (filter (fun r => method r = POST) (wire (snd result)))
     = [Some "https://youtu.be/abcd"; Some "https://youtu.be/abcd";
        Some "https://youtu.be/abcd"].
Proof.
  cbn zeta. split; [|vm_compute; reflexivity].
  destruct (C7_url_sanitized
              (net_ranked "error.api.fetch.failed" (PostApiError "error.api.youtube.login"))
              5 ("https://youtu.be/a'b" ++ String PyStr.dquote "c\d")%string
              None "auto" "pretty" None None world_active)
    as [_ [_ [_ [_ [_ [_ H]]]]]].
  destruct (H ranked_urls instance_backup "https://backup.example/") as [file [Hf Hu]].
  - apply net_ranked_probes.
  - apply net_ranked_answers; [right; now left|now left].
  - apply net_ranked_viable.
  - vm_compute. apply not_elem_of_nil.
  - vm_compute. lia.
  - exists file. split; [exact Hf|]. rewrite Hu. vm_compute. reflexivity.
Defined.

(** ** Sessions *)

Section Sessions.

Variable net : Network.
Variable I : Cobalt -> Prop.
Variable P : Request -> Prop.

Hypothesis I_header :
  forall c, I c -> I (set_header "User-Agent" pybalt_user_agent c).
Hypothesis I_select :
  forall c u, I c -> u ∉ skipped_instances c -> I (set_api_instance u c).
Hypothesis I_skip : forall c, I c -> I (skip_current c).
Hypothesis P_selector :
  forall c r,
    I c ->
    selector_request (headers (set_header "User-Agent" pybalt_user_agent c)) r ->
    P r.
Hypothesis P_post :
  forall c0 c json, I c0 -> I c ->
    P (mkRequest POST (api_instance c) (headers c0) (Some json)).
Hypothesis P_download :
  forall c tunnel, I c -> P (mkRequest GET tunnel (headers c) None).

Lemma after_invariant (c : Call) (w : World) :
  I (self w) -> I (self (after net c w)) /\ extends P w (after net c w).
Proof.
  intros Hi. destruct c as [fuel url quality dm fs af codec| |tunnel]; cbn [after].
  - apply (get_invariant net I P url fs af codec (normalize_quality quality)); auto.
  - now apply get_instance_invariant.
  - apply download_request_invariant; auto.
Qed.

Lemma run_invariant (calls : list Call) :
  forall w, I (self w) -> I (self (run net calls w)) /\ extends P w (run net calls w).
Proof.
  induction calls as [|c calls IH]; intros w Hi; cbn [run fold_left].
  - split; [exact Hi|apply extends_refl].
  - destruct (after_invariant c w Hi) as [Hi1 He1].
    destruct (IH _ Hi1) as [Hi2 He2]. split; [exact Hi2|].
    eapply extends_trans; eauto.
Qed.

End Sessions.

(** C2. Over any sequence of calls of a session, [skipped_instances] only
    grows; an URL in it that is not the active instance does not become
    the active instance and receives no further extraction request, however
    the registry ranks it; and whenever the selector commits an instance,
    its probe-reported canonical URL is outside [skipped_instances], which
    the selector leaves as it is. *)
Theorem C2_skipped_never_selected (net : Network) (calls : list Call) (w : World)
    (u : string) :
  let w' := run net calls w in
  skipped_instances (self w) `prefix_of` skipped_instances (self w')
  /\ (u ∈ skipped_instances (self w) -> api_instance (self w) <> u ->
      u ∈ skipped_instances (self w')
      /\ api_instance (self w') <> u
      /\ Forall (fun r => method r = POST -> target r <> u) (sent_since w w'))
  /\ (forall r w'',
        get_instance net w' = (r, w'') ->
        skipped_instances (self w'') = skipped_instances (self w')
        /\ match r with
           | Return v =>
               api_instance (self w'') = v
               /\ (v ∉ skipped_instances (self w'))
               /\ exists instance now,
                    probe_response net now
                      (mkRequest GET (probe_url instance) (headers (self w'')) None)
                    = ProbeOk v
           | _ => api_instance (self w'') = api_instance (self w')
           end).
Proof.
  cbn zeta. split; [|split].
  - apply (run_invariant net
             (fun c => skipped_instances (self w) `prefix_of` skipped_instances c)
             (fun _ => True)); auto.
    intros c Hc. cbn. now apply prefix_app_r.
  - intros Hu Ha.
    set (Iu := fun c => u ∈ skipped_instances c /\ api_instance c <> u).
    set (Pu := fun r => method r = POST -> target r <> u).
    assert (H1 : forall c, Iu c -> Iu (set_header "User-Agent" pybalt_user_agent c))
      by (intros c Hc; exact Hc).
    assert (H2 : forall c v, Iu c -> v ∉ skipped_instances c -> Iu (set_api_instance v c)).
    { intros c v [Hc1 Hc2] Hv. split; [exact Hc1|]. cbn. congruence. }
    assert (H3 : forall c, Iu c -> Iu (skip_current c)).
    { intros c [Hc1 Hc2]. split; [|exact Hc2]. cbn. apply elem_of_app. now left. }
    assert (H4 : forall c r, Iu c ->
                   selector_request
                     (headers (set_header "User-Agent" pybalt_user_agent c)) r -> Pu r).
    { intros c r _ [Hm _] Hp. congruence. }
    assert (H5 : forall c0 c json, Iu c0 -> Iu c ->
                   Pu (mkRequest POST (api_instance c) (headers c0) (Some json))).
    { intros c0 c json _ [_ Hc] _. exact Hc. }
    assert (H6 : forall c tunnel, Iu c -> Pu (mkRequest GET tunnel (headers c) None)).
    { intros c tunnel _ Hm. discriminate. }
    destruct (run_invariant net Iu Pu H1 H2 H3 H4 H5 H6 calls w (conj Hu Ha))
      as [[Hs Hn] He].
    repeat split; auto. now apply extends_sent_since.
  - intros r w'' Hg. apply get_instance_spec in Hg as [_ Hg]. cbn zeta in Hg.
    destruct r as [v|e|]; [|now rewrite Hg|contradiction].
    destruct Hg as [Hn [-> [instances [good [i [now [_ [_ Hp]]]]]]]].
    cbn. repeat split; eauto.
Qed.

Lemma C2_skipped_never_selected_witness :
  let net := net_answering "error.api.fetch.failed" in
  let session :=
    [CallGet 3 "https://youtu.be/x" None "auto" "pretty" None None] in
  let w0 := snd (get net 1 "https://youtu.be/x" None "auto" "pretty" None None
                     world_active) in
  let w' := run net session w0 in
  skipped_instances (self w0) = ["https://cobalt.example/"]
  /\ score instance_backup < score instance_good
  /\ api_instance (self w') = "https://backup.example/"
  /\ "https://cobalt.example/" ∈ skipped_instances (self w')
  /\ api_instance (self w') <> "https://cobalt.example/"
  /\ Forall (fun r => method r = POST -> target r <> "https://cobalt.example/")
            (sent_since w0 w').
Proof.
  cbn zeta.
  pose (net := net_answering "error.api.fetch.failed").
  pose (w0 := snd (get net 1 "https://youtu.be/x" None "auto" "pretty" None None
                       world_active)).
  destruct (C2_skipped_never_selected net
              [CallGet 3 "https://youtu.be/x" None "auto" "pretty" None None]
              w0 "https://cobalt.example/") as [_ [H _]].
  destruct H as [H1 [H2 H3]].
  - vm_compute. now left.
  - vm_compute. discriminate.
  - repeat split; try assumption; vm_compute; reflexivity.
Defined.

(** ** The User-Agent header *)

Example init_fetch :
  init (fun _ => None) (Some "fetch") None None = Some client_fetch.
Proof. vm_compute. reflexivity. Qed.

Example init_default :
  init (fun _ => None) None None None
  = Some (mkCobalt default_instance default_api_key
            (<["Authorization" := ("Api-Key " ++ default_api_key)%string]> plain_headers) []).
Proof. vm_compute. reflexivity. Qed.

Example init_user_agent_from_environment :
  headers <$> init (fun name => if String.eqb name "COBALT_USER_AGENT"
                                then Some "my-agent" else None)
                   (Some "http://cobalt.example") (Some "k") None
  = Some (<["Authorization" := "Api-Key k"]>
            (<["User-Agent" := "my-agent"]> plain_headers)).
Proof. vm_compute. reflexivity. Qed.

(** C9, as stated, fails: in the call of [get] that selects the instance of
    a freshly built client, the POST that follows the selection goes through
    the session opened before it and carries the User-Agent set at
    construction. *)
Lemma C9_post_after_selection_keeps_user_agent :
  let w' := snd (get (net_answering "error.api.link.invalid") 1 "https://youtu.be/x"
                     None "auto" "pretty" None None (mkWorld client_fetch [])) in
  api_instance (self w') = "https://cobalt.example/"
  /\ headers (self w') !! "User-Agent" = Some pybalt_user_agent
  /\ map (fun r => (method r, target r, sent_headers r !! "User-Agent")) (wire w')
     = [(GET, registry_url, Some pybalt_user_agent);
        (GET, "https://cobalt.example", Some pybalt_user_agent);
        (POST, "https://cobalt.example/", Some "pybalt/python")]
  /\ ~ Forall carries_pybalt_user_agent (drop 2 (wire w')).
Proof.
  cbn zeta. repeat split; try (vm_compute; reflexivity).
  intros H. apply Forall_inv in H. vm_compute in H. discriminate H.
Qed.

(** C9, amended. Every call of [get_instance], whatever its outcome, sets
    the User-Agent of the shared [headers] to the fixed pybalt string and
    sends its own requests with it; a successful one changes nothing of the
    client but that entry and [api_instance]; and every request of every
    later call of [get], [get_instance] or [download] carries the fixed
    string. *)
Theorem C9_user_agent_overwritten (net : Network) (w : World) (r : outcome string)
    (w1 : World) (calls : list Call) :
  get_instance net w = (r, w1) ->
  headers (self w1) = <["User-Agent" := pybalt_user_agent]> (headers (self w))
  /\ api_key (self w1) = api_key (self w)
  /\ skipped_instances (self w1) = skipped_instances (self w)
  /\ (forall u, r = Return u ->
                self w1 = set_api_instance u
                            (set_header "User-Agent" pybalt_user_agent (self w)))
  /\ Forall carries_pybalt_user_agent (sent_since w w1)
  /\ Forall carries_pybalt_user_agent (sent_since w1 (run net calls w1)).
Proof.
  intros Hg. apply get_instance_spec in Hg as [Hext Hr]. cbn zeta in Hr.
  assert (Hself : self w1 = set_header "User-Agent" pybalt_user_agent (self w)
                  \/ exists u, r = Return u
                               /\ self w1 = set_api_instance u
                                    (set_header "User-Agent" pybalt_user_agent (self w))).
  { destruct r as [u|e|]; [right|now left|contradiction].
    exists u. split; [reflexivity|]. apply Hr. }
  assert (Hh : headers (self w1)
               = <["User-Agent" := pybalt_user_agent]> (headers (self w))).
  { destruct Hself as [->|[u [_ ->]]]; reflexivity. }
  split; [exact Hh|]. split; [|split; [|split; [|split]]].
  - destruct Hself as [->|[u [_ ->]]]; reflexivity.
  - destruct Hself as [->|[u [_ ->]]]; reflexivity.
  - intros u ->. apply Hr.
  - apply extends_sent_since. eapply extends_mono; [|exact Hext].
    intros q [_ [Hq _]]. unfold carries_pybalt_user_agent. rewrite Hq. cbn.
    apply lookup_insert_eq.
  - apply extends_sent_since.
    apply (run_invariant net
             (fun c => headers c !! "User-Agent" = Some pybalt_user_agent)
             carries_pybalt_user_agent).
    + intros c _. cbn. apply lookup_insert_eq.
    + intros c u Hc _. exact Hc.
    + intros c Hc. exact Hc.
    + intros c q _ [_ [Hq _]]. unfold carries_pybalt_user_agent. rewrite Hq. cbn.
      apply lookup_insert_eq.
    + intros c0 c json Hc0 _. exact Hc0.
    + intros c tunnel Hc. exact Hc.
    + rewrite Hh. apply lookup_insert_eq.
Qed.

Lemma C9_user_agent_overwritten_witness :
  let net := net_answering "error.api.fetch.failed" in
  let w := mkWorld client_fetch [] in
  let w1 := snd (get_instance net w) in
  let later := run net [CallGet 3 "https://youtu.be/x" None "auto" "pretty" None None;
                        CallDownload "https://backup.example/tunnel?id=1"] w1 in
  self w1 = mkCobalt "https://cobalt.example/" ""
              (<["User-Agent" := pybalt_user_agent]> plain_headers) []
  /\ map (fun r => (method r, sent_headers r !! "User-Agent")) (sent_since w1 later)
     = [(POST, Some pybalt_user_agent); (GET, Some pybalt_user_agent);
        (GET, Some pybalt_user_agent); (GET, Some pybalt_user_agent);
        (POST, Some pybalt_user_agent); (GET, Some pybalt_user_agent)]
  /\ Forall carries_pybalt_user_agent (sent_since w1 later).
Proof.
  cbn zeta.
  pose (net := net_answering "error.api.fetch.failed").
  pose (w := mkWorld client_fetch []).
  destruct (C9_user_agent_overwritten net w (fst (get_instance net w))
              (snd (get_instance net w))
              [CallGet 3 "https://youtu.be/x" None "auto" "pretty" None None;
               CallDownload "https://backup.example/tunnel?id=1"]
              ltac:(vm_compute; reflexivity)) as [_ [_ [_ [_ [_ H]]]]].
  split; [vm_compute; reflexivity|]. split; [vm_compute; reflexivity|exact H].
Defined.

(** ** Exhausted candidates *)

(** C1. With one good instance in the registry and the extraction request
    against it answered by error.api.fetch.failed, the instance enters
    [skipped_instances], the selection loop ends, and what reaches the
    caller is [IndexError]: no exception of [pybalt.exceptions] is raised
    for the exhausted candidate list. *)
Theorem C1_exhaustion_raises_index_error :
  let result := get net_single 5 "https://youtu.be/x" None "auto" "pretty" None None
                    (mkWorld client_fetch []) in
  fst result = Raise IndexError
  /\ skipped_instances (self (snd result)) = ["https://cobalt.example/"]
  /\ api_instance (self (snd result)) = "https://cobalt.example/"
  /\ map (fun r => (method r, target r)) (wire (snd result))
     = [(GET, registry_url); (GET, "https://cobalt.example");
        (POST, "https://cobalt.example/");
        (GET, registry_url); (GET, "https://cobalt.example")].
Proof. cbn zeta. repeat split; vm_compute; reflexivity. Qed.

(** The selection loop always ends, and on an exhausted candidate list it
    ends with [IndexError] whatever the registry and the probes are. *)
Lemma selection_terminates (net : Network) (w : World) :
  fst (get_instance net w) <> OutOfFuel.
Proof.
  destruct (get_instance net w) as [r w'] eqn:E.
  apply get_instance_spec in E as [_ E]. cbn zeta in E.
  destruct r; [discriminate|discriminate|contradiction].
Qed.

(** * Further properties *)

(** ** Ranking and probing *)

Lemma insert_by_score_descending (x : Instance) (l : list Instance) :
  descending l -> descending (insert_by_score x l).
Proof.
  unfold descending. induction 1 as [|y l Hl IH Hy]; cbn [insert_by_score].
  - repeat constructor.
  - destruct (score y <=? score x) eqn:E.
    + apply Z.leb_le in E. constructor; [now constructor|].
      constructor; [exact E|]. eapply Forall_impl; [exact Hy|]. cbn. lia.
    + apply Z.leb_gt in E. constructor; [exact IH|].
      rewrite insert_by_score_perm. constructor; [lia|exact Hy].
Qed.

Lemma sort_by_score_descending (l : list Instance) : descending (sort_by_score l).
Proof.
  induction l as [|x l IH]; [constructor|].
  cbn [sort_by_score fold_right]. now apply insert_by_score_descending.
Qed.

Lemma sort_by_score_sorted (l : list Instance) :
  descending l -> sort_by_score l = l.
Proof.
  unfold descending. induction 1 as [|x l Hl IH Hx]; [reflexivity|].
  cbn [sort_by_score fold_right]. fold (sort_by_score l). rewrite IH.
  destruct l as [|y l]; [reflexivity|]. cbn [insert_by_score].
  apply Forall_cons in Hx as [Hy _]. apply Z.leb_le in Hy. now rewrite Hy.
Qed.

(** Equal scores keep the order of the registry. *)
Lemma insert_by_score_stable (s : Z) (x : Instance) (l : list Instance) :
  descending l ->
  filter (fun i => score i = s) (insert_by_score x l)
  = filter (fun i => score i = s) (x :: l).
Proof.
  unfold descending. induction 1 as [|y l Hl IH Hy]; [reflexivity|].
  cbn [insert_by_score]. destruct (score y <=? score x) eqn:E; [reflexivity|].
  apply Z.leb_gt in E. rewrite filter_cons, IH, !filter_cons.
  repeat case_decide; try reflexivity; lia.
Qed.

Lemma sort_by_score_stable (s : Z) (l : list Instance) :
  filter (fun i => score i = s) (sort_by_score l) = filter (fun i => score i = s) l.
Proof.
  induction l as [|x l IH]; [reflexivity|].
  cbn [sort_by_score fold_right]. fold (sort_by_score l).
  rewrite insert_by_score_stable by apply sort_by_score_descending.
  now rewrite !filter_cons, IH.
Qed.

Lemma select_loop_in_order (net : Network) (fuel : nat) (cs : gmap string string) :
  forall (l : list Instance) (w : World),
    descending l ->
    (length l < fuel)%nat ->
    select_loop net fuel cs l w
    = let '(found, sent) :=
        probe_in_order net cs (skipped_instances (self w)) (length (wire w)) l in
      match found with
      | Some u => (Return tt, mkWorld (set_api_instance u (self w)) (wire w ++ sent))
      | None => (Raise IndexError, mkWorld (self w) (wire w ++ sent))
      end.
Proof.
  induction fuel as [|fuel IH]; intros l w Hs Hlen; [lia|].
  cbn [select_loop]. rewrite (sort_by_score_sorted l Hs).
  destruct l as [|first rest]; cbn [probe_in_order].
  { unfold raise. destruct w. cbn. now rewrite app_nil_r. }
  assert (Hrest : descending rest) by (now inversion Hs).
  cbn [length] in Hlen.
  unfold bind, send, read. cbn [self wire].
  destruct (probe_response net (length (wire w)) _) as [canonical|].
  - case_bool_decide as Hskip.
    + rewrite (bool_decide_eq_true_2 _ Hskip).
      rewrite IH by (auto; lia). cbn [self wire]. rewrite length_app. cbn [length].
      replace (length (wire w) + 1)%nat with (S (length (wire w))) by lia.
      destruct (probe_in_order net cs _ _ rest) as [[u|] sent];
        now rewrite <- app_assoc.
    + now rewrite (bool_decide_eq_false_2 _ Hskip).
  - rewrite IH by (auto; lia). cbn [self wire]. rewrite length_app. cbn [length].
    replace (length (wire w) + 1)%nat with (S (length (wire w))) by lia.
    destruct (probe_in_order net cs _ _ rest) as [[u|] sent];
      now rewrite <- app_assoc.
Qed.

Lemma select_loop_sorts_first (net : Network) (fuel : nat) (cs : gmap string string)
    (l : list Instance) (w : World) :
  select_loop net fuel cs l w = select_loop net fuel cs (sort_by_score l) w.
Proof.
  destruct fuel as [|fuel]; [reflexivity|]. cbn [select_loop].
  now rewrite (sort_by_score_sorted (sort_by_score l))
    by apply sort_by_score_descending.
Qed.

Lemma probe_in_order_length (net : Network) (cs : gmap string string)
    (skipped : list string) (l : list Instance) :
  forall now, (length (snd (probe_in_order net cs skipped now l)) <= length l)%nat.
Proof.
  induction l as [|i l IH]; intros now; cbn [probe_in_order]; [cbn; lia|].
  specialize (IH (S now)).
  destruct (probe_response net now _) as [canonical|].
  - case_bool_decide; [|cbn; lia].
    destruct (probe_in_order net cs skipped (S now) l) as [found sent].
    cbn in IH |- *. lia.
  - destruct (probe_in_order net cs skipped (S now) l) as [found sent].
    cbn in IH |- *. lia.
Qed.

Lemma filter_instances_length (instances : list Instance) :
  forall good good',
    filter_instances instances good = Some good' ->
    (length good' <= length good + length instances)%nat.
Proof.
  induction instances as [|i rest IH]; intros good good' H; cbn [filter_instances] in H.
  - injection H as <-. cbn. lia.
  - destruct (version_major i) as [major|]; [|discriminate].
    destruct ((major <? 10) || negb (trust i =? 1))%bool;
      [apply IH in H; cbn; lia|].
    destruct (7 <? dead_services i)%nat; apply IH in H;
      rewrite ?length_app in H; cbn in H |- *; lia.
Qed.

Lemma probe_in_order_prefix (net : Network) (cs : gmap string string)
    (skipped : list string) (l : list Instance) :
  forall now,
    exists k, (k <= length l)%nat
              /\ snd (probe_in_order net cs skipped now l)
                 = map (fun i => mkRequest GET (probe_url i) cs None) (take k l).
Proof.
  induction l as [|i l IH]; intros now; cbn [probe_in_order].
  { exists O. now split. }
  destruct (IH (S now)) as [k [Hk Hs]].
  assert (Hnext : exists k0, (k0 <= length (i :: l))%nat
                    /\ mkRequest GET (probe_url i) cs None
                       :: snd (probe_in_order net cs skipped (S now) l)
                       = map (fun i => mkRequest GET (probe_url i) cs None)
                           (take k0 (i :: l))).
  { exists (S k). cbn [length take map]. rewrite Hs. split; [lia|reflexivity]. }
  destruct (probe_response net now _) as [canonical|].
  - case_bool_decide.
    + destruct (probe_in_order net cs skipped (S now) l) as [found sent]. exact Hnext.
    + exists 1%nat. cbn [length take map snd]. rewrite take_0. split; [lia|reflexivity].
  - destruct (probe_in_order net cs skipped (S now) l) as [found sent]. exact Hnext.
Qed.

(** One call of [get_instance] on a registry list that passes the filter. *)
Lemma get_instance_ranked (net : Network) (w : World)
    (instances good : list Instance) :
  registry_response net (length (wire w)) (registry_request (self w))
  = RegistryOk instances ->
  filter_instances instances [] = Some good ->
  let c := set_header "User-Agent" pybalt_user_agent (self w) in
  let ranked := sort_by_score good in
  let found := fst (probe_in_order net (headers c) (skipped_instances (self w))
                      (S (length (wire w))) ranked) in
  let sent := snd (probe_in_order net (headers c) (skipped_instances (self w))
                     (S (length (wire w))) ranked) in
  get_instance net w
  = (match found with Some u => Return u | None => Raise IndexError end,
     mkWorld (match found with Some u => set_api_instance u c | None => c end)
       (wire w ++ registry_request (self w) :: sent)).
Proof.
  intros Hreg Hf c ranked found sent.
  unfold get_instance, bind, modify, read, send. cbn [self wire].
  fold c. change (mkRequest GET registry_url (headers c) None)
    with (registry_request (self w)).
  rewrite Hreg, Hf. rewrite select_loop_sorts_first. fold ranked.
  rewrite select_loop_in_order
    by (try apply sort_by_score_descending; unfold ranked;
        rewrite sort_by_score_length; lia).
  cbn [self wire]. rewrite length_app. cbn [length].
  replace (length (wire w) + 1)%nat with (S (length (wire w))) by lia.
  subst found sent.
  change (skipped_instances c) with (skipped_instances (self w)).
  destruct (probe_in_order net (headers c) (skipped_instances (self w))
              (S (length (wire w))) ranked) as [[u|] reqs];
    cbn [fst snd self wire api_instance set_api_instance]; now rewrite <- app_assoc.
Qed.

(** A call of [get_instance] that stops at the registry. *)
Lemma get_instance_stops (net : Network) (w : World) :
  match registry_response net (length (wire w)) (registry_request (self w)) with
  | RegistryOk instances => filter_instances instances [] = None
  | _ => True
  end ->
  get_instance net w
  = (Raise match registry_response net (length (wire w)) (registry_request (self w)) with
           | RegistryOk _ => ValueError
           | RegistryConnectorError => ClientConnectorError
           | RegistryFailed => OtherError
           end,
     mkWorld (set_header "User-Agent" pybalt_user_agent (self w))
       (wire w ++ [registry_request (self w)])).
Proof.
  intros H. unfold get_instance, bind, modify, read, send. cbn [self wire].
  change (mkRequest GET registry_url _ None) with (registry_request (self w)).
  destruct (registry_response net (length (wire w)) (registry_request (self w)))
    as [instances| |]; [now rewrite H|reflexivity|reflexivity].
Qed.

(** X1. [get_instance] keeps the registry entries that pass the filter in
    the order of the registry, probes them once each in descending order of
    score, entries of equal score in the order of the registry, and commits
    the first whose probe answers with a canonical URL outside
    [skipped_instances]; with none accepted it raises [IndexError]. *)
Theorem selector_probes_by_rank (net : Network) (w : World)
    (instances good : list Instance) :
  registry_response net (length (wire w)) (registry_request (self w))
  = RegistryOk instances ->
  filter_instances instances [] = Some good ->
  let c := set_header "User-Agent" pybalt_user_agent (self w) in
  let ranked := sort_by_score good in
  let found := fst (probe_in_order net (headers c) (skipped_instances (self w))
                      (S (length (wire w))) ranked) in
  let sent := snd (probe_in_order net (headers c) (skipped_instances (self w))
                     (S (length (wire w))) ranked) in
  get_instance net w
  = (match found with Some u => Return u | None => Raise IndexError end,
     mkWorld (match found with Some u => set_api_instance u c | None => c end)
       (wire w ++ registry_request (self w) :: sent))
  /\ good = filter (fun instance => passes instance = true) instances
  /\ descending ranked
  /\ ranked ≡ₚ good
  /\ (forall s, filter (fun i => score i = s) ranked
                = filter (fun i => score i = s /\ passes i = true) instances).
Proof.
  intros Hreg Hf c ranked found sent.
  assert (Hgood : good = filter (fun instance => passes instance = true) instances)
    by (now rewrite (filter_instances_passes _ _ _ Hf)).
  split; [now apply (get_instance_ranked net w instances good)|].
  split; [exact Hgood|].
  split; [apply sort_by_score_descending|].
  split; [apply sort_by_score_perm|].
  intros s. unfold ranked. rewrite sort_by_score_stable, Hgood.
  apply list_filter_filter.
Qed.

Lemma selector_probes_by_rank_witness :
  get_instance (net_listing [instance_backup; instance_good; instance_old; instance_tie])
    world_active
  = (Return "https://tie.example/",
     mkWorld (set_api_instance "https://tie.example/"
                (set_header "User-Agent" pybalt_user_agent (self world_active)))
       [registry_request (self world_active);
        mkRequest GET "https://cobalt.example"
          (<["User-Agent" := pybalt_user_agent]> plain_headers) None;
        mkRequest GET "https://tie.example"
          (<["User-Agent" := pybalt_user_agent]> plain_headers) None])
  /\ filter (fun i => score i = 60)
       (sort_by_score [instance_backup; instance_good; instance_tie])
     = [instance_good; instance_tie].
Proof.
  destruct (selector_probes_by_rank
              (net_listing [instance_backup; instance_good; instance_old; instance_tie])
              world_active
              [instance_backup; instance_good; instance_old; instance_tie]
              [instance_backup; instance_good; instance_tie]
              eq_refl eq_refl) as [H [_ [_ [_ Htie]]]].
  split; [rewrite H; vm_compute; reflexivity|].
  rewrite (Htie 60). vm_compute. reflexivity.
Defined.

(** X2. One call of [get_instance] sends the registry request first, and
    after it nothing but probes: of the entries that pass the filter, taken
    in the order of their rank, the first ones up to where the selection
    stops, one probe each; so at most as many probes as the registry has
    entries, and none when the registry request fails or a version is no
    number. *)
Theorem selector_request_bound (net : Network) (w : World) :
  let w' := snd (get_instance net w) in
  let cs := headers (set_header "User-Agent" pybalt_user_agent (self w)) in
  exists probes,
    sent_since w w' = registry_request (self w) :: probes
    /\ match registry_response net (length (wire w)) (registry_request (self w)) with
       | RegistryOk instances =>
           (length probes <= length instances)%nat
           /\ (filter_instances instances [] = None -> probes = [])
           /\ exists k,
                probes
                = map (fun i => mkRequest GET (probe_url i) cs None)
                    (take k (sort_by_score
                               (filter (fun i => passes i = true) instances)))
       | RegistryConnectorError | RegistryFailed => probes = []
       end.
Proof.
  cbn zeta.
  destruct (registry_response net (length (wire w)) (registry_request (self w)))
    as [instances| |] eqn:Hreg.
  - destruct (filter_instances instances []) as [good|] eqn:Hf.
    + rewrite (get_instance_ranked net w instances good Hreg Hf).
      cbn [snd]. unfold sent_since. cbn [wire]. rewrite drop_app_length.
      eexists. split; [reflexivity|].
      destruct (probe_in_order_prefix net
                  (headers (set_header "User-Agent" pybalt_user_agent (self w)))
                  (skipped_instances (self w)) (sort_by_score good)
                  (S (length (wire w)))) as [k [Hk Hs]].
      rewrite sort_by_score_length in Hk.
      pose proof (filter_instances_length _ _ _ Hf) as Hl. cbn [length] in Hl.
      split; [|split; [discriminate|]].
      * rewrite Hs, length_map, length_take. lia.
      * exists k. rewrite Hs. now rewrite (filter_instances_passes _ _ _ Hf).
    + rewrite get_instance_stops by now rewrite Hreg.
      cbn [snd]. unfold sent_since. cbn [wire]. rewrite drop_app_length.
      exists []. split; [reflexivity|]. split; [cbn; lia|]. split; [reflexivity|].
      now exists O.
  - rewrite get_instance_stops by now rewrite Hreg.
    cbn [snd]. unfold sent_since. cbn [wire]. rewrite drop_app_length.
    now exists [].
  - rewrite get_instance_stops by now rewrite Hreg.
    cbn [snd]. unfold sent_since. cbn [wire]. rewrite drop_app_length.
    now exists [].
Qed.

(** X3. A single registry entry whose version [int()] does not read makes
    [get_instance] raise [ValueError] before any probe, whatever the other
    entries are, and the active instance stays as it was; a version that
    begins with no number is such a version. With every version read,
    [get_instance] raises no [ValueError]. *)
Theorem selector_rejects_unparsable_version (net : Network) (w : World)
    (instances : list Instance) :
  registry_response net (length (wire w)) (registry_request (self w))
  = RegistryOk instances ->
  ((exists instance, instance ∈ instances /\ version_major instance = None) ->
   get_instance net w
   = (Raise ValueError,
      mkWorld (set_header "User-Agent" pybalt_user_agent (self w))
        (wire w ++ [registry_request (self w)])))
  /\ (forall instance, unnumbered (version instance) -> version_major instance = None)
  /\ ((forall instance, instance ∈ instances -> is_Some (version_major instance)) ->
      fst (get_instance net w) <> Raise ValueError).
Proof.
  intros Hreg. split; [|split].
  - intros Hbad.
    assert (Hf : filter_instances instances [] = None)
      by (now apply filter_instances_none).
    rewrite get_instance_stops by now rewrite Hreg. now rewrite Hreg.
  - apply version_major_unnumbered.
  - intros Hall.
    destruct (filter_instances instances []) as [good|] eqn:Hf.
    + rewrite (get_instance_ranked net w instances good Hreg Hf). cbn [fst].
      destruct (fst (probe_in_order _ _ _ _ _)); discriminate.
    + apply filter_instances_none in Hf as [i [Hi Hv]].
      destruct (Hall i Hi) as [m Hm]. congruence.
Qed.

Lemma selector_rejects_unparsable_version_witness :
  get_instance (net_listing [instance_backup; instance_separator]) world_active
  = (Raise ValueError,
     mkWorld (set_header "User-Agent" pybalt_user_agent (self world_active))
       (wire world_active ++ [registry_request (self world_active)]))
  /\ version_major instance_unversioned = None.
Proof.
  destruct (selector_rejects_unparsable_version
              (net_listing [instance_backup; instance_separator]) world_active
              [instance_backup; instance_separator] eq_refl) as [Hraise [Hread _]].
  split.
  - apply Hraise. exists instance_separator. split; [|apply Hread; now right].
    apply elem_of_cons. right. apply elem_of_cons. now left.
  - apply Hread. now right.
Defined.

(** ** Outcomes of one extraction request *)

(** X4. When the instance answers without an error object, [get] returns
    a [File] with the status, tunnel and file name of the answer and the
    sanitised source URL, after exactly one POST and without touching the
    client. *)
Theorem get_success (net : Network) (fuel : nat) (url : string)
    (quality : option string) (download_mode filename_style : string)
    (audio_format codec : option string) (w : World) (u : string) (w1 : World)
    (status tunnel filename : string) :
  ensure_instance net w = (Return u, w1) ->
  let request :=
    mkRequest POST (api_instance (self w1)) (headers (self w))
      (Some (request_body url (normalize_quality quality) filename_style
               audio_format codec)) in
  post_response net (length (wire w1)) request = PostOk status tunnel filename ->
  get net (S fuel) url quality download_mode filename_style audio_format codec w
  = (Return (File.init status (without_quotes url) filename tunnel),
     mkWorld (self w1) (wire w1 ++ [request])).
Proof.
  intros He request Hp.
  rewrite (get_attempt _ _ _ _ _ _ _ _ _ _ _ He). fold request. rewrite Hp.
  now rewrite sanitize_without_quotes.
Qed.

Lemma get_success_witness :
  get (net_listing [instance_old; instance_backup;
                    mkInstance "older.example" "https" 1 "7.15" [] 95])
      1 "https://youtu.be/a'b" None "auto" "pretty" None None
      (mkWorld client_fetch [])
  = (Return (File.init "tunnel" "https://youtu.be/ab" "clip.mp4"
               "https://backup.example/tunnel?id=1"),
     mkWorld (mkCobalt "https://backup.example/" ""
                (<["User-Agent" := pybalt_user_agent]> plain_headers) [])
       [registry_request client_fetch;
        mkRequest GET "https://backup.example"
          (<["User-Agent" := pybalt_user_agent]> plain_headers) None;
        mkRequest POST "https://backup.example/" plain_headers
          (Some (request_body "https://youtu.be/a'b" "1080" "pretty" None None))]).
Proof.
  pose (net := net_listing [instance_old; instance_backup;
                            mkInstance "older.example" "https" 1 "7.15" [] 95]).
  fold net.
  rewrite (get_success net 0 "https://youtu.be/a'b" None "auto" "pretty" None None
             (mkWorld client_fetch []) "https://backup.example/"
             (snd (get_instance net (mkWorld client_fetch [])))
             "tunnel" "https://backup.example/tunnel?id=1" "clip.mp4"
             ltac:(vm_compute; reflexivity) ltac:(vm_compute; reflexivity)).
  vm_compute. reflexivity.
Defined.

Lemma on_error_content (retry : M File.t) (url code : string) :
  PyStr.index (PyStr.split PyStr.dot code) 2 = Some "content" ->
  on_error retry url code = raise (ContentError url code).
Proof. intros H. unfold on_error. now rewrite H. Qed.

Lemma on_error_invalid_body (retry : M File.t) (url code : string) :
  PyStr.index (PyStr.split PyStr.dot code) 2 = Some "invalid_body" ->
  on_error retry url code = raise (InvalidBody code).
Proof. intros H. unfold on_error. now rewrite H. Qed.

Lemma on_error_unknown (retry : M File.t) (url code category : string) :
  PyStr.index (PyStr.split PyStr.dot code) 2 = Some category ->
  category ∉ known_categories ->
  on_error retry url code = raise (UnrecognizedError code).
Proof.
  intros H Hn. unfold on_error. rewrite H.
  unfold known_categories in Hn.
  repeat (apply not_elem_of_cons in Hn as [Hc Hn];
          apply String.eqb_neq in Hc; rewrite Hc; clear Hc).
  reflexivity.
Qed.

(** X5. An error code whose third segment is content or invalid_body ends
    the call with [ContentError] or [InvalidBody]: one POST, no rotation,
    the client as it was when the request was sent. *)
Theorem get_content_or_body_error (net : Network) (fuel : nat) (url : string)
    (quality : option string) (download_mode filename_style : string)
    (audio_format codec : option string) (w : World) (u : string) (w1 : World)
    (code : string) :
  ensure_instance net w = (Return u, w1) ->
  let request :=
    mkRequest POST (api_instance (self w1)) (headers (self w))
      (Some (request_body url (normalize_quality quality) filename_style
               audio_format codec)) in
  post_response net (length (wire w1)) request = PostApiError code ->
  let result := get net (S fuel) url quality download_mode filename_style
                    audio_format codec w in
  let category := PyStr.index (PyStr.split PyStr.dot code) 2 in
  (category = Some "content" ->
   result = (Raise (ContentError url code), mkWorld (self w1) (wire w1 ++ [request])))
  /\ (category = Some "invalid_body" ->
      result = (Raise (InvalidBody code), mkWorld (self w1) (wire w1 ++ [request]))).
Proof.
  intros He request Hp result category. split; intros Hc.
  - apply (get_terminal net fuel url quality download_mode filename_style
             audio_format codec w u w1 code (ContentError url code) He Hp);
      [|discriminate].
    intros retry. now apply on_error_content.
  - apply (get_terminal net fuel url quality download_mode filename_style
             audio_format codec w u w1 code (InvalidBody code) He Hp);
      [|discriminate].
    intros retry. now apply on_error_invalid_body.
Qed.

Lemma get_content_or_body_error_witness :
  fst (get (net_answering "error.api.content.video.unavailable") 3 "https://youtu.be/x"
           None "auto" "pretty" None None world_active)
  = Raise (ContentError "https://youtu.be/x" "error.api.content.video.unavailable")
  /\ fst (get (net_answering "error.api.invalid_body") 3 "https://youtu.be/x"
              None "auto" "pretty" None None world_active)
     = Raise (InvalidBody "error.api.invalid_body").
Proof.
  split.
  - destruct (get_content_or_body_error
                (net_answering "error.api.content.video.unavailable") 2
                "https://youtu.be/x" None "auto" "pretty" None None world_active
                "https://cobalt.example/" world_active
                "error.api.content.video.unavailable" eq_refl eq_refl) as [H _].
    now rewrite (H eq_refl).
  - destruct (get_content_or_body_error
                (net_answering "error.api.invalid_body") 2
                "https://youtu.be/x" None "auto" "pretty" None None world_active
                "https://cobalt.example/" world_active
                "error.api.invalid_body" eq_refl eq_refl) as [_ H].
    now rewrite (H eq_refl).
Defined.

(** X6. An error code whose third segment is none of the six categories
    the dispatch knows ends the call with [UnrecognizedError] carrying the
    code: one POST, no rotation, [skipped_instances] unchanged. *)
Theorem get_unrecognized_error (net : Network) (fuel : nat) (url : string)
    (quality : option string) (download_mode filename_style : string)
    (audio_format codec : option string) (w : World) (u : string) (w1 : World)
    (code category : string) :
  ensure_instance net w = (Return u, w1) ->
  let request :=
    mkRequest POST (api_instance (self w1)) (headers (self w))
      (Some (request_body url (normalize_quality quality) filename_style
               audio_format codec)) in
  post_response net (length (wire w1)) request = PostApiError code ->
  PyStr.index (PyStr.split PyStr.dot code) 2 = Some category ->
  category ∉ known_categories ->
  get net (S fuel) url quality download_mode filename_style audio_format codec w
  = (Raise (UnrecognizedError code), mkWorld (self w1) (wire w1 ++ [request]))
  /\ skipped_instances (self w1) = skipped_instances (self w).
Proof.
  intros He request Hp Hc Hn. split.
  - apply (get_terminal net fuel url quality download_mode filename_style
             audio_format codec w u w1 code (UnrecognizedError code) He Hp);
      [|discriminate].
    intros retry. now apply (on_error_unknown retry url code category).
  - now apply (ensure_instance_skipped net w (Return u) w1).
Qed.

Lemma get_unrecognized_error_witness :
  get (net_answering "error.api.rate_exceeded") 3 "https://youtu.be/x"
      None "auto" "pretty" None None world_active
  = (Raise (UnrecognizedError "error.api.rate_exceeded"),
     mkWorld (self world_active)
       (wire world_active
        ++ [mkRequest POST "https://cobalt.example/" plain_headers
              (Some (request_body "https://youtu.be/x" "1080" "pretty" None None))]))
  /\ skipped_instances (self world_active) = skipped_instances (self world_active).
Proof.
  apply (get_unrecognized_error (net_answering "error.api.rate_exceeded") 2
           "https://youtu.be/x" None "auto" "pretty" None None world_active
           "https://cobalt.example/" world_active "error.api.rate_exceeded"
           "rate_exceeded" eq_refl eq_refl eq_refl).
  unfold known_categories.
  repeat (apply not_elem_of_cons; split; [discriminate|]). apply not_elem_of_nil.
Defined.

(** X7. When the connection to the active instance fails, [get] raises
    [BadInstance] naming that instance at once: the instance is neither
    added to [skipped_instances] nor replaced, and nothing is retried. *)
Theorem get_unreachable_instance (net : Network) (fuel : nat) (url : string)
    (quality : option string) (download_mode filename_style : string)
    (audio_format codec : option string) (w : World) (u : string) (w1 : World) :
  ensure_instance net w = (Return u, w1) ->
  let request :=
    mkRequest POST (api_instance (self w1)) (headers (self w))
      (Some (request_body url (normalize_quality quality) filename_style
               audio_format codec)) in
  post_response net (length (wire w1)) request = PostConnectorError ->
  get net (S fuel) url quality download_mode filename_style audio_format codec w
  = (Raise (BadInstance (api_instance (self w1))),
     mkWorld (self w1) (wire w1 ++ [request]))
  /\ skipped_instances (self w1) = skipped_instances (self w).
Proof.
  intros He request Hp. split.
  - rewrite (get_attempt _ _ _ _ _ _ _ _ _ _ _ He). fold request. now rewrite Hp.
  - now apply (ensure_instance_skipped net w (Return u) w1).
Qed.

Lemma get_unreachable_instance_witness :
  get net_refusing 4 "https://youtu.be/x" None "auto" "pretty" None None world_active
  = (Raise (BadInstance "https://cobalt.example/"),
     mkWorld (self world_active)
       (wire world_active
        ++ [mkRequest POST "https://cobalt.example/" plain_headers
              (Some (request_body "https://youtu.be/x" "1080" "pretty" None None))]))
  /\ skipped_instances (self world_active) = skipped_instances (self world_active).
Proof.
  apply (get_unreachable_instance net_refusing 3 "https://youtu.be/x" None "auto"
           "pretty" None None world_active "https://cobalt.example/" world_active);
    reflexivity.
Defined.

(** ** Failures of the selection inside [get] *)

(** X8. A registry that cannot be reached during the selection that opens
    a call of [get] (line 235, before the [try]) leaves [get] as the bare
    [ClientConnectorError], not as [BadInstance]; no extraction request is
    sent. *)
Theorem get_initial_selection_unreachable (net : Network) (fuel : nat) (url : string)
    (quality : option string) (download_mode filename_style : string)
    (audio_format codec : option string) (w : World) :
  wants_fetch (api_instance (self w)) = true ->
  registry_response net (length (wire w)) (registry_request (self w))
  = RegistryConnectorError ->
  get net (S fuel) url quality download_mode filename_style audio_format codec w
  = (Raise ClientConnectorError,
     mkWorld (set_header "User-Agent" pybalt_user_agent (self w))
       (wire w ++ [registry_request (self w)])).
Proof.
  intros Hw Hreg.
  apply get_not_ensured.
  unfold ensure_instance, bind, read. cbn [self]. rewrite Hw.
  unfold get_instance, bind, modify, read, send. cbn [self wire].
  change (mkRequest GET registry_url _ None) with (registry_request (self w)).
  now rewrite Hreg.
Qed.

Lemma get_initial_selection_unreachable_witness :
  get (net_unreachable_registry "error.api.fetch.failed") 3 "https://youtu.be/x" None
      "auto" "pretty" None None (mkWorld client_fetch [])
  = (Raise ClientConnectorError,
     mkWorld (set_header "User-Agent" pybalt_user_agent client_fetch)
       ([] ++ [registry_request client_fetch])).
Proof.
  apply (get_initial_selection_unreachable
           (net_unreachable_registry "error.api.fetch.failed") 2 "https://youtu.be/x"
           None "auto" "pretty" None None (mkWorld client_fetch []));
    reflexivity.
Defined.

(** X9. When the reselection after a rotating error code raises, the
    exception leaves [get] (a [ClientConnectorError] as [BadInstance] naming
    the instance just skipped) and that instance, now in
    [skipped_instances], is still the active one: the next call of [get]
    sends its request to it. *)
Theorem get_failed_rotation_keeps_instance (net : Network) (fuel : nat) (url : string)
    (quality : option string) (download_mode filename_style : string)
    (audio_format codec : option string) (w : World) (u : string) (w1 : World)
    (code : string) (e : PyExc) (w4 : World) :
  ensure_instance net w = (Return u, w1) ->
  let json := request_body url (normalize_quality quality) filename_style
                           audio_format codec in
  let request := mkRequest POST (api_instance (self w1)) (headers (self w)) (Some json) in
  post_response net (length (wire w1)) request = PostApiError code ->
  (forall retry, on_error retry url code = retry) ->
  get_instance net (mkWorld (skip_current (self w1)) (wire w1 ++ [request]))
  = (Raise e, w4) ->
  wants_fetch (api_instance (self w1)) = false ->
  get net (S fuel) url quality download_mode filename_style audio_format codec w
  = (Raise match e with
           | ClientConnectorError => BadInstance (api_instance (self w1))
           | _ => e
           end, w4)
  /\ api_instance (self w4) = api_instance (self w1)
  /\ api_instance (self w4) ∈ skipped_instances (self w4)
  /\ (forall fuel' url' quality' download_mode' filename_style' audio_format' codec',
        mkRequest POST (api_instance (self w1)) (headers (self w4))
          (Some (request_body url' (normalize_quality quality') filename_style'
                   audio_format' codec'))
        ∈ sent_since w4
            (snd (get net (S fuel') url' quality' download_mode' filename_style'
                      audio_format' codec' w4))).
Proof.
  intros He json request Hp Hon Hg Hw.
  assert (Hself : self w4 = set_header "User-Agent" pybalt_user_agent
                              (skip_current (self w1))).
  { apply get_instance_spec in Hg as [_ Hg]. exact Hg. }
  assert (Ha : api_instance (self w4) = api_instance (self w1))
    by (now rewrite Hself).
  split; [|split; [exact Ha|split]].
  - rewrite (get_rotates net fuel url quality download_mode filename_style
               audio_format codec w u w1 code He Hp Hon).
    fold json request. unfold try_connector, bind. rewrite Hg.
    destruct e; rewrite ?Ha; reflexivity.
  - rewrite Hself. cbn. apply elem_of_app. right. now left.
  - intros fuel' url' quality' dm' fs' af' codec'. rewrite <- Ha.
    apply get_first_post with (u := api_instance (self w4)).
    apply ensure_instance_active. now rewrite Ha.
Qed.

Lemma get_failed_rotation_keeps_instance_witness :
  let net := net_unreachable_registry "error.api.youtube.login" in
  let result := get net 3 "https://youtu.be/x" None "auto" "pretty" None None
                    world_active in
  fst result = Raise (BadInstance "https://cobalt.example/")
  /\ api_instance (self (snd result)) = "https://cobalt.example/"
  /\ skipped_instances (self (snd result)) = ["https://cobalt.example/"]
  /\ map target
         (filter (fun r => method r = POST)
            (wire (snd (get net 3 "https://youtu.be/y" None "auto" "pretty" None None
                            (snd result)))))
     = ["https://cobalt.example/"; "https://cobalt.example/"].
Proof.
  cbn zeta.
  pose (net := net_unreachable_registry "error.api.youtube.login").
  pose (request := mkRequest POST "https://cobalt.example/" plain_headers
                     (Some (request_body "https://youtu.be/x" "1080" "pretty" None None))).
  pose (w3 := mkWorld (skip_current (self world_active))
                (wire world_active ++ [request])).
  destruct (get_failed_rotation_keeps_instance net 2 "https://youtu.be/x" None "auto"
              "pretty" None None world_active "https://cobalt.example/" world_active
              "error.api.youtube.login" ClientConnectorError
              (snd (get_instance net w3))
              eq_refl eq_refl (fun _ => eq_refl) ltac:(vm_compute; reflexivity) eq_refl)
    as [H [H1 [H2 _]]].
  fold net. rewrite H. cbn [fst snd].
  split; [reflexivity|]. split; [vm_compute; reflexivity|].
  split; vm_compute; reflexivity.
Defined.

(** ** What a session never changes *)

(** X10. No sequence of calls of [get], [get_instance] and [download]
    changes [api_key] or any header other than User-Agent, and the
    User-Agent is either as it was or the fixed string of
    [get_instance]. *)
Theorem session_keeps_credentials (net : Network) (calls : list Call) (w : World) :
  let w' := run net calls w in
  api_key (self w') = api_key (self w)
  /\ (forall name, name <> "User-Agent" ->
                   headers (self w') !! name = headers (self w) !! name)
  /\ (headers (self w') !! "User-Agent" = headers (self w) !! "User-Agent"
      \/ headers (self w') !! "User-Agent" = Some pybalt_user_agent).
Proof.
  cbn zeta.
  set (I := fun c =>
              api_key c = api_key (self w)
              /\ (forall name, name <> "User-Agent" ->
                               headers c !! name = headers (self w) !! name)
              /\ (headers c !! "User-Agent" = headers (self w) !! "User-Agent"
                  \/ headers c !! "User-Agent" = Some pybalt_user_agent)).
  apply (run_invariant net I (fun _ => True)); unfold I; auto.
  intros c [Hk [Hh Hu]]. cbn. split; [exact Hk|]. split.
  - intros name Hn. rewrite lookup_insert_ne by congruence. now apply Hh.
  - right. apply lookup_insert_eq.
Qed.

(** ** The constructor *)

Lemma nonempty_truthy (o : option string) (s : string) :
  nonempty o = Some s -> PyStr.truthy s = true.
Proof.
  destruct o as [t|]; [|discriminate]. cbn [nonempty].
  destruct (PyStr.truthy t) eqn:E; [|discriminate]. now intros [= <-].
Qed.

(** X11. [Cobalt(...)] fails, with the [KeyError] of line 141, exactly when
    the caller passes a headers dictionary without an Authorization entry;
    with no headers argument it always succeeds. *)
Theorem init_fails_without_authorization (getenv : string -> option string)
    (api_instance api_key : option string) (headers : option (gmap string string)) :
  init getenv api_instance api_key headers = None
  <-> exists h, headers = Some h /\ h !! "Authorization" = None.
Proof.
  unfold init.
  destruct headers as [h|].
  - destruct (h !! "User-Agent") eqn:Eu.
    + destruct (h !! "Authorization") eqn:Ea.
      * split; [discriminate|]. intros [h' [[= <-] Hn]]. congruence.
      * split; [eauto|reflexivity].
    + rewrite lookup_insert_ne by discriminate.
      destruct (h !! "Authorization") eqn:Ea.
      * split; [discriminate|]. intros [h' [[= <-] Hn]]. congruence.
      * split; [eauto|reflexivity].
  - split; [|intros [h [[=] _]]].
    rewrite !(lookup_insert_ne _ _ "User-Agent") by discriminate.
    rewrite lookup_empty.
    rewrite (lookup_insert_ne _ "User-Agent" "Authorization") by discriminate.
    rewrite lookup_insert_eq. discriminate.
Qed.

(** X12. Every client the constructor builds has a non-empty
    [api_instance] that contains http, an empty [skipped_instances], a
    User-Agent header, and no empty Authorization header. *)
Theorem init_invariants (getenv : string -> option string)
    (api_instance0 api_key0 : option string) (headers0 : option (gmap string string))
    (c : Cobalt) :
  init getenv api_instance0 api_key0 headers0 = Some c ->
  PyStr.truthy (api_instance c) = true
  /\ contains "http" (api_instance c) = true
  /\ skipped_instances c = []
  /\ is_Some (headers c !! "User-Agent")
  /\ headers c !! "Authorization" <> Some "".
Proof.
  unfold init.
  set (chosen := nonempty match api_instance0 with
                          | Some _ => api_instance0
                          | None => nonempty (getenv "COBALT_API_URL")
                          end).
  set (instance := match chosen with
                   | Some a => ((if contains "http" a then "" else "https://") ++ a)%string
                   | None => default_instance
                   end).
  assert (Hi : PyStr.truthy instance = true /\ contains "http" instance = true).
  { subst instance. destruct chosen as [a|] eqn:Ec; [|now split].
    apply nonempty_truthy in Ec.
    destruct (contains "http" a) eqn:Eh; cbn; [|now split].
    now split. }
  set (key := if (String.eqb instance default_instance && _)%bool then _ else _).
  set (h1 := match headers0 with Some h => h | None => _ end).
  set (h2 := match h1 !! "User-Agent" with Some _ => h1 | None => _ end).
  assert (Hu : is_Some (h2 !! "User-Agent")).
  { subst h2. destruct (h1 !! "User-Agent") eqn:Eu; [now rewrite Eu|].
    rewrite lookup_insert_eq. eauto. }
  destruct (h2 !! "Authorization") as [a|] eqn:Ea; [|discriminate].
  intros [= <-]. cbn [api_instance skipped_instances
                      headers].
  destruct Hi as [Ht Hc]. repeat split; auto.
  - destruct (String.eqb a ""); [|exact Hu].
    rewrite lookup_delete_ne by discriminate. exact Hu.
  - destruct (String.eqb a "") eqn:E.
    + rewrite lookup_delete_eq. discriminate.
    + rewrite Ea. apply String.eqb_neq in E. congruence.
Qed.

Lemma init_invariants_witness :
  PyStr.truthy (api_instance client_keyed) = true
  /\ contains "http" (api_instance client_keyed) = true
  /\ skipped_instances client_keyed = []
  /\ is_Some (headers client_keyed !! "User-Agent")
  /\ headers client_keyed !! "Authorization" <> Some "".
Proof.
  apply (init_invariants (fun _ => None) (Some "cobalt.example") (Some "k") None
           client_keyed).
  vm_compute. reflexivity.
Defined.

(** X13. Built without a headers argument, a client sends Accept and
    Content-Type [application/json], the User-Agent of the environment or
    [pybalt/python], and an Authorization header exactly when it has a key,
    of the form Api-Key followed by the key; the default instance is never
    left without a key. *)
Theorem init_default_headers (getenv : string -> option string)
    (api_instance0 api_key0 : option string) (c : Cobalt) :
  init getenv api_instance0 api_key0 None = Some c ->
  headers c !! "Accept" = Some "application/json"
  /\ headers c !! "Content-Type" = Some "application/json"
  /\ headers c !! "User-Agent"
     = Some (default "pybalt/python" (nonempty (getenv "COBALT_USER_AGENT")))
  /\ headers c !! "Authorization"
     = (if PyStr.truthy (api_key c) then Some ("Api-Key " ++ api_key c)%string else None)
  /\ (api_instance c = default_instance -> PyStr.truthy (api_key c) = true).
Proof.
  unfold init.
  set (instance := match nonempty _ with Some a => _ | None => default_instance end).
  set (key0 := default "" (nonempty match api_key0 with
                                    | Some _ => api_key0
                                    | None => nonempty (getenv "COBALT_API_KEY")
                                    end)).
  set (key := if (String.eqb instance default_instance && negb (PyStr.truthy key0))%bool
              then default_api_key else key0).
  rewrite !(lookup_insert_ne _ _ "User-Agent") by discriminate.
  rewrite lookup_empty.
  rewrite (lookup_insert_ne _ "User-Agent" "Authorization") by discriminate.
  rewrite lookup_insert_eq.
  intros [= <-]. cbn [api_instance api_key headers].
  assert (Hkey : instance = default_instance -> PyStr.truthy key = true).
  { intros Hi. subst key. rewrite Hi, String.eqb_refl. cbn [andb].
    destruct (PyStr.truthy key0) eqn:E; [exact E|reflexivity]. }
  destruct (PyStr.truthy key) eqn:Ek.
  - assert (Hne : String.eqb ("Api-Key " ++ key)%string "" = false) by reflexivity.
    rewrite Hne.
    rewrite (lookup_insert_ne _ "User-Agent" "Accept") by discriminate.
    rewrite (lookup_insert_ne _ "Authorization" "Accept") by discriminate.
    rewrite (lookup_insert_ne _ "Content-Type" "Accept") by discriminate.
    rewrite (lookup_insert_ne _ "User-Agent" "Content-Type") by discriminate.
    rewrite (lookup_insert_ne _ "Authorization" "Content-Type") by discriminate.
    rewrite (lookup_insert_ne _ "User-Agent" "Authorization") by discriminate.
    rewrite !lookup_insert_eq. repeat split; auto.
  - cbn [String.eqb].
    rewrite !(lookup_delete_ne _ "Authorization") by discriminate.
    rewrite lookup_delete_eq.
    rewrite (lookup_insert_ne _ "User-Agent" "Accept") by discriminate.
    rewrite (lookup_insert_ne _ "Authorization" "Accept") by discriminate.
    rewrite (lookup_insert_ne _ "Content-Type" "Accept") by discriminate.
    rewrite (lookup_insert_ne _ "User-Agent" "Content-Type") by discriminate.
    rewrite (lookup_insert_ne _ "Authorization" "Content-Type") by discriminate.
    rewrite !lookup_insert_eq. repeat split; auto.
Qed.

Lemma init_default_headers_witness :
  headers client_keyed !! "Accept" = Some "application/json"
  /\ headers client_keyed !! "Content-Type" = Some "application/json"
  /\ headers client_keyed !! "User-Agent"
     = Some (default "pybalt/python" (nonempty (@None string)))
  /\ headers client_keyed !! "Authorization"
     = (if PyStr.truthy (api_key client_keyed)
        then Some ("Api-Key " ++ api_key client_keyed)%string else None)
  /\ (api_instance client_keyed = default_instance ->
      PyStr.truthy (api_key client_keyed) = true).
Proof.
  apply (init_default_headers (fun _ => None) (Some "cobalt.example") (Some "k")
           client_keyed).
  vm_compute. reflexivity.
Defined.

Lemma init_api_instance (getenv : string -> option string) (s : string)
    (api_key0 : option string) (headers0 : option (gmap string string)) (c : Cobalt) :
  init getenv (Some s) api_key0 headers0 = Some c ->
  PyStr.truthy s = true ->
  api_instance c = ((if contains "http" s then "" else "https://") ++ s)%string.
Proof.
  unfold init. cbn [nonempty]. intros H Hs. rewrite Hs in H.
  match type of H with
  | match ?m with Some _ => _ | None => _ end = _ => destruct m; [|discriminate]
  end.
  now injection H as <-.
Qed.

Lemma lower_char_spellings (c x : ascii) :
  PyStr.lower_char c = x -> c = x \/ c = ascii_of_nat (nat_of_ascii x - 32).
Proof.
  unfold PyStr.lower_char.
  destruct ((65 <=? nat_of_ascii c)%nat && (nat_of_ascii c <=? 90)%nat)%bool eqn:E;
    [|now left].
  apply andb_true_iff in E as [_ E]. apply Nat.leb_le in E.
  intros <-. right. rewrite nat_ascii_embedding by lia.
  replace (nat_of_ascii c + 32 - 32)%nat with (nat_of_ascii c) by lia.
  now rewrite ascii_nat_embedding.
Qed.

Lemma lower_spellings (s : string) : forall t, PyStr.lower s = t -> s ∈ spellings t.
Proof.
  induction s as [|c s IH]; intros t <-; cbn [PyStr.lower spellings].
  - now left.
  - apply list_elem_of_In, in_flat_map. exists s. split.
    + apply list_elem_of_In, IH. reflexivity.
    + destruct (lower_char_spellings c _ eq_refl) as [E|E]; rewrite <- E; cbn; auto.
Qed.

(** X14. A client built with the instance given as f, fetch or get, in any
    mix of upper and lower case, is one for which [get] starts by selecting
    an instance: the https prefix the constructor adds does not hide the
    name. *)
Theorem init_sentinel_fetches (getenv : string -> option string) (s : string)
    (api_key0 : option string) (headers0 : option (gmap string string)) (c : Cobalt) :
  PyStr.lower s ∈ sentinels ->
  init getenv (Some s) api_key0 headers0 = Some c ->
  wants_fetch (api_instance c) = true.
Proof.
  intros Hs Hc.
  assert (Hv : exists t, t ∈ sentinels /\ s ∈ spellings t)
    by (eexists; split; [exact Hs|now apply lower_spellings]).
  assert (Hall : forallb
                   (fun v => (PyStr.truthy v
                              && wants_fetch ((if contains "http" v then "" else "https://")
                                              ++ v)%string)%bool)
                   (flat_map spellings sentinels) = true)
    by (vm_compute; reflexivity).
  rewrite forallb_forall in Hall.
  destruct Hv as [t [Ht Hv]].
  specialize (Hall s). rewrite andb_true_iff in Hall.
  destruct Hall as [Htruthy Hw].
  { apply in_flat_map. exists t. split; now apply list_elem_of_In. }
  now rewrite (init_api_instance _ _ _ _ _ Hc Htruthy).
Qed.

Lemma init_sentinel_fetches_witness :
  wants_fetch (api_instance (mkCobalt "https://FeTcH" "" plain_headers [])) = true.
Proof.
  apply (init_sentinel_fetches (fun _ => None) "FeTcH" None None
           (mkCobalt "https://FeTcH" "" plain_headers [])).
  - vm_compute. apply elem_of_cons. right. apply elem_of_cons. now left.
  - vm_compute. reflexivity.
Defined.

(** ** [File] *)

Lemma split_dotless (sep : ascii) (s : string) :
  has_char sep s = false -> PyStr.split sep s = [s].
Proof.
  induction s as [|c s IH]; [reflexivity|]. cbn [has_char PyStr.split].
  intros H. apply orb_false_iff in H as [Hc Hs]. rewrite Hc, (IH Hs). reflexivity.
Qed.

Lemma last_item_cons {A} (x : A) (l : list A) :
  l <> [] -> PyStr.last_item (x :: l) = PyStr.last_item l.
Proof. destruct l; [congruence|reflexivity]. Qed.

Lemma split_after_separator (sep : ascii) (a b : string) :
  PyStr.last_item (PyStr.split sep (a ++ String sep b)%string)
  = PyStr.last_item (PyStr.split sep b)
  /\ (2 <= length (PyStr.split sep (a ++ String sep b)%string))%nat.
Proof.
  induction a as [|c a [IH Hlen]].
  - change (PyStr.split sep ("" ++ String sep b)%string)
      with (PyStr.split sep (String sep b)).
    cbn [PyStr.split]. rewrite Ascii.eqb_refl. split.
    + apply last_item_cons, split_nonempty.
    + pose proof (split_nonempty sep b). destruct (PyStr.split sep b); cbn; [congruence|lia].
  - change (PyStr.split sep (String c a ++ String sep b)%string)
      with (PyStr.split sep (String c (a ++ String sep b)%string)).
    cbn [PyStr.split]. destruct (Ascii.eqb c sep).
    + split; [|cbn; lia]. rewrite last_item_cons; [exact IH|].
      intros E. rewrite E in Hlen. cbn in Hlen. lia.
    + destruct (PyStr.split sep (a ++ String sep b)%string) as [|seg [|seg' segs]];
        cbn [length] in Hlen; try lia.
      split; [exact IH|cbn; lia].
Qed.

(** X15. The [extension] of a [File] is absent for an empty file name; for
    a name ending in a dot and a dot-free suffix it is that suffix; and a
    non-empty name without any dot is its own extension. In no case does
    the extension contain a dot. *)
Theorem file_extension (status url tunnel : string) :
  File.extension (File.init status url "" tunnel) = None
  /\ (forall base ext,
        has_char PyStr.dot ext = false ->
        File.extension (File.init status url (base ++ String PyStr.dot ext)%string tunnel)
        = Some ext)
  /\ (forall name,
        name <> "" -> has_char PyStr.dot name = false ->
        File.extension (File.init status url name tunnel) = Some name)
  /\ (forall filename ext,
        File.extension (File.init status url filename tunnel) = Some ext ->
        has_char PyStr.dot ext = false).
Proof.
  split; [reflexivity|]. split; [|split].
  - intros base ext Hext. cbn [File.init File.extension].
    assert (Ht : PyStr.truthy (base ++ String PyStr.dot ext)%string = true)
      by (destruct base; reflexivity).
    rewrite Ht. destruct (split_after_separator PyStr.dot base ext) as [-> _].
    now rewrite split_dotless.
  - intros name Hne Hd. cbn [File.init File.extension].
    destruct name as [|c name]; [congruence|]. cbn [PyStr.truthy].
    now rewrite split_dotless.
  - intros filename ext. cbn [File.init File.extension].
    destruct (PyStr.truthy filename); [|discriminate].
    clear. revert ext. induction filename as [|c s IH]; intros ext.
    + cbn. now intros [= <-].
    + cbn [PyStr.split]. destruct (Ascii.eqb c PyStr.dot) eqn:Ec.
      * rewrite last_item_cons by apply split_nonempty. apply IH.
      * destruct (PyStr.split PyStr.dot s) as [|seg [|seg' segs]] eqn:Es.
        { now destruct (split_nonempty PyStr.dot s). }
        { cbn. intros [= <-]. cbn [has_char]. rewrite Ec. cbn [orb].
          apply IH. reflexivity. }
        { intros H. apply IH. exact H. }
Qed.

(** ** Downloads *)

Lemma string_app_assoc (a b c : string) : ((a ++ b) ++ c = a ++ (b ++ c))%string.
Proof.
  induction a as [|x a IH]; [reflexivity|].
  change ((String x a ++ b) ++ c)%string with (String x ((a ++ b) ++ c))%string.
  change (String x a ++ (b ++ c))%string with (String x (a ++ (b ++ c)))%string.
  now rewrite IH.
Qed.

Lemma string_app_nil_r (a : string) : (a ++ "")%string = a.
Proof.
  induction a as [|x a IH]; [reflexivity|].
  change (String x a ++ "")%string with (String x (a ++ ""))%string. now rewrite IH.
Qed.

(** Once both names are bound the loop runs to the end of the body. *)
Lemma stream_bound (due speed : nat -> bool) (ending : Ending) (chunks : list string) :
  forall k content,
    stream due speed ending k chunks content true true
    = ((content ++ received chunks)%string, true,
       if unbroken chunks
       then match ending with Eof => None | Broken => Some ExternalError end
       else None).
Proof.
  induction chunks as [|chunk rest IH]; intros k content;
    cbn [stream received unbroken forallb].
  - now rewrite string_app_nil_r.
  - destruct (PyStr.truthy chunk); cbn [andb].
    + rewrite orb_true_r.
      destruct (due k); rewrite IH, string_app_assoc; reflexivity.
    + now rewrite string_app_nil_r.
Qed.

Lemma and_then_unfold {A B} (m : H A) (k : A -> H B) (h : Host) :
  and_then m k h
  = match m h with
    | (Done a, h') => k a h'
    | (Failed e, h') => (Failed e, h')
    | (Starved, h') => (Starved, h')
    end.
Proof. reflexivity. Qed.

Section DownloadFacts.

Variable net : Network.
Variable os : Os.

(** What [fetch] does once the file can be opened. *)
Lemma fetch_spec (file : File.t) (target : string) (h : Host) :
  open_ok os target = true ->
  let cs := headers (self (world h)) in
  let request := mkRequest GET (File.tunnel file) cs None in
  let sent := mkWorld (self (world h)) (wire (world h) ++ [request]) in
  fetch os file target h
  = match tunnel_response os (length (wire (world h))) request with
    | TunnelFailed =>
        (Failed ExternalError,
         mkHost sent (made h) (<[target := ""]> (written h)) (launched h))
    | TunnelBody chunks ending =>
        let '(content, max_bound, raised) :=
          stream (progress_due os (length (wire (world h))))
                 (speed_due os (length (wire (world h)))) ending O chunks "" false false in
        (match raised with
         | Some e => Failed e
         | None => if max_bound then Done tt
                   else Failed (UnboundLocalError "max_print_length")
         end,
         mkHost sent (made h) (<[target := content]> (written h)) (launched h))
    end.
Proof.
  intros Ho cs request sent.
  unfold fetch, and_then, on_world, read, send, open_wb. cbn [world made written launched self wire].
  rewrite Ho. cbn [world made written launched self wire].
  fold cs. fold request.
  destruct (tunnel_response os (length (wire (world h))) request) as [chunks ending|];
    [|reflexivity].
  destruct (stream _ _ ending 0 chunks "" false false) as [[content max_bound] raised].
  cbn [world made written launched]. rewrite insert_insert_eq.
  destruct raised as [e|]; [reflexivity|]. destruct max_bound; reflexivity.
Qed.

Lemma for_each_launch (ls : list Launch) :
  forall h,
    forallb (launch_ok os) ls = true ->
    for_each (launch os) ls h
    = (Done tt, mkHost (world h) (made h) (written h) (launched h ++ ls)).
Proof.
  induction ls as [|l ls IH]; intros h Hok; cbn [for_each].
  - unfold done. destruct h. cbn. now rewrite app_nil_r.
  - cbn [forallb] in Hok. apply andb_true_iff in Hok as [Hl Hls].
    unfold and_then, launch. rewrite Hl, (IH _ Hls). cbn [world made written launched].
    now rewrite <- app_assoc.
Qed.

(** The branch of [download] for one file that is already resolved. *)
Lemma download_resolved (fuel : nat) (u : string)
    (quality filename path_folder : option string)
    (download_mode filename_style : string) (audio_format codec : option string)
    (playlist : PlaylistArg) (file : File.t) (show play : option bool) (h : Host) :
  playlist_truthy playlist = false ->
  has_list_param u = false ->
  let target := destination os filename path_folder file in
  download net os (S fuel) (Some u) quality filename path_folder download_mode
    filename_style audio_format codec playlist (Some file) show play h
  = (exec_ ensure_folder os (folder os path_folder);
     exec_ fetch os file target;
     exec_ for_each (launch os) (launches os show play target);
     done (Some target)) h.
Proof.
  intros Hp Hu target. cbn [download]. rewrite Hp.
  unfold and_then at 1. unfold done at 1. rewrite Hu.
  unfold and_then at 1. unfold done at 1. reflexivity.
Qed.

Lemma ensure_folder_present (p : string) (h : Host) :
  path_exists os (made h) p = true -> ensure_folder os p h = (Done tt, h).
Proof. intros H. unfold ensure_folder. now rewrite H. Qed.

End DownloadFacts.

(** X16. A download of a resolved file whose tunnel delivers a first
    non-empty chunk, the clock tests of the progress display holding at that
    chunk, returns the joined path of folder and file name, has sent one GET
    to the tunnel with the current headers, and leaves at that path exactly
    the chunks received up to the first empty one. *)
Theorem download_streams_body (net : Network) (os : Os) (fuel : nat) (u : string)
    (quality filename path_folder : option string)
    (download_mode filename_style : string) (audio_format codec : option string)
    (playlist : PlaylistArg) (file : File.t) (show play : option bool) (h : Host)
    (chunk : string) (rest : list string) :
  playlist_truthy playlist = false ->
  has_list_param u = false ->
  let target := destination os filename path_folder file in
  let now := length (wire (world h)) in
  let request := mkRequest GET (File.tunnel file) (headers (self (world h))) None in
  path_exists os (made h) (folder os path_folder) = true ->
  open_ok os target = true ->
  tunnel_response os now request = TunnelBody (chunk :: rest) Eof ->
  PyStr.truthy chunk = true ->
  progress_due os now 0 = true ->
  speed_due os now 0 = true ->
  forallb (launch_ok os) (launches os show play target) = true ->
  download net os (S fuel) (Some u) quality filename path_folder download_mode
    filename_style audio_format codec playlist (Some file) show play h
  = (Done (Some target),
     mkHost (mkWorld (self (world h)) (wire (world h) ++ [request]))
       (made h)
       (<[target := received (chunk :: rest)]> (written h))
       (launched h ++ launches os show play target)).
Proof.
  intros Hp Hu target now request Hex Hop Ht Hc Hd Hs Hl.
  rewrite (download_resolved net os fuel u quality filename path_folder download_mode
             filename_style audio_format codec playlist file show play h Hp Hu).
  fold target. unfold and_then at 1. rewrite (ensure_folder_present os _ _ Hex).
  unfold and_then at 1. rewrite (fetch_spec os file target h Hop).
  cbn zeta. fold now request. rewrite Ht.
  cbn [stream received]. rewrite Hc, Hd, Hs. cbn [orb]. rewrite stream_bound.
  change ("" ++ chunk)%string with chunk.
  destruct (unbroken rest); cbn [world made written launched];
    (unfold and_then; rewrite for_each_launch by exact Hl; reflexivity).
Qed.

Lemma download_streams_body_witness :
  download net_single (os_serving ["abc"; "de"; ""; "zz"]) 1 (Some "https://youtu.be/x")
    None None (Some "out") "auto" "pretty" None None (PlaylistFlag false)
    (Some file_clip) None (Some true) host_active
  = (Done (Some "out/clip.mp4"),
     mkHost (mkWorld (self world_active)
               (wire world_active
                ++ [mkRequest GET "https://backup.example/tunnel?id=1" plain_headers None]))
       []
       (<["out/clip.mp4" := "abcde"]> ∅)
       ([] ++ [Run ["xdg-open"; "out/clip.mp4"]])).
Proof.
  apply (download_streams_body net_single (os_serving ["abc"; "de"; ""; "zz"]) 0
           "https://youtu.be/x" None None (Some "out") "auto" "pretty" None None
           (PlaylistFlag false) file_clip None (Some true) host_active "abc"
           ["de"; ""; "zz"]); reflexivity.
Defined.

(** X17. When the tunnel answers with an empty body, [download] raises
    [UnboundLocalError] for [max_print_length] instead of returning the
    path: the name is bound only inside the loop. The file has been created
    empty. *)
Theorem download_empty_body (net : Network) (os : Os) (fuel : nat) (u : string)
    (quality filename path_folder : option string)
    (download_mode filename_style : string) (audio_format codec : option string)
    (playlist : PlaylistArg) (file : File.t) (show play : option bool) (h : Host)
    (chunks : list string) :
  playlist_truthy playlist = false ->
  has_list_param u = false ->
  let target := destination os filename path_folder file in
  let now := length (wire (world h)) in
  let request := mkRequest GET (File.tunnel file) (headers (self (world h))) None in
  path_exists os (made h) (folder os path_folder) = true ->
  open_ok os target = true ->
  tunnel_response os now request = TunnelBody chunks Eof ->
  received chunks = "" ->
  download net os (S fuel) (Some u) quality filename path_folder download_mode
    filename_style audio_format codec playlist (Some file) show play h
  = (Failed (UnboundLocalError "max_print_length"),
     mkHost (mkWorld (self (world h)) (wire (world h) ++ [request]))
       (made h) (<[target := ""]> (written h)) (launched h)).
Proof.
  intros Hp Hu target now request Hex Hop Ht Hr.
  rewrite (download_resolved net os fuel u quality filename path_folder download_mode
             filename_style audio_format codec playlist file show play h Hp Hu).
  fold target. unfold and_then at 1. rewrite (ensure_folder_present os _ _ Hex).
  unfold and_then at 1. rewrite (fetch_spec os file target h Hop).
  cbn zeta. fold now request. rewrite Ht.
  assert (Hs : stream (progress_due os now) (speed_due os now) Eof 0 chunks "" false false
               = ("", false, None)).
  { destruct chunks as [|chunk rest]; [reflexivity|]. cbn [stream received] in Hr |- *.
    destruct (PyStr.truthy chunk) eqn:E; [|reflexivity].
    destruct chunk; [discriminate E|discriminate Hr]. }
  rewrite Hs. reflexivity.
Qed.

Lemma download_empty_body_witness :
  download net_single (os_serving []) 1 (Some "https://youtu.be/x")
    None None (Some "out/") "auto" "pretty" None None (PlaylistFlag false)
    (Some file_clip) None None host_active
  = (Failed (UnboundLocalError "max_print_length"),
     mkHost (mkWorld (self world_active)
               (wire world_active
                ++ [mkRequest GET "https://backup.example/tunnel?id=1" plain_headers None]))
       [] (<["out/clip.mp4" := ""]> ∅) []).
Proof.
  apply (download_empty_body net_single (os_serving []) 0
           "https://youtu.be/x" None None (Some "out/") "auto" "pretty" None None
           (PlaylistFlag false) file_clip None None host_active []); reflexivity.
Defined.

(** X18. The file is opened for writing before the tunnel is contacted:
    when the request to the tunnel fails, the exception leaves [download]
    and whatever was at the path before is replaced by an empty file. *)
Theorem download_truncates_before_request (net : Network) (os : Os) (fuel : nat)
    (u : string) (quality filename path_folder : option string)
    (download_mode filename_style : string) (audio_format codec : option string)
    (playlist : PlaylistArg) (file : File.t) (show play : option bool) (h : Host) :
  playlist_truthy playlist = false ->
  has_list_param u = false ->
  let target := destination os filename path_folder file in
  let now := length (wire (world h)) in
  let request := mkRequest GET (File.tunnel file) (headers (self (world h))) None in
  path_exists os (made h) (folder os path_folder) = true ->
  open_ok os target = true ->
  tunnel_response os now request = TunnelFailed ->
  let result := download net os (S fuel) (Some u) quality filename path_folder
                  download_mode filename_style audio_format codec playlist
                  (Some file) show play h in
  fst result = Failed ExternalError
  /\ written (snd result) !! target = Some ""
  /\ wire (world (snd result)) = wire (world h) ++ [request].
Proof.
  intros Hp Hu target now request Hex Hop Ht result.
  assert (E : result
              = (Failed ExternalError,
                 mkHost (mkWorld (self (world h)) (wire (world h) ++ [request]))
                   (made h) (<[target := ""]> (written h)) (launched h))).
  { subst result.
    rewrite (download_resolved net os fuel u quality filename path_folder download_mode
               filename_style audio_format codec playlist file show play h Hp Hu).
    fold target. unfold and_then at 1. rewrite (ensure_folder_present os _ _ Hex).
    unfold and_then at 1. rewrite (fetch_spec os file target h Hop).
    cbn zeta. fold now request. now rewrite Ht. }
  rewrite E. cbn [fst snd written world wire].
  split; [reflexivity|]. split; [apply lookup_insert_eq|reflexivity].
Qed.

Lemma download_truncates_before_request_witness :
  written host_with_file !! "out/clip.mp4" = Some "previous"
  /\ written
       (snd (download net_single os_dead 1 (Some "https://youtu.be/x") None None
               (Some "out") "auto" "pretty" None None (PlaylistFlag false)
               (Some file_clip) None None host_with_file))
     !! "out/clip.mp4" = Some "".
Proof.
  split; [reflexivity|].
  destruct (download_truncates_before_request net_single os_dead 0 "https://youtu.be/x"
              None None (Some "out") "auto" "pretty" None None (PlaylistFlag false)
              file_clip None None host_with_file
              eq_refl eq_refl eq_refl eq_refl eq_refl) as [_ [H _]].
  exact H.
Defined.

Section DownloadFrames.

Variable net : Network.
Variable os : Os.

Lemma on_world_frame {A} (m : M A) (h : Host) :
  made (snd (on_world m h)) = made h
  /\ written (snd (on_world m h)) = written h
  /\ launched (snd (on_world m h)) = launched h.
Proof.
  unfold on_world. destruct (m (world h)) as [[a|e|] w]; now cbn.
Qed.

Lemma ensure_folder_written (p : string) (h : Host) :
  written (snd (ensure_folder os p h)) = written h.
Proof.
  unfold ensure_folder. destruct (path_exists os (made h) p); [reflexivity|].
  destruct (makedirs_ok os p); reflexivity.
Qed.

Lemma for_each_launch_written (ls : list Launch) :
  forall h, written (snd (for_each (launch os) ls h)) = written h.
Proof.
  induction ls as [|l ls IH]; intros h; cbn [for_each]; [reflexivity|].
  unfold and_then, launch. destruct (launch_ok os l); [|reflexivity].
  now rewrite IH.
Qed.

(** [fetch] writes to its target and nowhere else; when it ends well the
    target holds a file. *)
Lemma fetch_written (file : File.t) (target : string) (h : Host) :
  (forall p, p <> target ->
             written (snd (fetch os file target h)) !! p = written h !! p)
  /\ (fst (fetch os file target h) = Done tt ->
      is_Some (written (snd (fetch os file target h)) !! target)).
Proof.
  destruct (open_ok os target) eqn:Ho.
  - rewrite (fetch_spec os file target h Ho). cbn zeta.
    destruct (tunnel_response os _ _) as [chunks ending|].
    + destruct (stream _ _ ending 0 chunks "" false false) as [[content mb] raised].
      cbn [fst snd written]. split.
      * intros p Hp. now rewrite lookup_insert_ne.
      * intros _. rewrite lookup_insert_eq. eauto.
    + cbn [fst snd written]. split; [|discriminate].
      intros p Hp. now rewrite lookup_insert_ne.
  - unfold fetch, and_then, on_world, read, open_wb. cbn [world made written launched].
    rewrite Ho. cbn [fst snd written]. split; [reflexivity|discriminate].
Qed.

(** The branch for one resolved file: where it writes and what it returns. *)
Lemma resolved_outcome (file : File.t) (target dir : string) (ls : list Launch)
    (h : Host) :
  let result := (exec_ ensure_folder os dir;
                 exec_ fetch os file target;
                 exec_ for_each (launch os) ls;
                 done (Some target)) h in
  (forall p, p <> target -> written (snd result) !! p = written h !! p)
  /\ (forall o, fst result = Done o ->
                o = Some target /\ is_Some (written (snd result) !! target)).
Proof.
  cbn zeta. unfold and_then, done.
  pose proof (ensure_folder_written dir h) as He.
  destruct (ensure_folder os dir h) as [[[]|e|] h1]; cbn [snd] in He;
    try (cbn [fst snd]; rewrite He; split; [reflexivity|discriminate]).
  destruct (fetch_written file target h1) as [Hf Hd].
  destruct (fetch os file target h1) as [[[]|e|] h2]; cbn [fst snd] in Hf, Hd |- *;
    try (split; [intros p Hp; rewrite Hf, He by exact Hp; reflexivity|discriminate]).
  pose proof (for_each_launch_written ls h2) as Hl.
  destruct (for_each (launch os) ls h2) as [[[]|e|] h3]; cbn [fst snd] in Hl |- *;
    rewrite Hl;
    (split; [intros p Hp; rewrite Hf, He by exact Hp; reflexivity|]);
    try discriminate.
  intros o Ho. injection Ho as Ho. subst o. split; [reflexivity|]. now apply Hd.
Qed.

End DownloadFrames.

(** X19. [File.download] hands its folder argument to [download] in the
    place of the file name: when it returns a path, the file was written
    under the Downloads folder of the home directory, named by the folder
    argument if one was given and by the file name of the [File]
    otherwise; the [File] records that path and that it is downloaded. *)
Theorem file_download_destination (net : Network) (os : Os) (fuel : nat)
    (file : File.t) (path_folder : option string) (h : Host)
    (path : option string) (file' : File.t) :
  has_list_param (File.url file) = false ->
  let result := file_download net os (S fuel) file path_folder h in
  fst result = Done (path, file') ->
  let target := join os (join os (home os) "Downloads")
                  (default (File.filename file) path_folder) in
  path = Some target
  /\ File.path file' = Some target
  /\ File.downloaded file' = true
  /\ is_Some (written (snd result) !! target).
Proof.
  intros Hu result Hr target. subst result. unfold file_download in Hr |- *.
  unfold and_then in Hr |- *.
  rewrite (download_resolved net os fuel (File.url file) (Some (File.filename file))
             path_folder None "auto" "pretty" None None (PlaylistFlag false) file
             None None h eq_refl Hu) in Hr |- *.
  destruct (resolved_outcome os file (destination os path_folder None file)
              (folder os None) (launches os None None (destination os path_folder None file))
              h) as [_ Hd].
  cbn zeta in Hd.
  match type of Hr with
  | context [match ?m with _ => _ end] => destruct m as [[o|e|] h1] eqn:E
  end; try discriminate.
  unfold done in Hr |- *. cbn [fst snd] in Hr |- *. injection Hr as <- <-.
  destruct (Hd o eq_refl) as [-> Hw]. cbn [fst snd] in Hw.
  cbn [File.path File.downloaded]. repeat split; exact Hw.
Qed.

Lemma file_download_destination_witness :
  fst (file_download net_single (os_serving ["abc"]) 1 file_clip (Some "videos")
         host_active)
  = Done (Some "/home/user/Downloads/videos",
          {| File.status := "tunnel"; File.url := "https://youtu.be/x";
             File.tunnel := "https://backup.example/tunnel?id=1";
             File.filename := "clip.mp4"; File.extension := Some "mp4";
             File.downloaded := true;
             File.path := Some "/home/user/Downloads/videos" |})
  /\ written (snd (file_download net_single (os_serving ["abc"]) 1 file_clip
                     (Some "videos") host_active))
     !! "/home/user/Downloads/videos" = Some "abc".
Proof.
  assert (E : fst (file_download net_single (os_serving ["abc"]) 1 file_clip
                     (Some "videos") host_active)
              = Done (Some "/home/user/Downloads/videos",
                      {| File.status := "tunnel"; File.url := "https://youtu.be/x";
                         File.tunnel := "https://backup.example/tunnel?id=1";
                         File.filename := "clip.mp4"; File.extension := Some "mp4";
                         File.downloaded := true;
                         File.path := Some "/home/user/Downloads/videos" |}))
    by (vm_compute; reflexivity).
  split; [exact E|].
  destruct (file_download_destination net_single (os_serving ["abc"]) 0 file_clip
              (Some "videos") host_active _ _ eq_refl E) as [_ [_ [_ [x Hx]]]].
  vm_compute. reflexivity.
Defined.

(** ** Playlists *)

Lemma is_prefix_app (p s : string) :
  PyStr.is_prefix p s = true <-> exists t, s = (p ++ t)%string.
Proof.
  revert s. induction p as [|a p IH]; intros s; cbn [PyStr.is_prefix].
  - split; [intros _; now exists s|reflexivity].
  - destruct s as [|b s].
    + split; [discriminate|]. intros [t Ht]. discriminate Ht.
    + rewrite andb_true_iff, IH. split.
      * intros [Hab [t ->]]. apply Ascii.eqb_eq in Hab as ->. now exists t.
      * intros [t Ht].
        change (String a p ++ t)%string with (String a (p ++ t))%string in Ht.
        injection Ht as -> ->. split; [apply Ascii.eqb_refl|now exists t].
Qed.

(** X20. [download] takes a URL for a playlist exactly when it holds an
    ampersand or question mark followed by [list=] and at least one
    character that is no ampersand. *)
Theorem has_list_param_iff (url : string) :
  has_list_param url = true
  <-> exists before sep c after,
        (sep = "&"%char \/ sep = "?"%char)
        /\ c <> "&"%char
        /\ url = (before ++ String sep ("list=" ++ String c after))%string.
Proof.
  split.
  - induction url as [|a url IH]; [discriminate|]. cbn [has_list_param].
    intros H. apply orb_true_iff in H as [H|H].
    + apply andb_true_iff in H as [H Hx]. apply andb_true_iff in H as [Ha Hp].
      apply is_prefix_app in Hp as [t ->].
      change (String.get 5 ("list=" ++ t)%string) with (String.get 0 t) in Hx.
      destruct t as [|c after]; [discriminate|]. cbn [String.get] in Hx.
      apply negb_true_iff, Ascii.eqb_neq in Hx.
      exists "", a, c, after. repeat split; auto.
      apply orb_true_iff in Ha as [Ha|Ha]; apply Ascii.eqb_eq in Ha; auto.
    + destruct (IH H) as [before [sep [c [after [Hs [Hc ->]]]]]].
      exists (String a before), sep, c, after. repeat split; auto.
  - intros [before [sep [c [after [Hs [Hc ->]]]]]].
    induction before as [|a before IH].
    + change ("" ++ String sep ("list=" ++ String c after))%string
        with (String sep ("list=" ++ String c after))%string.
      cbn [has_list_param].
      assert (Hp : PyStr.is_prefix "list=" ("list=" ++ String c after)%string = true)
        by (apply is_prefix_app; eauto).
      rewrite Hp.
      change (String.get 5 ("list=" ++ String c after)%string) with (Some c).
      apply Ascii.eqb_neq in Hc. cbn match. rewrite Hc.
      destruct Hs as [-> | ->]; reflexivity.
    + change (String a before ++ String sep ("list=" ++ String c after))%string
        with (String a (before ++ String sep ("list=" ++ String c after)))%string.
      cbn [has_list_param]. rewrite IH. apply orb_true_r.
Qed.

Example playlist_urls :
  has_list_param "https://youtube.com/watch?v=x&list=PL1" = true
  /\ has_list_param "https://youtube.com/playlist?list=PL1" = true
  /\ has_list_param "https://youtube.com/watch?v=x&list=" = false
  /\ has_list_param "https://youtube.com/watch?v=x&list=&t=1" = false
  /\ has_list_param "list=PL1" = false
  /\ has_list_param "https://example.com/?playlist=1" = false.
Proof. repeat split; reflexivity. Qed.

(** X21. For a playlist, by flag, by link or by the list parameter of the
    URL, [download] pays no attention to a [File] passed to it nor to
    [show] and [play], and never returns a path. *)
Theorem download_playlist_ignores_file (net : Network) (os : Os) (fuel : nat)
    (url quality filename path_folder : option string)
    (download_mode filename_style : string) (audio_format codec : option string)
    (playlist : PlaylistArg) (file : option File.t) (show play : option bool)
    (h : Host) :
  playlist_truthy playlist = true
  \/ (exists u, url = Some u /\ has_list_param u = true) ->
  download net os fuel url quality filename path_folder download_mode filename_style
    audio_format codec playlist file show play h
  = download net os fuel url quality filename path_folder download_mode filename_style
      audio_format codec playlist None None None h
  /\ (forall path,
        fst (download net os fuel url quality filename path_folder download_mode
               filename_style audio_format codec playlist file show play h)
        = Done path ->
        path = None).
Proof.
  intros Hb. destruct fuel as [|fuel]; [split; [reflexivity|discriminate]|].
  assert (E : forall file show play,
             download net os (S fuel) url quality filename path_folder download_mode
               filename_style audio_format codec playlist file show play h
             = match video_urls os match playlist with
                                   | PlaylistLink link => Some link
                                   | PlaylistFlag _ => url
                                   end with
               | None => fail ExternalError
               | Some items =>
                   exec_ for_each
                       (fun item_url =>
                          exec_ (match match playlist with
                                       | PlaylistLink link => Some link
                                       | PlaylistFlag _ => url
                                       end with
                                 | Some _ => done tt
                                 | None => fail AttributeError
                                 end);
                          exec_ download net os fuel (Some item_url) quality filename
                                 path_folder download_mode filename_style audio_format
                                 codec (PlaylistFlag false) None None None;
                          done tt)
                       items;
                   done None
               end h).
  { intros f s p. cbn [download]. unfold and_then at 1.
    destruct (playlist_truthy playlist) eqn:Ep.
    - reflexivity.
    - destruct Hb as [Hb|[u [-> Hu]]]; [discriminate|].
      unfold done at 1. now rewrite Hu. }
  split; [now rewrite !E|].
  intros path. rewrite E.
  destruct (video_urls os _) as [items|]; [|discriminate].
  unfold and_then. destruct (for_each _ items h) as [[[]|e|] h1]; try discriminate.
  unfold done. cbn [fst]. now intros [= <-].
Qed.

Lemma download_playlist_ignores_file_witness :
  download net_single (os_serving ["abc"]) 1
    (Some "https://youtube.com/watch?v=x&list=PL1") None None None "auto" "pretty"
    None None (PlaylistFlag false) (Some file_clip) None (Some true) host_active
  = download net_single (os_serving ["abc"]) 1
      (Some "https://youtube.com/watch?v=x&list=PL1") None None None "auto" "pretty"
      None None (PlaylistFlag false) None None None host_active
  /\ (forall path,
        fst (download net_single (os_serving ["abc"]) 1
               (Some "https://youtube.com/watch?v=x&list=PL1") None None None "auto"
               "pretty" None None (PlaylistFlag false) (Some file_clip) None (Some true)
               host_active)
        = Done path ->
        path = None).
Proof.
  apply (download_playlist_ignores_file net_single (os_serving ["abc"]) 1
           (Some "https://youtube.com/watch?v=x&list=PL1") None None None "auto"
           "pretty" None None (PlaylistFlag false) (Some file_clip) None (Some true)
           host_active).
  right. exists "https://youtube.com/watch?v=x&list=PL1". split; reflexivity.
Defined.

(** X22. Under a given file name every call of [download] has one
    destination, the join of the folder and that name, whatever the URL and
    the [File] are: it changes no other path; when it returns a path, it is
    that one and a file is there; and when it returns from a playlist of at
    least one item, none of them a playlist itself, a file is there as well,
    the items having been written one over the other. *)
Theorem download_one_target (net : Network) (os : Os) (fuel : nat)
    (name : string) (path_folder : option string)
    (download_mode filename_style : string) (audio_format codec : option string) :
  forall (url quality : option string) (playlist : PlaylistArg)
         (file : option File.t) (show play : option bool) (h : Host),
    let target := join os (folder os path_folder) name in
    let result := download net os fuel url quality (Some name) path_folder
                    download_mode filename_style audio_format codec playlist file
                    show play h in
    (forall p, p <> target -> written (snd result) !! p = written h !! p)
    /\ (forall path,
          fst result = Done path ->
          (path = None /\ takes_for_playlist playlist url)
          \/ (path = Some target /\ is_Some (written (snd result) !! target)))
    /\ (forall items,
          fst result = Done None ->
          video_urls os match playlist with
                        | PlaylistLink link => Some link
                        | PlaylistFlag _ => url
                        end = Some items ->
          items <> [] ->
          Forall (fun item => has_list_param item = false) items ->
          is_Some (written (snd result) !! target)).
Proof.
  induction fuel as [|fuel IH]; intros url quality playlist file show play h;
    cbn zeta.
  { cbn [download]. unfold starved. cbn [fst snd].
    split; [reflexivity|]. split; intros; discriminate. }
  set (target := join os (folder os path_folder) name).
  assert (Hrest : forall file1 h1,
             let r :=
               (exec_ ensure_folder os (folder os path_folder);
                exec_ fetch os file1 (destination os (Some name) path_folder file1);
                exec_ for_each (launch os)
                        (launches os show play
                           (destination os (Some name) path_folder file1));
                done (Some (destination os (Some name) path_folder file1))) h1 in
             (forall p, p <> target -> written (snd r) !! p = written h1 !! p)
             /\ (forall path, fst r = Done path ->
                              path = Some target
                              /\ is_Some (written (snd r) !! target))).
  { intros file1 h1.
    exact (resolved_outcome os file1 (destination os (Some name) path_folder file1)
             (folder os path_folder)
             (launches os show play (destination os (Some name) path_folder file1))
             h1). }
  assert (Hone : forall h0 : Host,
             let r :=
               (exec file <-
                  match file with
                  | Some f => done f
                  | None =>
                      match url with
                      | Some u =>
                          on_world (get net fuel u quality download_mode
                                        filename_style audio_format codec)
                      | None => fail AttributeError
                      end
                  end;
                let target := destination os (Some name) path_folder file in
                exec_ ensure_folder os (folder os path_folder);
                exec_ fetch os file target;
                exec_ for_each (launch os) (launches os show play target);
                done (Some target)) h0 in
             (forall p, p <> target -> written (snd r) !! p = written h0 !! p)
             /\ (forall path, fst r = Done path ->
                              path = Some target
                              /\ is_Some (written (snd r) !! target))).
  { intros h0. cbn zeta. rewrite and_then_unfold.
    destruct file as [f|].
    - change (done f h0) with (Done f, h0). cbn beta iota. apply Hrest.
    - destruct url as [u|];
        [|unfold fail; cbn [fst snd]; split; [reflexivity|discriminate]].
      destruct (on_world_frame (get net fuel u quality download_mode filename_style
                                    audio_format codec) h0) as [_ [Hw _]].
      destruct (on_world _ h0) as [[f1|e|] h1]; cbn [fst snd] in Hw |- *;
        try (split; [now rewrite Hw|discriminate]).
      destruct (Hrest f1 h1) as [Hf Hp]. rewrite <- Hw. now split. }
  assert (Hitems : forall (u0 : option string) (items : list string) (h0 : Host),
             let r :=
               for_each
                 (fun item_url =>
                    exec_ (match u0 with
                           | Some _ => done tt
                           | None => fail AttributeError
                           end);
                    exec_ download net os fuel (Some item_url) quality (Some name)
                           path_folder download_mode filename_style audio_format
                           codec (PlaylistFlag false) None None None;
                    done tt)
                 items h0 in
             (forall p, p <> target -> written (snd r) !! p = written h0 !! p)
             /\ (fst r = Done tt -> items <> [] ->
                 Forall (fun item => has_list_param item = false) items ->
                 is_Some (written (snd r) !! target))).
  { intros u0 items. induction items as [|item items IHi]; intros h0; cbn zeta;
      cbn [for_each]; [split; [reflexivity|congruence]|].
    rewrite and_then_unfold. rewrite and_then_unfold.
    destruct u0 as [u0|];
      [|unfold fail; cbn [fst snd]; split; [reflexivity|discriminate]].
    change (done tt h0) with (Done tt, h0). cbn beta iota. rewrite and_then_unfold.
    destruct (IH (Some item) quality (PlaylistFlag false) None None None h0)
      as [Hframe [Hpath _]].
    fold target in Hframe, Hpath.
    destruct (download net os fuel (Some item) quality (Some name) path_folder
                download_mode filename_style audio_format codec (PlaylistFlag false)
                None None None h0) as [[o|e|] h1]; cbn [fst snd] in Hframe, Hpath |- *;
      try (split; [exact Hframe|discriminate]).
    change (done tt h1) with (Done tt, h1). cbn beta iota.
    destruct (IHi h1) as [Hframe' Hsome']. cbn zeta in Hframe', Hsome'. split.
    - intros p Hp. rewrite Hframe' by exact Hp. now apply Hframe.
    - intros Hdone _ Hall. apply Forall_cons in Hall as [Hitem Hall].
      destruct items as [|item' items'].
      + change (for_each ?f [] h1) with (Done tt, h1). cbn [fst snd].
        destruct (Hpath o eq_refl) as [[_ [Ht|[u1 [[= <-] Hu1]]]]|[_ Hs]];
          [discriminate Ht|congruence|exact Hs].
      + apply Hsome'; [exact Hdone|discriminate|exact Hall]. }
  assert (Hmany : forall h0,
             let r :=
               match video_urls os match playlist with
                                   | PlaylistLink link => Some link
                                   | PlaylistFlag _ => url
                                   end return H (option string) with
               | None => fail ExternalError
               | Some items =>
                   exec_ for_each
                       (fun item_url =>
                          exec_ (match match playlist with
                                       | PlaylistLink link => Some link
                                       | PlaylistFlag _ => url
                                       end with
                                 | Some _ => done tt
                                 | None => fail AttributeError
                                 end);
                          exec_ download net os fuel (Some item_url) quality
                                 (Some name) path_folder download_mode
                                 filename_style audio_format codec
                                 (PlaylistFlag false) None None None;
                          done tt)
                       items;
                   done None
               end h0 in
             (forall p, p <> target -> written (snd r) !! p = written h0 !! p)
             /\ (forall path, fst r = Done path -> path = None)
             /\ (forall items,
                   fst r = Done None ->
                   video_urls os match playlist with
                                 | PlaylistLink link => Some link
                                 | PlaylistFlag _ => url
                                 end = Some items ->
                   items <> [] ->
                   Forall (fun item => has_list_param item = false) items ->
                   is_Some (written (snd r) !! target))).
  { intros h0. cbn zeta.
    destruct (video_urls os _) as [items|];
      [|unfold fail; cbn [fst snd]; split; [reflexivity|split; discriminate]].
    rewrite and_then_unfold.
    destruct (Hitems match playlist with
                     | PlaylistLink link => Some link
                     | PlaylistFlag _ => url
                     end items h0) as [Hframe Hsome].
    cbn zeta in Hframe, Hsome.
    destruct (for_each _ items h0) as [[[]|e|] h1]; cbn [fst snd] in Hframe, Hsome |- *;
      try (split; [exact Hframe|split; discriminate]).
    change (done None h1) with (Done (@None string), h1). cbn [fst snd].
    split; [exact Hframe|]. split; [now intros path [= <-]|].
    intros items' _ [= <-] Hne Hall. now apply Hsome. }
  cbn [download]. rewrite and_then_unfold.
  destruct (playlist_truthy playlist) eqn:Ep.
  - change (done true h) with (Done true, h). cbn beta iota.
    destruct (Hmany h) as [Hframe [Hnone Hsome]]. cbn zeta in *.
    split; [exact Hframe|]. split; [|exact Hsome].
    intros path Hd. left. split; [now apply Hnone|now left].
  - destruct url as [u|];
      [|unfold fail; cbn [fst snd]; split; [reflexivity|split; intros; discriminate]].
    change (done (has_list_param u) h) with (Done (has_list_param u), h). cbn beta iota.
    destruct (has_list_param u) eqn:Eu.
    + destruct (Hmany h) as [Hframe [Hnone Hsome]]. cbn zeta in *.
      split; [exact Hframe|]. split; [|exact Hsome].
      intros path Hd. left. split; [now apply Hnone|right; eauto].
    + destruct (Hone h) as [Hframe Hpath]. cbn zeta in *.
      split; [exact Hframe|]. split.
      * intros path Hd. right. now apply Hpath.
      * intros items Hd _ _ _. now destruct (Hpath None Hd).
Qed.

Lemma download_one_target_witness :
  let result :=
    download net_resolving (os_numbered "abc" "xyz") 3 None None (Some "all.mp4") None
      "auto" "pretty" None None (PlaylistLink "https://youtube.com/playlist?list=PL1")
      None None None host_active in
  fst result = Done None
  /\ is_Some (written (snd result) !! "/home/user/Downloads/all.mp4")
  /\ written (snd result) !! "/home/user/Downloads/clip.mp4"
     = written host_active !! "/home/user/Downloads/clip.mp4"
  /\ map_to_list (written (snd result)) = [("/home/user/Downloads/all.mp4", "xyz")]
  /\ map (fun r => (method r, target r)) (wire (world (snd result)))
     = [(POST, "https://cobalt.example/"); (GET, "https://backup.example/tunnel?id=1");
        (POST, "https://cobalt.example/"); (GET, "https://backup.example/tunnel?id=1")].
Proof.
  cbn zeta.
  assert (Hd : fst (download net_resolving (os_numbered "abc" "xyz") 3 None None
                      (Some "all.mp4") None "auto" "pretty" None None
                      (PlaylistLink "https://youtube.com/playlist?list=PL1")
                      None None None host_active) = Done None)
    by (vm_compute; reflexivity).
  destruct (download_one_target net_resolving (os_numbered "abc" "xyz") 3 "all.mp4" None
              "auto" "pretty" None None None None
              (PlaylistLink "https://youtube.com/playlist?list=PL1") None None None
              host_active) as [Hframe [_ Hsome]].
  split; [exact Hd|]. split; [|split; [|split]].
  - apply (Hsome ["https://youtu.be/a"; "https://youtu.be/b"] Hd eq_refl);
      [discriminate|]. repeat constructor.
  - apply Hframe. vm_compute. discriminate.
  - vm_compute. reflexivity.
  - vm_compute. reflexivity.
Defined.

(** ** The retries end *)

(** X23. When every canonical URL the probes can report lies in a finite
    set, a call of [get] makes at most one retry more than that set has
    URLs outside [skipped_instances]: with that much fuel it always ends,
    in a [File] or in an exception. *)
Theorem get_terminates (net : Network) (urls : gset string) (fuel : nat)
    (url : string) (quality : option string) (download_mode filename_style : string)
    (audio_format codec : option string) (w : World) :
  (forall now r u, probe_response net now r = ProbeOk u -> u ∈ urls) ->
  (size (urls ∖ list_to_set (skipped_instances (self w))) + 2 <= fuel)%nat ->
  fst (get net fuel url quality download_mode filename_style audio_format codec w)
  <> OutOfFuel.
Proof.
  intros Hp Hfuel.
  destruct fuel as [|[|n]]; try lia.
  destruct (ensure_instance net w) as [[u|e|] w1] eqn:Ee.
  2: { rewrite (get_not_ensured _ _ _ _ _ _ _ _ _ _ _ Ee). discriminate. }
  2: { apply ensure_instance_spec in Ee as [[_ [[=] _]]|[_ Ee]].
       apply get_instance_spec in Ee as [_ []]. }
  assert (Hk1 : skipped_instances (self w1) = skipped_instances (self w))
    by (now apply (ensure_instance_skipped net w (Return u) w1)).
  rewrite (get_attempt _ _ _ _ _ _ _ _ _ _ _ Ee). rewrite fst_try_connector_fuel.
  destruct (post_response net _ _) as [st tn fn|code| |]; try discriminate.
  match goal with
  | |- context [on_error ?k _ _] =>
      destruct (on_error_cases k url code) as [E|[e E]]; rewrite E
  end; [|discriminate].
  rewrite retry_unfold. cbn [self wire]. unfold bind.
  destruct (get_instance net _) as [[u'|e'|] w4] eqn:Eg; [|discriminate|].
  - apply (get_instance_fresh net urls Hp) in Eg as [Hf4 Hk4].
    cbn [self skipped_instances skip_current] in Hk4.
    apply (get_from_fresh net urls Hp); [exact Hf4|]. rewrite Hk4.
    pose proof (size_skip_mono urls (skipped_instances (self w1))
                  (api_instance (self w1))) as Hle.
    rewrite Hk1 in Hle |- *. lia.
  - apply get_instance_spec in Eg as [_ []].
Qed.

Lemma get_terminates_witness :
  fst (get (net_answering "error.api.fetch.failed") 5 "https://youtu.be/x" None "auto"
           "pretty" None None world_active)
  <> OutOfFuel.
Proof.
  apply (get_terminates (net_answering "error.api.fetch.failed") example_urls 5
           "https://youtu.be/x" None "auto" "pretty" None None world_active).
  - intros now r u. cbn [net_answering probe_response].
    destruct (String.eqb (target r) "https://cobalt.example");
      [intros [= <-]; unfold example_urls; set_solver|].
    destruct (String.eqb (target r) "https://backup.example");
      [intros [= <-]; unfold example_urls; set_solver|discriminate].
  - vm_compute. lia.
Defined.

(** ** Arguments that reach the instance *)

(** X24. Whatever the quality argument, every request body a call of [get]
    submits carries as [videoQuality] one of the ten canonical tokens. *)
Theorem get_sends_canonical_quality (net : Network) (fuel : nat) (url : string)
    (quality : option string) (download_mode filename_style : string)
    (audio_format codec : option string) (w : World) :
  Forall (fun r => forall json, payload r = Some json ->
                                Body.videoQuality json ∈ canonical_qualities)
         (sent_since w (snd (get net fuel url quality download_mode filename_style
                                 audio_format codec w))).
Proof.
  apply extends_sent_since.
  apply (get_invariant net (fun _ => True)
           (fun r => forall json, payload r = Some json ->
                                  Body.videoQuality json ∈ canonical_qualities)
           url filename_style audio_format codec (normalize_quality quality));
    auto.
  - intros c r _ [_ [_ Hp]] json Hj. congruence.
  - intros c0 c _ _ json [= <-]. apply normalize_quality_canonical.
Qed.

Lemma on_error_uniform (url code : string) :
  (forall retry, on_error retry url code = retry)
  \/ (exists e, forall retry, on_error retry url code = raise e).
Proof.
  unfold on_error.
  destruct (PyStr.index _ 2) as [category|]; [|right; eauto].
  repeat match goal with
         | |- context [if ?b then _ else _] => destruct b
         end; eauto.
Qed.

Lemma and_then_ext {A B} (m1 m2 : H A) (k1 k2 : A -> H B) (h : Host) :
  (forall h0, m1 h0 = m2 h0) ->
  (forall a h0, k1 a h0 = k2 a h0) ->
  and_then m1 k1 h = and_then m2 k2 h.
Proof.
  intros Hm Hk. unfold and_then. rewrite Hm.
  destruct (m2 h) as [[a|e|] h1]; auto.
Qed.

Lemma for_each_ext {A} (f g : A -> H unit) (l : list A) :
  (forall x h, f x h = g x h) -> forall h, for_each f l h = for_each g l h.
Proof.
  intros E. induction l as [|x l IH]; intros h; cbn [for_each]; [reflexivity|].
  unfold and_then. rewrite E. destruct (g x h) as [[[]|e|] h1]; auto.
Qed.

(** X25. The [download_mode] argument has no effect: [get] and [download]
    behave the same for every value of it, since it is put in no request
    body. *)
Theorem download_mode_is_ignored (net : Network) (os : Os) (fuel : nat)
    (mode mode' : string) :
  (forall url quality filename_style audio_format codec w,
      get net fuel url quality mode filename_style audio_format codec w
      = get net fuel url quality mode' filename_style audio_format codec w)
  /\ (forall url quality filename path_folder filename_style audio_format codec
             playlist file show play h,
         download net os fuel url quality filename path_folder mode filename_style
           audio_format codec playlist file show play h
         = download net os fuel url quality filename path_folder mode' filename_style
             audio_format codec playlist file show play h).
Proof.
  assert (Hget : forall n url quality filename_style audio_format codec w,
             get net n url quality mode filename_style audio_format codec w
             = get net n url quality mode' filename_style audio_format codec w).
  { induction n as [|n IH]; intros; [reflexivity|].
    destruct (ensure_instance net w) as [[u|e|] w1] eqn:Ee.
    - rewrite !(get_attempt _ _ _ _ _ _ _ _ _ _ _ Ee).
      destruct (post_response net _ _) as [st tn fn|code| |]; try reflexivity.
      destruct (on_error_uniform url code) as [E|[e E]]; rewrite !E; [|reflexivity].
      unfold try_connector. rewrite !retry_unfold. unfold bind.
      destruct (get_instance net _) as [[u'|e'|] w4]; try reflexivity.
      now rewrite IH.
    - now rewrite !(get_not_ensured _ _ _ _ _ _ _ _ _ _ _ Ee).
    - now rewrite !(get_ensure_out_of_fuel _ _ _ _ _ _ _ _ _ _ Ee). }
  split; [apply Hget|].
  induction fuel as [|n IH]; intros; [reflexivity|]. cbn [download].
  apply and_then_ext; [reflexivity|]. intros [|] h1.
  - destruct (video_urls os _) as [items|]; [|reflexivity].
    apply and_then_ext; [|reflexivity]. intros h2. apply for_each_ext.
    intros item h3. apply and_then_ext; [reflexivity|]. intros _ h4.
    apply and_then_ext; [|reflexivity]. intros h5. apply IH.
  - apply and_then_ext; [|reflexivity]. intros h2.
    destruct file as [f|]; [reflexivity|]. destruct url as [u|]; [|reflexivity].
    unfold on_world. now rewrite Hget.
Qed.

(** ** The progress line *)

Lemma take_chars_length (n : nat) (s : string) :
  String.length (take_chars n s) = Nat.min n (String.length s).
Proof.
  revert s. induction n as [|n IH]; intros [|c s]; cbn; auto.
Qed.

Lemma string_length_app (a b : string) :
  String.length (a ++ b)%string = (String.length a + String.length b)%nat.
Proof.
  induction a as [|c a IH]; [reflexivity|].
  change (String c a ++ b)%string with (String c (a ++ b))%string. cbn. now rewrite IH.
Qed.

(** X26. With at least six columns free, the line [shorten] returns leaves
    three of them unused, whether it cut the line or not; with fewer, the
    cut counts from the end of the line and the result can be wider than
    the terminal. *)
Theorem shorten_fits (columns : Z) (s : string) (additional_len : Z) :
  let free_columns := columns - additional_len in
  let line := shorten columns s additional_len in
  (6 <= free_columns -> Z.of_nat (String.length line) <= free_columns - 3)
  /\ (free_columns < 6 -> Z.of_nat (String.length s) + 3 > free_columns ->
      Z.of_nat (String.length line)
      = Z.max 0 (Z.of_nat (String.length s) + (free_columns - 6)) + 3)
  /\ (Z.of_nat (String.length s) + 3 <= free_columns -> line = s).
Proof.
  cbn zeta. unfold shorten.
  destruct (Z.of_nat (String.length s) + 3 >? columns - additional_len) eqn:E.
  - apply Z.gtb_lt in E. split; [|split; [|lia]].
    + intros Hf. rewrite string_length_app. unfold slice_to.
      destruct (0 <=? columns - additional_len - 6) eqn:E0;
        [|apply Z.leb_gt in E0; lia].
      rewrite take_chars_length. cbn [String.length]. lia.
    + intros Hf _. rewrite string_length_app. unfold slice_to.
      destruct (0 <=? columns - additional_len - 6) eqn:E0;
        [apply Z.leb_le in E0; lia|].
      rewrite take_chars_length. cbn [String.length]. lia.
  - assert (Hle : Z.of_nat (String.length s) + 3 <= columns - additional_len).
    { destruct (Z.gtb_spec (Z.of_nat (String.length s) + 3) (columns - additional_len));
        [discriminate|lia]. }
    split; [lia|]. split; [lia|reflexivity].
Qed.

Example shorten_examples :
  shorten 20 "/home/user/Downloads/clip.mp4" 4 = "/home/user..."
  /\ shorten 80 "/home/user/Downloads/clip.mp4" 4 = "/home/user/Downloads/clip.mp4"
  /\ shorten 8 "/home/user/Downloads/clip.mp4" 4 = "/home/user/Downloads/clip.m...".
Proof. repeat split; reflexivity. Qed.
